(** * Customer-data ETL: the pandas and the PySpark pipelines

    Shallow embedding of [Pandas_Assessment_Solution.py] and
    [Pyspark_Assessment_Solution.py].  Both scripts read a pipe-delimited
    file with one [|H|] header line and many [|D|] data lines, bind the
    data lines to the header's column names, parse three date columns,
    null over-long fields, drop rows without their mandatory fields, keep
    the latest row per customer, derive three columns and write one table
    per country.

    The scripts are thin layers over pandas and Spark, so the embedding
    has a model of every library call they make.  Each model is stated
    where it is defined.  Common to all of them:
    - a file is the list of its lines, without line terminators;
    - text is ASCII, and no line holds a double quote (pandas would
      treat it as a quoting character);
    - a data frame is its list of column names and its list of rows, a
      row being the list of its cells;
    - pandas is pandas 2: [to_datetime] with a format matches the text
      against the regular expression of the format and keeps the days
      that a nanosecond timestamp holds;
    - Spark runs with its defaults before 4.0: ANSI mode off (an index
      outside an array and a failed parse give null) and column names
      resolved without regard to case;
    - the clock is a parameter [now], and so are the storage and the
      Spark session, as the predicate [fails] telling which paths
      cannot be written and which statements of [spark.sql] raise. *)

From Stdlib Require Import String Ascii List ZArith Bool Lia Arith.
From Stdlib Require Import Permutation Sorted.
Import ListNotations.

Local Open Scope string_scope.
Local Open Scope list_scope.

(** ** Exceptions and the error monad *)

(** The exceptions the two scripts can meet.  Every function of the
    scripts logs and re-raises; [main] alone swallows the exception. *)
Inductive error : Type :=
| HeaderNotFound              (* ValueError("Header row not found.") *)
| EmptyDataError              (* read_csv on a file without any record *)
| ParserError                 (* read_csv: a record longer than the first *)
| IndexError                  (* data.iloc[:, 1] on a one-column frame *)
| LengthMismatch              (* staging_df.columns = header *)
| KeyError (name : string)    (* df[name] / data[name]: no such column *)
| WriteFailure (path : string)
| TableNotCreated (statement : string).  (* spark.sql(statement) *)

Inductive result (A : Type) : Type :=
| Ok (a : A)
| Err (e : error).

Arguments Ok {A} a.
Arguments Err {A} e.

Definition bind {A B : Type} (m : result A) (k : A -> result B) : result B :=
  match m with
  | Ok a => k a
  | Err e => Err e
  end.

Notation "x <- m ;; k" := (bind m (fun x => k))
  (at level 61, m at next level, right associativity).

Fixpoint mapM {A B : Type} (f : A -> result B) (l : list A) : result (list B) :=
  match l with
  | [] => Ok []
  | x :: xs => y <- f x ;; ys <- mapM f xs ;; Ok (y :: ys)
  end.

(** ** Text *)

Module Text.

(** [line.startswith(p)] *)
Fixpoint startswith (s p : string) {struct p} : bool :=
  match p with
  | EmptyString => true
  | String a p' =>
      match s with
      | EmptyString => false
      | String b s' => Ascii.eqb a b && startswith s' p'
      end
  end.

(** [s.split(sep)] for a one-character separator (also Spark's
    [split(col, "\\|")], which keeps trailing empty tokens): the tokens
    between the separators, never an empty list. *)
Fixpoint split (sep : ascii) (s : string) : list string :=
  match s with
  | EmptyString => [EmptyString]
  | String c s' =>
      if Ascii.eqb c sep then EmptyString :: split sep s'
      else match split sep s' with
           | [] => [String c EmptyString]
           | t :: ts => String c t :: ts
           end
  end.

(** The ASCII characters [str.strip()] removes: tab, line feed, vertical
    tab, form feed, carriage return, the four separators 28 to 31, and
    space. *)
Definition is_space (c : ascii) : bool :=
  let n := nat_of_ascii c in
  (((9 <=? n) && (n <=? 13)) || ((28 <=? n) && (n <=? 32)))%nat.

Fixpoint lstrip (s : string) : string :=
  match s with
  | EmptyString => EmptyString
  | String c s' => if is_space c then lstrip s' else s
  end.

Fixpoint rstrip (s : string) : string :=
  match s with
  | EmptyString => EmptyString
  | String c s' =>
      match rstrip s' with
      | EmptyString => if is_space c then EmptyString else String c EmptyString
      | t => String c t
      end
  end.

(** [s.strip()] *)
Definition strip (s : string) : string := rstrip (lstrip s).

(** Upper-case letters to lower case, for Spark's column resolution. *)
Definition lower (c : ascii) : ascii :=
  let n := nat_of_ascii c in
  if ((65 <=? n) && (n <=? 90))%nat then ascii_of_nat (n + 32) else c.

Fixpoint lowercase (s : string) : string :=
  match s with
  | EmptyString => EmptyString
  | String c s' => String (lower c) (lowercase s')
  end.

End Text.

Definition pipe : ascii := "|"%char.

(** ** Dates *)

Record date : Type := mkdate { year : Z; month : Z; day : Z }.

Module Calendar.

Local Open Scope Z_scope.

Definition is_leap (y : Z) : bool :=
  (y mod 4 =? 0) && (negb (y mod 100 =? 0) || (y mod 400 =? 0)).

Definition days_in_month (y m : Z) : Z :=
  match m with
  | 1 | 3 | 5 | 7 | 8 | 10 | 12 => 31
  | 4 | 6 | 9 | 11 => 30
  | 2 => if is_leap y then 29 else 28
  | _ => 0
  end.

(** A day of the calendar, in the years a four-digit field can hold. *)
Definition valid (d : date) : bool :=
  (1 <=? year d) && (year d <=? 9999) &&
  (1 <=? month d) && (month d <=? 12) &&
  (1 <=? day d) && (day d <=? days_in_month (year d) (month d)).

(** Days since 1970-01-01 in the proleptic Gregorian calendar. *)
Definition days_from_civil (d : date) : Z :=
  let y := if month d <=? 2 then year d - 1 else year d in
  let era := y / 400 in
  let yoe := y - era * 400 in
  let mp := (month d + 9) mod 12 in
  let doy := (153 * mp + 2) / 5 + day d - 1 in
  let doe := yoe * 365 + yoe / 4 - yoe / 100 + doy in
  era * 146097 + doe - 719468.

(** Chronological order, on the year, month and day fields. *)
Definition leb (a b : date) : bool :=
  (year a <? year b) ||
  ((year a =? year b) &&
   ((month a <? month b) || ((month a =? month b) && (day a <=? day b)))).

Definition eqb (a b : date) : bool :=
  (year a =? year b) && (month a =? month b) && (day a =? day b).

(** The two encodings of the source file.  [YMD] is pandas' ['%Y%m%d']
    and Spark's ["yyyyMMdd"]; [DMY] is ['%d%m%Y'] and ["ddMMyyyy"]. *)
Inductive encoding : Type := YMD | DMY.

Definition digit (c : ascii) : option Z :=
  let n := nat_of_ascii c in
  if ((48 <=? n) && (n <=? 57))%nat then Some (Z.of_nat (n - 48)) else None.

Fixpoint number_from (acc : Z) (s : string) : option Z :=
  match s with
  | EmptyString => Some acc
  | String c s' =>
      match digit c with
      | Some k => number_from (10 * acc + k) s'
      | None => None
      end
  end.

Definition number (s : string) : option Z := number_from 0 s.

Definition checked (y m d : option Z) : option date :=
  match y, m, d with
  | Some y, Some m, Some d =>
      let dt := mkdate y m d in if valid dt then Some dt else None
  | _, _, _ => None
  end.

(** The days a nanosecond timestamp holds: [Timestamp.min] is in the
    night of 1677-09-21 and [Timestamp.max] in the evening of
    2262-04-11. *)
Definition nanosecond (d : date) : bool :=
  leb (mkdate 1677 9 22) d && leb d (mkdate 2262 4 11).

(** Parsing a text under an encoding, strictly: eight digits, cut into
    the fields of the encoding, that name a day of the calendar in the
    years 1 to 9999.  Anything else does not parse.  This is Spark 3's
    reading of ["yyyyMMdd"] and ["ddMMyyyy"]; pandas' is [Pandas.parse]
    below. *)
Definition parse (e : encoding) (s : string) : option date :=
  if (String.length s =? 8)%nat then
    match e with
    | YMD => checked (number (substring 0 4 s)) (number (substring 4 2 s))
                     (number (substring 6 2 s))
    | DMY => checked (number (substring 4 4 s)) (number (substring 2 2 s))
                     (number (substring 0 2 s))
    end
  else None.

(** The encodings written out, as the specification names them: the
    fields zero-padded to their widths and concatenated. *)
Definition digit_char (k : Z) : ascii := ascii_of_nat (48 + Z.to_nat k).

Definition pad2 (n : Z) : string :=
  String (digit_char (n / 10)) (String (digit_char (n mod 10)) EmptyString).

Definition pad4 (n : Z) : string :=
  pad2 (n / 100) ++ pad2 (n mod 100).

Definition encode (e : encoding) (d : date) : string :=
  match e with
  | YMD => pad4 (year d) ++ pad2 (month d) ++ pad2 (day d)
  | DMY => pad2 (day d) ++ pad2 (month d) ++ pad4 (year d)
  end.

End Calendar.

(** ** Cells and frames *)

(** A cell of a data frame: null ([NaN], [NaT], [None], SQL [NULL]),
    text, a date, or a whole number (the two numeric derived columns). *)
Inductive cell : Type :=
| Null
| Str (s : string)
| Dt (d : date)
| Num (z : Z).

Definition row : Type := list cell.

Record frame : Type := mkframe { columns : list string; rows : list row }.

Definition is_null (c : cell) : bool :=
  match c with Null => true | _ => false end.

Definition cell_eqb (a b : cell) : bool :=
  match a, b with
  | Null, Null => true
  | Str s, Str t => String.eqb s t
  | Dt d, Dt e => Calendar.eqb d e
  | Num x, Num y => Z.eqb x y
  | _, _ => false
  end.

(** [row[i]]; the rows of a frame are as wide as its header, and where
    a row is shorter the missing cells read as null. *)
Definition cell_at (i : nat) (r : row) : cell := nth i r Null.

(** [row[i] = f(row[i])] *)
Fixpoint map_at (i : nat) (f : cell -> cell) (r : row) {struct r} : row :=
  match r with
  | [] => []
  | c :: t =>
      match i with
      | O => f c :: t
      | S j => c :: map_at j f t
      end
  end.

(** The positions of the columns a name resolves to, under the name
    comparison of the library. *)
Fixpoint positions (same : string -> string -> bool) (name : string)
    (cols : list string) (from : nat) : list nat :=
  match cols with
  | [] => []
  | c :: t =>
      if same name c then from :: positions same name t (S from)
      else positions same name t (S from)
  end.

(** [df[name]] as one column: the name has to resolve to exactly one
    column.  A missing name raises [KeyError] in pandas and an
    [AnalysisException] in Spark; a name borne by several columns makes
    pandas hand back a frame, on which the calls the scripts make raise,
    and is an ambiguous reference in Spark.  Both are [KeyError] here. *)
Definition resolve (same : string -> string -> bool) (name : string)
    (cols : list string) : result nat :=
  match positions same name cols 0 with
  | [i] => Ok i
  | _ => Err (KeyError name)
  end.

(** [df[name] = df[name].apply(f)] and
    [data.withColumn(name, f(data[name]))] *)
Definition apply_at (i : nat) (f : cell -> cell) (df : frame) : frame :=
  mkframe (columns df) (map (map_at i f) (rows df)).

(** [df[name] = g(row)]: every column of that name is overwritten, and
    without one the column is appended. *)
Fixpoint overwrite (same : string -> string -> bool) (name : string)
    (v : cell) (cols : list string) (r : row) : row :=
  match cols, r with
  | c :: cs, x :: xs =>
      (if same name c then v else x) :: overwrite same name v cs xs
  | _, _ => r
  end.

Definition assign (same : string -> string -> bool) (name : string)
    (g : row -> cell) (df : frame) : frame :=
  if existsb (same name) (columns df) then
    mkframe (map (fun c => if same name c then name else c) (columns df))
            (map (fun r => overwrite same name (g r) (columns df) r) (rows df))
  else
    mkframe (columns df ++ [name]) (map (fun r => r ++ [g r]) (rows df)).

(** First occurrences, in order of appearance: [Series.unique()], and
    the model of [distinct().collect()], whose order Spark leaves open. *)
Fixpoint unique_from (seen : list cell) (l : list cell) : list cell :=
  match l with
  | [] => []
  | c :: t =>
      if existsb (cell_eqb c) seen then unique_from seen t
      else c :: unique_from (c :: seen) t
  end.

Definition unique (l : list cell) : list cell := unique_from [] l.

(** [column == value], in pandas and in Spark: never true on a null
    cell nor for a null value. *)
Definition equals (value c : cell) : bool :=
  match value with
  | Null => false
  | _ => cell_eqb c value
  end.

(** The order of [Last_Consulted_Date] with null as the minimum. *)
Definition date_le (a b : cell) : bool :=
  match a, b with
  | Dt x, Dt y => Calendar.leb x y
  | Dt _, _ => false
  | _, _ => true
  end.

(** Sorting on column [j], descending, nulls last: pandas'
    [sort_values(col, ascending=False)] and Spark's
    [orderBy(col.desc())].  Rows with equal dates keep their order here;
    the libraries leave that order open. *)
Fixpoint insert_desc (j : nat) (r : row) (sorted : list row) : list row :=
  match sorted with
  | [] => [r]
  | s :: t =>
      if date_le (cell_at j s) (cell_at j r) then r :: sorted
      else s :: insert_desc j r t
  end.

Fixpoint sort_desc (j : nat) (rs : list row) : list row :=
  match rs with
  | [] => []
  | r :: t => insert_desc j r (sort_desc j t)
  end.

(** ** Clock, storage and the outcome of a run *)

(** What a run leaves behind: the tables written, in order, and whether
    it ended in an exception ([main] logs it and returns). *)
Record outcome : Type :=
  mkoutcome { written : list (string * frame); status : result unit }.

(** [f"{country}"] *)
Definition label (country : cell) : string :=
  match country with
  | Str s => s
  | _ => "None"
  end.

Definition table_name (country : cell) : string := "Table_" ++ label country.

(** [for country in countries: ...] in the pandas script: the body
    builds the table of a country and its path, then writes it.  The
    first exception, from the body or from the storage, ends the loop:
    the [try] is around the whole loop.  The loop of the PySpark script,
    which also registers every table, is [Spark.save_each]. *)
Fixpoint for_each_country (body : cell -> result (string * frame))
    (fails : string -> bool) (countries : list cell) : outcome :=
  match countries with
  | [] => mkoutcome [] (Ok tt)
  | c :: rest =>
      match body c with
      | Err e => mkoutcome [] (Err e)
      | Ok (path, table) =>
          if fails path then mkoutcome [] (Err (WriteFailure path))
          else
            let o := for_each_country body fails rest in
            mkoutcome ((path, table) :: written o) (status o)
      end
  end.

(** ** The pandas script *)

Module Pandas.

Definition column (name : string) (df : frame) : result nat :=
  resolve String.eqb name (columns df).

(** [extract_header]: the first line that starts with [|H|], stripped
    and split, without its first two tokens. *)
Fixpoint extract_header (lines : list string) : result (list string) :=
  match lines with
  | [] => Err HeaderNotFound
  | line :: rest =>
      if Text.startswith line "|H|"
      then Ok (skipn 2 (Text.split pipe (Text.strip line)))
      else extract_header rest
  end.

(** [pd.read_csv(file_path, sep="|", header=None)], with the defaults of
    the C parser.  Lines of spaces and tabs only are skipped.  The first
    record fixes the number of columns; a longer record is a
    [ParserError], a shorter one is filled with [NaN].  A token in the
    list of NA literals is read as [NaN].  Every column the script uses
    also holds its name, from the header line, so its other cells stay
    text. *)
Definition na_values : list string :=
  [""; "#N/A"; "#N/A N/A"; "#NA"; "-1.#IND"; "-1.#QNAN"; "-NaN"; "-nan";
   "1.#IND"; "1.#QNAN"; "<NA>"; "N/A"; "NA"; "NULL"; "NaN"; "None"; "n/a";
   "nan"; "null"].

Definition to_cell (token : string) : cell :=
  if existsb (String.eqb token) na_values then Null else Str token.

Fixpoint blank (line : string) : bool :=
  match line with
  | EmptyString => true
  | String c rest =>
      (Ascii.eqb c " "%char || Ascii.eqb c "009"%char) && blank rest
  end.

Definition fill (width : nat) (r : row) : row :=
  r ++ repeat Null (width - length r).

Definition read_record (width : nat) (line : string) : result row :=
  let tokens := Text.split pipe line in
  if (width <? length tokens)%nat then Err ParserError
  else Ok (fill width (map to_cell tokens)).

Definition read_csv (lines : list string) : result (nat * list row) :=
  match filter (fun l => negb (blank l)) lines with
  | [] => Err EmptyDataError
  | (first :: _) as records =>
      let width := length (Text.split pipe first) in
      data <- mapM (read_record width) records ;;
      Ok (width, data)
  end.

(** The regular expressions of the directives, as in Python's
    [strptime]: [%Y] is [\d\d\d\d], [%m] is [1[0-2]|0[1-9]|[1-9]] and
    [%d] is [3[0-1]|[1-2]\d|0[1-9]|[1-9]| [1-9]].  The alternatives are
    tried in this order, a later one only when the rest of the format,
    the continuation [k], does not match after an earlier one. *)
Definition orelse {A : Type} (a b : option A) : option A :=
  match a with
  | Some x => Some x
  | None => b
  end.

(** Two digits that pass a test. *)
Definition two {A : Type} (test : Z -> Z -> bool) (s : string)
    (k : Z -> string -> option A) : option A :=
  match s with
  | String a (String b rest) =>
      match Calendar.digit a, Calendar.digit b with
      | Some x, Some y => if test x y then k (10 * x + y)%Z rest else None
      | _, _ => None
      end
  | _ => None
  end.

(** [[1-9]] *)
Definition one {A : Type} (s : string) (k : Z -> string -> option A)
  : option A :=
  match s with
  | String a rest =>
      match Calendar.digit a with
      | Some x => if (1 <=? x)%Z then k x rest else None
      | None => None
      end
  | _ => None
  end.

(** [ [1-9]] *)
Definition blank_one {A : Type} (s : string) (k : Z -> string -> option A)
  : option A :=
  match s with
  | String c rest => if Ascii.eqb c " "%char then one rest k else None
  | _ => None
  end.

Definition year4 {A : Type} (s : string) (k : Z -> string -> option A)
  : option A :=
  two (fun _ _ => true) s
      (fun hi rest => two (fun _ _ => true) rest
                          (fun lo rest' => k (100 * hi + lo)%Z rest')).

Definition month12 {A : Type} (s : string) (k : Z -> string -> option A)
  : option A :=
  orelse (two (fun x y => (x =? 1) && (y <=? 2))%Z s k)
 (orelse (two (fun x y => (x =? 0) && (1 <=? y))%Z s k)
         (one s k)).

Definition day31 {A : Type} (s : string) (k : Z -> string -> option A)
  : option A :=
  orelse (two (fun x y => (x =? 3) && (y <=? 1))%Z s k)
 (orelse (two (fun x y => (1 <=? x) && (x <=? 2))%Z s k)
 (orelse (two (fun x y => (x =? 0) && (1 <=? y))%Z s k)
 (orelse (one s k)
         (blank_one s k)))).

(** [format_regex.match(val)]: the fields of the first match, and what
    the match leaves of the text. *)
Definition strptime (e : Calendar.encoding) (s : string)
  : option (date * string) :=
  match e with
  | Calendar.YMD =>
      year4 s (fun y r => month12 r (fun m r' => day31 r' (fun d r'' =>
        Some (mkdate y m d, r''))))
  | Calendar.DMY =>
      day31 s (fun d r => month12 r (fun m r' => year4 r' (fun y r'' =>
        Some (mkdate y m d, r''))))
  end.

(** The text parses when the match takes all of it and its fields are
    a day of the calendar that a nanosecond timestamp holds. *)
Definition parse (e : Calendar.encoding) (s : string) : option date :=
  match strptime e s with
  | Some (d, EmptyString) =>
      if Calendar.valid d && Calendar.nanosecond d then Some d else None
  | _ => None
  end.

(** [pd.to_datetime(col, format=..., errors='coerce')]: a text that
    does not parse becomes [NaT]. *)
Definition to_datetime (e : Calendar.encoding) (c : cell) : cell :=
  match c with
  | Str s =>
      match parse e s with
      | Some d => Dt d
      | None => Null
      end
  | Dt d => Dt d
  | _ => Null
  end.

Definition convert_date (name : string) (df : frame) : result frame :=
  j <- column name df ;;
  Ok (apply_at j
        (to_datetime (if String.eqb name "DOB" then Calendar.DMY
                      else Calendar.YMD)) df).

(** [lambda x: x if pd.notnull(x) and len(x) <= n else None].  The
    columns it is applied to hold text or null: the date columns have
    other names. *)
Definition within (n : nat) (c : cell) : cell :=
  match c with
  | Str s => if (String.length s <=? n)%nat then c else Null
  | _ => Null
  end.

Definition check_length (name : string) (n : nat) (df : frame)
  : result frame :=
  j <- column name df ;; Ok (apply_at j (within n) df).

(** [df = df[df[field].notnull()]] *)
Definition require (name : string) (df : frame) : result frame :=
  j <- column name df ;;
  Ok (mkframe (columns df)
        (filter (fun r => negb (is_null (cell_at j r))) (rows df))).

(** [validate_data], its two phases: the length checks, then the
    mandatory fields. *)
Definition null_long_fields (df : frame) : result frame :=
  df <- check_length "Customer_Name" 255 df ;;
  df <- check_length "Customer_Id" 18 df ;;
  df <- check_length "Vaccination_Id" 5 df ;;
  df <- check_length "Dr_Name" 255 df ;;
  df <- check_length "State" 5 df ;;
  check_length "Country" 5 df.

Definition drop_incomplete (df : frame) : result frame :=
  df <- require "Customer_Name" df ;;
  df <- require "Customer_Id" df ;;
  require "Open_Date" df.

Definition validate_data (df : frame) : result frame :=
  df <- null_long_fields df ;;
  drop_incomplete df.

(** The loop over [date_columns]. *)
Definition convert_dates (df : frame) : result frame :=
  df <- convert_date "Open_Date" df ;;
  df <- convert_date "Last_Consulted_Date" df ;;
  convert_date "DOB" df.

(** [process_and_load_staging] up to its validation: the rows whose
    second column is [D], without their first two columns, under the
    header's names, the three date columns parsed. *)
Definition load_staging (lines : list string) (header : list string)
  : result frame :=
  data <- read_csv lines ;;
  let (width, records) := data in
  if (width <? 2)%nat then Err IndexError
  else
    let staging :=
      map (skipn 2)
          (filter (fun r => cell_eqb (cell_at 1 r) (Str "D")) records) in
    if (length header =? width - 2)%nat
    then convert_dates (mkframe header staging)
    else Err LengthMismatch.

Definition process_and_load_staging (lines : list string)
    (header : list string) : result frame :=
  df <- load_staging lines header ;;
  validate_data df.

(** [groupby(key).head(1)]: the first row of every key, in the order of
    the frame; rows with a null key belong to no group. *)
Fixpoint head1 (i : nat) (seen : list cell) (rs : list row) : list row :=
  match rs with
  | [] => []
  | r :: t =>
      let k := cell_at i r in
      if is_null k || existsb (cell_eqb k) seen then head1 i seen t
      else r :: head1 i (k :: seen) t
  end.

(** [staging_df.sort_values("Last_Consulted_Date", ascending=False)
      .groupby("Customer_Id").head(1)] *)
Definition global_latest_records (df : frame) : result frame :=
  j <- column "Last_Consulted_Date" df ;;
  i <- column "Customer_Id" df ;;
  Ok (mkframe (columns df) (head1 i [] (sort_desc j (rows df)))).

(** The three lambdas of the derived columns. *)
Definition age (now : date) (dob : cell) : cell :=
  match dob with
  | Dt x => Num (year now - year x)
  | _ => Null
  end.

Definition days_since (now : date) (last : cell) : cell :=
  match last with
  | Dt x => Num (Calendar.days_from_civil now - Calendar.days_from_civil x)
  | _ => Null
  end.

(** [lambda x: "Yes" if x > 30 else "No" if not pd.isna(x) else "Unknown"] *)
Definition consulted_recently (days : cell) : cell :=
  match days with
  | Num x => if (30 <? x)%Z then Str "Yes" else Str "No"
  | _ => Str "Unknown"
  end.

Definition output_path (country : cell) : string :=
  "output/" ++ table_name country ++ ".csv".

(** The body of the loop over the countries, up to the write. *)
Definition country_table (now : date) (latest : frame) (country : cell)
  : result (string * frame) :=
  c <- column "Country" latest ;;
  let country_df :=
    mkframe (columns latest)
            (filter (fun r => equals country (cell_at c r)) (rows latest)) in
  b <- column "DOB" country_df ;;
  let country_df :=
    assign String.eqb "Age" (fun r => age now (cell_at b r)) country_df in
  l <- column "Last_Consulted_Date" country_df ;;
  let country_df :=
    assign String.eqb "Days_Since_Last_Consulted"
           (fun r => days_since now (cell_at l r)) country_df in
  d <- column "Days_Since_Last_Consulted" country_df ;;
  let country_df :=
    assign String.eqb "Consulted_Recently"
           (fun r => consulted_recently (cell_at d r)) country_df in
  Ok (output_path country, country_df).

(** [staging_df["Country"].unique()] *)
Definition countries (staging_df : frame) : result (list cell) :=
  c <- column "Country" staging_df ;;
  Ok (unique (map (cell_at c) (rows staging_df))).

Definition create_and_populate_country_tables (now : date)
    (fails : string -> bool) (staging_df : frame) : outcome :=
  match (latest <- global_latest_records staging_df ;;
         cs <- countries staging_df ;;
         Ok (latest, cs)) with
  | Err e => mkoutcome [] (Err e)
  | Ok (latest, cs) => for_each_country (country_table now latest) fails cs
  end.

Definition main (now : date) (fails : string -> bool) (lines : list string)
  : outcome :=
  match (header <- extract_header lines ;;
         process_and_load_staging lines header) with
  | Err e => mkoutcome [] (Err e)
  | Ok staging_df => create_and_populate_country_tables now fails staging_df
  end.

End Pandas.

(** ** The PySpark script *)

Module Spark.

(** Column names are resolved without regard to case
    ([spark.sql.caseSensitive] is false): the script's [Customer_ID] is
    the file's [Customer_Id]. *)
Definition same_name (a b : string) : bool :=
  String.eqb (Text.lowercase a) (Text.lowercase b).

Definition column (name : string) (df : frame) : result nat :=
  resolve same_name name (columns df).

(** [data.withColumn(name, f(data[name]))]: the column is replaced, and
    takes the name the script gives it. *)
Definition with_column (name : string) (f : cell -> cell) (df : frame)
  : result frame :=
  j <- column name df ;;
  Ok (mkframe (map (fun c => if same_name name c then name else c)
                   (columns df))
              (map (map_at j f) (rows df))).

(** [extract_header]: the first line that starts with [|H|], split,
    without its first two tokens. *)
Fixpoint extract_header (raw_data : list string) : result (list string) :=
  match raw_data with
  | [] => Err HeaderNotFound
  | line :: rest =>
      if Text.startswith line "|H|"
      then Ok (skipn 2 (Text.split pipe line))
      else extract_header rest
  end.

(** [split[i]], null outside the array. *)
Definition element (tokens : list string) (i : nat) : cell :=
  match nth_error tokens i with
  | Some t => Str t
  | None => Null
  end.

(** [process_data]: the lines that start with [|D|], each split, and of
    each the tokens 2, 3, ... under the names of the header. *)
Definition bind_line (header : list string) (line : string) : row :=
  let tokens := Text.split pipe line in
  map (fun i => element tokens (i + 2)) (seq 0 (length header)).

Definition process_data (raw_data : list string) (header : list string)
  : frame :=
  mkframe header
    (map (bind_line header)
         (filter (fun l => Text.startswith l "|D|") raw_data)).

(** [to_date(col, format)]: null where the text does not parse. *)
Definition to_date (e : Calendar.encoding) (c : cell) : cell :=
  match c with
  | Str s =>
      match Calendar.parse e s with
      | Some d => Dt d
      | None => Null
      end
  | Dt d => Dt d
  | _ => Null
  end.

Definition convert_dates (data : frame) : result frame :=
  data <- with_column "Open_Date" (to_date Calendar.YMD) data ;;
  data <- with_column "Last_Consulted_Date" (to_date Calendar.YMD) data ;;
  with_column "DOB" (to_date Calendar.DMY) data.

(** [when(length(col) <= n, col).otherwise(None)]; the length of null
    is null, and the comparison then does not hold. *)
Definition within (n : nat) (c : cell) : cell :=
  match c with
  | Str s => if (String.length s <=? n)%nat then c else Null
  | _ => Null
  end.

(** [data.filter(data[name].isNotNull())] *)
Definition require (name : string) (df : frame) : result frame :=
  j <- column name df ;;
  Ok (mkframe (columns df)
        (filter (fun r => negb (is_null (cell_at j r))) (rows df))).

(** [validate_data], its two phases: the length checks, then the
    mandatory fields. *)
Definition null_long_fields (data : frame) : result frame :=
  data <- with_column "Customer_Name" (within 255) data ;;
  data <- with_column "Customer_ID" (within 18) data ;;
  data <- with_column "Vaccination_Id" (within 5) data ;;
  data <- with_column "Dr_Name" (within 255) data ;;
  data <- with_column "State" (within 5) data ;;
  with_column "Country" (within 5) data.

Definition drop_incomplete (data : frame) : result frame :=
  data <- require "Customer_Name" data ;;
  data <- require "Customer_ID" data ;;
  require "Open_Date" data.

Definition validate_data (data : frame) : result frame :=
  data <- null_long_fields data ;;
  drop_incomplete data.

(** [row_number().over(Window.partitionBy(key).orderBy(col.desc())) == 1]:
    of every partition the first row in descending order, nulls last.
    The partitions are taken in order of first appearance; a null key
    is a partition of its own. *)
Definition partition (i : nat) (k : cell) (rs : list row) : list row :=
  filter (fun r => cell_eqb (cell_at i r) k) rs.

Definition first_row (j : nat) (rs : list row) : list row :=
  firstn 1 (sort_desc j rs).

(** [df.drop(name)]: the frame without the columns that answer to the
    name. *)
Fixpoint without (name : string) (cols : list string) (r : row) : row :=
  match cols, r with
  | c :: cs, x :: xs =>
      if same_name name c then without name cs xs
      else x :: without name cs xs
  | _, _ => r
  end.

Definition drop (name : string) (df : frame) : frame :=
  mkframe (filter (fun c => negb (same_name name c)) (columns df))
          (map (without name (columns df)) (rows df)).

(** [get_latest_data].  The window refers to
    [data["Last_Consulted_Date"]], resolved at once, and to
    [Customer_ID], resolved when the window is used.  The number of a
    row in its partition goes through a column of the data:
    [withColumn("row_number", ...)] puts it in the place of every
    column that answers to [row_number], or in a new last column;
    [data_with_rownum["row_number"]] is ambiguous when it took the
    place of several; and [drop("row_number")] removes it again.  So
    the rows numbered 1 come out without the columns of the data that
    answer to [row_number], whose cells the number had overwritten. *)
Definition get_latest_data (data : frame) : result frame :=
  j <- column "Last_Consulted_Date" data ;;
  i <- column "Customer_ID" data ;;
  if (1 <? length (positions same_name "row_number" (columns data) 0))%nat
  then Err (KeyError "row_number")
  else
    Ok (drop "row_number"
          (mkframe (columns data)
             (flat_map (fun k => first_row j (partition i k (rows data)))
                       (unique (map (cell_at i) (rows data)))))).

(** [year(current_date()) - year(col)] *)
Definition age (now : date) (dob : cell) : cell :=
  match dob with
  | Dt x => Num (year now - year x)
  | _ => Null
  end.

(** [datediff(current_date(), col)] *)
Definition datediff (now : date) (last : cell) : cell :=
  match last with
  | Dt x => Num (Calendar.days_from_civil now - Calendar.days_from_civil x)
  | _ => Null
  end.

(** [when(d <= 30, "Yes").when(d > 30, "No").otherwise("Unknown")] *)
Definition consulted_recently (d : cell) : cell :=
  match d with
  | Num x =>
      if (x <=? 30)%Z then Str "Yes"
      else if (30 <? x)%Z then Str "No"
      else Str "Unknown"
  | _ => Str "Unknown"
  end.

Definition add_derived_columns (now : date) (latest_data : frame)
  : result frame :=
  b <- column "DOB" latest_data ;;
  l <- column "Last_Consulted_Date" latest_data ;;
  let df := assign same_name "Age" (fun r => age now (cell_at b r))
                   latest_data in
  let df := assign same_name "Days_Since_Last_Consulted"
                   (fun r => datediff now (cell_at l r)) df in
  Ok (assign same_name "Consulted_Recently"
             (fun r => consulted_recently (datediff now (cell_at l r))) df).

Definition table_path (country : cell) : string :=
  "dbfs:/mnt/country_tables/" ++ table_name country.

(** The body of the loop over the countries, up to the write. *)
Definition country_table (latest_data : frame) (country : cell)
  : result (string * frame) :=
  c <- column "Country" latest_data ;;
  Ok (table_path country,
      mkframe (columns latest_data)
              (filter (fun r => equals country (cell_at c r))
                      (rows latest_data))).

(** The statement that registers the table of a country. *)
Definition create_table (country : cell) : string :=
  "CREATE TABLE IF NOT EXISTS " ++ table_name country ++
  "_check USING DELTA LOCATION '" ++ table_path country ++ "'".

(** [for country in countries: ...]: the table of the country is
    written, then registered with [spark.sql].  The first exception,
    from building the table, from the storage or from the statement,
    ends the loop; a table written before its statement raises stays
    written. *)
Fixpoint save_each (fails : string -> bool) (latest_data : frame)
    (countries : list cell) : outcome :=
  match countries with
  | [] => mkoutcome [] (Ok tt)
  | country :: rest =>
      match country_table latest_data country with
      | Err e => mkoutcome [] (Err e)
      | Ok (path, table) =>
          if fails path then mkoutcome [] (Err (WriteFailure path))
          else if fails (create_table country) then
            mkoutcome [(path, table)]
                      (Err (TableNotCreated (create_table country)))
          else
            let o := save_each fails latest_data rest in
            mkoutcome ((path, table) :: written o) (status o)
      end
  end.

(** [latest_data.select("Country").distinct().collect()]; Spark leaves
    the order of the collected values open, and the model takes the
    order of first appearance. *)
Definition countries (latest_data : frame) : result (list cell) :=
  c <- column "Country" latest_data ;;
  Ok (unique (map (cell_at c) (rows latest_data))).

Definition save_country_data (fails : string -> bool) (latest_data : frame)
  : outcome :=
  match countries latest_data with
  | Err e => mkoutcome [] (Err e)
  | Ok cs => save_each fails latest_data cs
  end.

Definition main (now : date) (fails : string -> bool)
    (raw_data : list string) : outcome :=
  match (header <- extract_header raw_data ;;
         data <- convert_dates (process_data raw_data header) ;;
         data <- validate_data data ;;
         latest_data <- get_latest_data data ;;
         add_derived_columns now latest_data) with
  | Err e => mkoutcome [] (Err e)
  | Ok latest_data => save_country_data fails latest_data
  end.

End Spark.

(** ** Sample files *)

Definition sample_header : string :=
  "|H|Customer_Name|Customer_Id|Open_Date|Last_Consulted_Date|Vaccination_Id|Dr_Name|State|Country|DOB|Is_Active".

Definition today : date := mkdate 2024 3 1.

Definition storage_ok (path : string) : bool := false.

(** One customer, last consulted on 2024-01-30, 31 days before [today]. *)
Definition one_customer : list string :=
  [sample_header;
   "|D|Alex|123457|20101012|20240130|MVD|Paul|SA|USA|06031987|A"].

(** Two customers, the second with a country that does not fit in
    five characters. *)
Definition long_country : list string :=
  [sample_header;
   "|D|Alex|123457|20101012|20240130|MVD|Paul|SA|USA|06031987|A";
   "|D|Bob|123459|20101012|20240130|MVD|Paul|SA|Australia|06031987|A"].

(** What a run wrote, as paths and rows. *)
Definition tables (o : outcome) : list (string * list row) :=
  map (fun t => (fst t, rows (snd t))) (written o).

(** The mandatory fields of a row, given the positions of
    [Customer_Name], [Customer_Id] and [Open_Date]: none is null. *)
Definition complete (n i o : nat) (r : row) : bool :=
  negb (is_null (cell_at n r)) && negb (is_null (cell_at i r)) &&
  negb (is_null (cell_at o r)).

(** [a] is not earlier than [b] in column [j]: the order of a frame
    sorted descending, nulls last. *)
Definition not_before (j : nat) (a b : row) : Prop :=
  date_le (cell_at j b) (cell_at j a) = true.

(** The rows of a customer, or of any key in column [i]. *)
Definition group (i : nat) (k : cell) (rs : list row) : list row :=
  filter (fun r => cell_eqb (cell_at i r) k) rs.

(** [r] is a latest row of a group: one of its rows, with no row of
    the group after it in column [j], null being before every date. *)
Definition latest_of (j : nat) (grp : list row) (r : row) : Prop :=
  In r grp /\
  forall r', In r' grp -> date_le (cell_at j r') (cell_at j r) = true.

(** What deduplication owes the validated rows: of every customer in
    column [i] exactly one canonical row, a latest row of the
    customer's group in column [j], and not one with a null date when
    the group has a row with a date. *)
Definition one_latest_row (i j : nat) (validated canonical : list row)
  : Prop :=
  forall k, In k (map (cell_at i) validated) ->
    exists r,
      group i k canonical = [r] /\
      latest_of j (group i k validated) r /\
      ((exists r', In r' (group i k validated) /\ cell_at j r' <> Null) ->
       cell_at j r <> Null).

(** The same when the canonical rows are shown without some of their
    cells: [shown r] is the canonical row made of the validated row
    [r], and [i'] the column of the customer in it. *)
Definition one_latest_row_shown (shown : row -> row) (i j i' : nat)
    (validated canonical : list row) : Prop :=
  forall k, In k (map (cell_at i) validated) ->
    exists r,
      group i' k canonical = [shown r] /\
      latest_of j (group i k validated) r /\
      ((exists r', In r' (group i k validated) /\ cell_at j r' <> Null) ->
       cell_at j r <> Null).

(** A cell of a parsed date column. *)
Definition date_or_null (c : cell) : Prop :=
  c = Null \/ exists d, c = Dt d.

(** A raw field read under an encoding, in the words of the
    specification: the text that encodes a day of the calendar, on
    eight digits, becomes that day, any other text becomes null, and
    null stays null.  (A raw field is text or null.) *)
Definition parsed_as (e : Calendar.encoding) (raw parsed : cell) : Prop :=
  match raw with
  | Str s =>
      (exists d, Calendar.valid d = true /\ s = Calendar.encode e d /\
                 parsed = Dt d) \/
      ((forall d, Calendar.valid d = true -> s <> Calendar.encode e d) /\
       parsed = Null)
  | Null => parsed = Null
  | _ => True
  end.

(** The writings of a day or of a month that pandas reads: two digits,
    or, under ten, the digit alone; a day under ten also after a
    blank. *)
Definition written_as (blank : bool) (n : Z) (t : string) : Prop :=
  t = Calendar.pad2 n \/
  ((1 <= n <= 9)%Z /\
   (t = String (Calendar.digit_char n) EmptyString \/
    (blank = true /\
     t = String " " (String (Calendar.digit_char n) EmptyString)))).

(** A text in which pandas can read a day: the fields in the order of
    the encoding, the year on four digits. *)
Definition pandas_reads (e : Calendar.encoding) (s : string) (d : date)
  : Prop :=
  exists dd mm,
    written_as true (day d) dd /\ written_as false (month d) mm /\
    s = match e with
        | Calendar.YMD => (Calendar.pad4 (year d) ++ mm ++ dd)%string
        | Calendar.DMY => (dd ++ mm ++ Calendar.pad4 (year d))%string
        end.

(** A raw field read under an encoding by pandas: the result is null
    or a day of the calendar that a nanosecond timestamp holds and that
    the text writes; the eight-digit encoding of a day becomes that
    day when a nanosecond timestamp holds it, and null when not; null
    stays null. *)
Definition pandas_parsed_as (e : Calendar.encoding) (raw parsed : cell)
  : Prop :=
  match raw with
  | Str s =>
      (parsed = Null \/
       exists d, parsed = Dt d /\ Calendar.valid d = true /\
                 Calendar.nanosecond d = true /\ pandas_reads e s d) /\
      (forall d, Calendar.valid d = true -> s = Calendar.encode e d ->
                 parsed = if Calendar.nanosecond d then Dt d else Null)
  | Null => parsed = Null
  | _ => True
  end.

(** A row before and after the dates are parsed, [o], [l] and [b]
    being the positions of [Open_Date], [Last_Consulted_Date] and
    [DOB]: the first two are read as year-month-day, the third as
    day-month-year, each as [read] says, and nothing else changes. *)
Definition dates_parsed
    (read : Calendar.encoding -> cell -> cell -> Prop)
    (o l b : nat) (raw parsed : row) : Prop :=
  read Calendar.YMD (cell_at o raw) (cell_at o parsed) /\
  read Calendar.YMD (cell_at l raw) (cell_at l parsed) /\
  read Calendar.DMY (cell_at b raw) (cell_at b parsed) /\
  length parsed = length raw /\
  forall k, k <> o -> k <> l -> k <> b -> cell_at k parsed = cell_at k raw.

(** Two customers: the first opened in 1600, the second born on a day
    written without its leading zero. *)
Definition odd_dates : list string :=
  [sample_header;
   "|D|Alex|123457|16000101|20240130|MVD|Paul|SA|USA|06031987|A";
   "|D|John|123458|20101012|20240131|MVD|Paul|TN|IND|6031987|A"].

(** The tokens of a line and its record-type tag, the token at
    index 1. *)
Definition tokens (line : string) : list string := Text.split pipe line.

Definition tag (line : string) : option string := nth_error (tokens line) 1.

(** A line with the tag [H] that does not start with the pipe, and a
    data line of the same kind. *)
Definition tagged_header : string := "x|H|Customer_Name|Customer_Id".

Definition tagged_data : list string :=
  [sample_header;
   "x|D|Alex|123457|20101012|20240130|MVD|Paul|SA|USA|06031987|A"].

(** The records [read_csv] sees: the lines that are not blank. *)
Definition records (lines : list string) : list string :=
  filter (fun l => negb (Pandas.blank l)) lines.

(** A record bound to a line, field by field from token [from] on:
    the field is the token where the line has one ([read] says how a
    token is read) and null where the line is too short. *)
Definition bound_to (read : string -> cell) (from width : nat)
    (line : string) (r : row) : Prop :=
  length r = width /\
  forall i, i < width ->
    cell_at i r =
    match nth_error (tokens line) (i + from) with
    | Some t => read t
    | None => Null
    end.

(** A data line with one field more than the header, and one with
    fields missing at its end. *)
Definition long_record : list string :=
  [sample_header;
   "|D|Alex|123457|20101012|20240130|MVD|Paul|SA|USA|06031987|A|extra"].

Definition short_record : list string :=
  [sample_header; "|D|Sam|123460|20101012|20240130|MVD|Paul|SA|USA"].

(** One customer seen in two countries: the later row is in [USA], so
    no row of [AU] is canonical. *)
Definition moved_customer : list string :=
  [sample_header;
   "|D|Alex|123457|20101012|20240130|MVD|Paul|SA|USA|06031987|A";
   "|D|Alex|123457|20101012|20121013|MVD|Paul|SA|AU|06031987|A"].

(** ** Sample frames *)

(** A file with a customer seen twice, a row whose [Open_Date] does not
    parse, and a row whose other two dates do not. *)
Definition sample_file : list string :=
  [sample_header;
   "|D|Alex|123457|20101012|20240130|MVD|Paul|SA|USA|06031987|A";
   "|D|Alex|123457|20101012|20121013|MVD|Paul|SA|AU|06031987|A";
   "|D|John|123458|2010-10-12|20240131|MVD|Paul|TN|IND|06031987|A";
   "|D|Mary|123459|20101012|yesterday|MVD|Paul|TN|IND|31021987|A"].

Definition frame_of (r : result frame) : frame :=
  match r with
  | Ok df => df
  | Err _ => mkframe [] []
  end.

(** The rows of [sample_file] bound to its header, and the frames the
    two scripts make of them. *)
Definition sample_bound : frame :=
  Eval vm_compute in
    Spark.process_data sample_file
      (skipn 2 (tokens sample_header)).

(** The rows of [odd_dates], bound in the same way. *)
Definition odd_bound : frame :=
  Eval vm_compute in
    Spark.process_data odd_dates (skipn 2 (tokens sample_header)).

Definition pandas_parsed : frame :=
  Eval vm_compute in frame_of (Pandas.convert_dates sample_bound).

Definition pandas_validated : frame :=
  Eval vm_compute in frame_of (Pandas.validate_data pandas_parsed).

Definition pandas_latest : frame :=
  Eval vm_compute in frame_of (Pandas.global_latest_records pandas_validated).

Definition spark_parsed : frame :=
  Eval vm_compute in frame_of (Spark.convert_dates sample_bound).

Definition spark_validated : frame :=
  Eval vm_compute in frame_of (Spark.validate_data spark_parsed).

Definition spark_latest : frame :=
  Eval vm_compute in
    frame_of (latest <- Spark.get_latest_data spark_validated ;;
              Spark.add_derived_columns today latest).

(** The three mandatory columns, by name, with no null in them. *)
Definition mandatory_at (n i o : nat) (cn ci co : string) (df : frame)
  : Prop :=
  nth_error (columns df) n = Some cn /\
  nth_error (columns df) i = Some ci /\
  nth_error (columns df) o = Some co /\
  forall r, In r (rows df) -> complete n i o r = true.

(** ** Further notions for the properties of the stages *)

(** A length-checked field: null, or text within its bound. *)
Definition bounded (n : nat) (c : cell) : Prop :=
  c = Null \/ exists s, c = Str s /\ String.length s <= n.

(** The six length checks on one row, in the order of [validate_data],
    given the positions of [Customer_Name], [Customer_Id],
    [Vaccination_Id], [Dr_Name], [State] and [Country]. *)
Definition null_fields (c1 c2 c3 c4 c5 c6 : nat) (r : row) : row :=
  map_at c6 (Pandas.within 5)
    (map_at c5 (Pandas.within 5)
       (map_at c4 (Pandas.within 255)
          (map_at c3 (Pandas.within 5)
             (map_at c2 (Pandas.within 18)
                (map_at c1 (Pandas.within 255) r))))).

(** A row that validation lets through, given the positions of
    [Customer_Name], [Customer_Id] and [Open_Date]: a name of at most
    255 characters, an identifier of at most 18, and an opening date. *)
Definition admissible (n i o : nat) (r : row) : bool :=
  negb (is_null (Pandas.within 255 (cell_at n r))) &&
  negb (is_null (Pandas.within 18 (cell_at i r))) &&
  negb (is_null (cell_at o r)).

(** A cell after validation: what it was, or null. *)
Definition same_or_null (before after : cell) : Prop :=
  after = before \/ after = Null.

(** The names of the three derived columns, and the three derived cells
    of a row under each script, [b] and [l] being the positions of
    [DOB] and [Last_Consulted_Date]. *)
Definition derived_names : list string :=
  ["Age"; "Days_Since_Last_Consulted"; "Consulted_Recently"].

Definition pandas_derived (now : date) (b l : nat) (r : row) : row :=
  r ++ [Pandas.age now (cell_at b r);
        Pandas.days_since now (cell_at l r);
        Pandas.consulted_recently (Pandas.days_since now (cell_at l r))].

Definition spark_derived (now : date) (b l : nat) (r : row) : row :=
  r ++ [Spark.age now (cell_at b r);
        Spark.datediff now (cell_at l r);
        Spark.consulted_recently (Spark.datediff now (cell_at l r))].

(** Every row of a frame is as wide as its header. *)
Definition rectangular (df : frame) : Prop :=
  forall r, In r (rows df) -> length r = length (columns df).

(** The conversion of the dates followed by the validation, as
    PySpark's [main] chains them. *)
Definition spark_clean (data : frame) : result frame :=
  data <- Spark.convert_dates data ;; Spark.validate_data data.

(** A file without a header line: its first line has the tag, but does
    not start with it. *)
Definition headless : list string :=
  ["x|H|Customer_Name|Customer_Id";
   "|D|Alex|123457|20101012|20240130|MVD|Paul|SA|USA|06031987|A"].

(** A file whose first record, a title, is shorter than its header. *)
Definition titled : list string :=
  ["customers";
   "|H|Customer_Name|Customer_Id|Open_Date|Last_Consulted_Date|DOB|Country";
   "|D|Alex|123457|20101012|20240130|06031987|USA"].

(** What validation guarantees of a frame, [column] being the script's
    way to resolve a name and [id] its name for the identifier: the six
    length-checked fields are within their bounds, the two mandatory
    ones being texts. *)
Definition fields_within_bounds (column : string -> frame -> result nat)
    (id : string) (out : frame) : Prop :=
  exists c1 c2 c3 c4 c5 c6,
    column "Customer_Name" out = Ok c1 /\
    column id out = Ok c2 /\
    column "Vaccination_Id" out = Ok c3 /\
    column "Dr_Name" out = Ok c4 /\
    column "State" out = Ok c5 /\
    column "Country" out = Ok c6 /\
    forall r, In r (rows out) ->
      (exists s, cell_at c1 r = Str s /\ String.length s <= 255) /\
      (exists s, cell_at c2 r = Str s /\ String.length s <= 18) /\
      bounded 5 (cell_at c3 r) /\ bounded 255 (cell_at c4 r) /\
      bounded 5 (cell_at c5 r) /\ bounded 5 (cell_at c6 r).

(** The rows of a validated frame in terms of the rows it was given:
    the admissible ones, in their order, with the length checks
    applied. *)
Definition validated_from (column : string -> frame -> result nat)
    (id : string) (df out : frame) : Prop :=
  exists c1 c2 c3 c4 c5 c6 o,
    column "Customer_Name" df = Ok c1 /\
    column id df = Ok c2 /\
    column "Vaccination_Id" df = Ok c3 /\
    column "Dr_Name" df = Ok c4 /\
    column "State" df = Ok c5 /\
    column "Country" df = Ok c6 /\
    column "Open_Date" df = Ok o /\
    rows out =
      map (null_fields c1 c2 c3 c4 c5 c6)
          (filter (admissible c1 c2 o) (rows df)).

(** The table of [USA] that pandas builds from the sample, and the
    canonical rows of the sample under PySpark, before the derived
    columns. *)
Definition pandas_usa_table : frame :=
  Eval vm_compute in
    frame_of (w <- Pandas.country_table today pandas_latest (Str "USA") ;;
              Ok (snd w)).

Definition spark_canonical : frame :=
  Eval vm_compute in frame_of (Spark.get_latest_data spark_validated).

(** The rows of the table of a country, [c] being the position of
    [Country]: the rows of the frame that have this country, and none
    for a null country. *)
Definition rows_of_country (c : nat) (country : cell) (latest table : frame)
  : Prop :=
  forall r, In r (rows table) <->
            In r (rows latest) /\ country <> Null /\ cell_at c r = country.

(** A name is settled in a list of columns when every column that
    answers to it, case ignored, is spelled like it: so it is after
    [withColumn] has replaced the column under this name. *)
Definition settled (name : string) (cols : list string) : Prop :=
  forall c, In c cols -> Spark.same_name name c = true -> c = name.

(** The names of the six length-checked columns, as PySpark spells
    them. *)
Definition checked_names : list string :=
  ["Customer_Name"; "Customer_ID"; "Vaccination_Id"; "Dr_Name"; "State";
   "Country"].

(** A country as the scripts read it: a text, or null. *)
Definition textual (k : cell) : bool :=
  match k with
  | Null | Str _ => true
  | _ => false
  end.

(** Countries that clash in the names of their tables: a null one and
    one spelled [None], both of which [f"Table_{country}"] names
    [Table_None]. *)
Definition clash (countries : list cell) : bool :=
  existsb is_null countries && existsb (cell_eqb (Str "None")) countries.

(** Canonical rows of three customers, one in a country named [None]
    and one whose country was nulled. *)
Definition none_and_null : frame :=
  mkframe ["Customer_Name"; "Country"]
    [[Str "Alex"; Str "USA"]; [Str "Bob"; Str "None"]; [Str "Carl"; Null]].

(** Column names that are those of a header, up to case. *)
Definition spelled_like (cols header : list string) : Prop :=
  Forall2 (fun a b => Spark.same_name a b = true) cols header.

(** The one table each script writes for [one_customer]. *)
Definition pandas_one_table : frame :=
  Eval vm_compute in
    match written (Pandas.main today storage_ok one_customer) with
    | (_, table) :: _ => table
    | [] => mkframe [] []
    end.

Definition spark_one_table : frame :=
  Eval vm_compute in
    match written (Spark.main today storage_ok one_customer) with
    | (_, table) :: _ => table
    | [] => mkframe [] []
    end.

(** Two rows of one customer that neither is later than the other, [i]
    and [j] being the positions of the identifier and of
    [Last_Consulted_Date]: the same date, or no date in either. *)
Definition tied (i j : nat) (a b : row) : bool :=
  cell_eqb (cell_at i a) (cell_at i b) &&
  date_le (cell_at j a) (cell_at j b) &&
  date_le (cell_at j b) (cell_at j a).

(** No two different rows are tied. *)
Definition untied (i j : nat) (rs : list row) : Prop :=
  Forall (fun a => Forall (fun b => tied i j a b = true -> a = b) rs) rs.

(** A file whose first field is a [Row_Number] of its own, and the
    frames the PySpark script makes of it up to the validation. *)
Definition numbered_header : string :=
  "|H|Row_Number|Customer_Name|Customer_Id|Open_Date|Last_Consulted_Date|Vaccination_Id|Dr_Name|State|Country|DOB|Is_Active".

Definition numbered_file : list string :=
  [numbered_header;
   "|D|1|Alex|123457|20101012|20240130|MVD|Paul|SA|USA|06031987|A";
   "|D|2|Alex|123457|20101012|20121013|MVD|Paul|SA|AU|06031987|A";
   "|D|3|John|123458|20101012|20240131|MVD|Paul|TN|IND|06031987|A"].

Definition numbered_bound : frame :=
  Eval vm_compute in
    Spark.process_data numbered_file (skipn 2 (tokens numbered_header)).

Definition numbered_parsed : frame :=
  Eval vm_compute in frame_of (Spark.convert_dates numbered_bound).

Definition numbered_validated : frame :=
  Eval vm_compute in frame_of (Spark.validate_data numbered_parsed).

(** The same rows as the pandas script stages them. *)
Definition numbered_staged : frame :=
  Eval vm_compute in
    frame_of (data <- Pandas.convert_dates numbered_bound ;;
              Pandas.validate_data data).

(** The first table each script writes for [numbered_file]. *)
Definition pandas_numbered_table : frame :=
  Eval vm_compute in
    match written (Pandas.main today storage_ok numbered_file) with
    | (_, table) :: _ => table
    | [] => mkframe [] []
    end.

Definition spark_numbered_table : frame :=
  Eval vm_compute in
    match written (Spark.main today storage_ok numbered_file) with
    | (_, table) :: _ => table
    | [] => mkframe [] []
    end.

(** The artifact of a country in the words of the specification,
    [Table_<Country>], and where each script puts it; a country
    without a value is printed [None]. *)
Definition artifact_name (country : cell) : string :=
  match country with
  | Str s => "Table_" ++ s
  | _ => "Table_None"
  end.

Definition pandas_artifact (country : cell) : string :=
  "output/" ++ artifact_name country ++ ".csv".

Definition spark_artifact (country : cell) : string :=
  "dbfs:/mnt/country_tables/" ++ artifact_name country.

(** The statement with which the PySpark script registers the artifact
    of a country. *)
Definition spark_registration (country : cell) : string :=
  "CREATE TABLE IF NOT EXISTS " ++ artifact_name country ++
  "_check USING DELTA LOCATION '" ++ spark_artifact country ++ "'".

(** Three customers in three countries, a storage that cannot take the
    table of the second, and a session that does not register it. *)
Definition three_countries : list string :=
  [sample_header;
   "|D|Alex|123457|20101012|20240130|MVD|Paul|SA|USA|06031987|A";
   "|D|John|123458|20101012|20240131|MVD|Paul|TN|IND|06031987|A";
   "|D|Mary|123459|20101012|20240129|MVD|Paul|VIC|AU|06031987|A"].

Definition ind_unwritable (path : string) : bool :=
  String.eqb path "output/Table_IND.csv" ||
  String.eqb path "dbfs:/mnt/country_tables/Table_IND".

Definition ind_unregistered (statement : string) : bool :=
  String.eqb statement
    "CREATE TABLE IF NOT EXISTS Table_IND_check USING DELTA LOCATION 'dbfs:/mnt/country_tables/Table_IND'".

Definition pandas_three : frame :=
  Eval vm_compute in
    frame_of (header <- Pandas.extract_header three_countries ;;
              Pandas.process_and_load_staging three_countries header).

Definition pandas_three_latest : frame :=
  Eval vm_compute in frame_of (Pandas.global_latest_records pandas_three).

Definition spark_three : frame :=
  Eval vm_compute in
    frame_of (header <- Spark.extract_header three_countries ;;
              data <- Spark.convert_dates
                        (Spark.process_data three_countries header) ;;
              data <- Spark.validate_data data ;;
              latest_data <- Spark.get_latest_data data ;;
              Spark.add_derived_columns today latest_data).

(** A country whose name is no identifier, and a session in which the
    statement that registers its table does not parse. *)
Definition hyphenated : list string :=
  [sample_header;
   "|D|Alex|123457|20101012|20240130|MVD|Paul|SA|U-S|06031987|A";
   "|D|John|123458|20101012|20240131|MVD|Paul|TN|IND|06031987|A"].

Definition hyphen_refused (statement : string) : bool :=
  String.eqb statement
    "CREATE TABLE IF NOT EXISTS Table_U-S_check USING DELTA LOCATION 'dbfs:/mnt/country_tables/Table_U-S'".

(** * Properties *)

(** ** The recency flag *)

(** The pandas lambda is the one the specification describes. *)
Lemma pandas_consulted_recently_spec (days : cell) :
  Pandas.consulted_recently days =
  match days with
  | Num x => if (x >? 30)%Z then Str "Yes" else Str "No"
  | _ => Str "Unknown"
  end.
Proof.
  destruct days as [| s | d | x]; simpl; try reflexivity.
  rewrite Z.gtb_ltb. reflexivity.
Qed.

Lemma pandas_flag_of_null_date (now : date) :
  Pandas.consulted_recently (Pandas.days_since now Null) = Str "Unknown".
Proof. reflexivity. Qed.

(** The Spark [when] chain has the two labels the other way round. *)
Lemma spark_consulted_recently_spec (days : cell) :
  Spark.consulted_recently days =
  match days with
  | Num x => if (x <=? 30)%Z then Str "Yes" else Str "No"
  | _ => Str "Unknown"
  end.
Proof.
  destruct days as [| s | d | x]; simpl; try reflexivity.
  destruct (Z.leb_spec x 30) as [H | H]; [reflexivity |].
  apply Z.ltb_lt in H. rewrite H. reflexivity.
Qed.

(** So the two scripts give opposite flags to every known day count. *)
Lemma flags_disagree_on_every_count (x : Z) :
  Pandas.consulted_recently (Num x) <> Spark.consulted_recently (Num x).
Proof.
  rewrite pandas_consulted_recently_spec, spark_consulted_recently_spec.
  destruct (Z.gtb_spec x 30) as [H | H];
    destruct (Z.leb_spec x 30) as [H' | H']; try lia; discriminate.
Qed.

(** C1 (fails on the PySpark script): at 31 days [add_derived_columns]
    gives ["No"] and at 30 days ["Yes"], where the claim, and the pandas
    script, have ["Yes"] at 31 days and ["No"] at 30. *)
Theorem spark_recency_flag_inverted :
  Spark.consulted_recently (Spark.datediff today (Dt (mkdate 2024 1 30)))
    = Str "No" /\
  Spark.consulted_recently (Spark.datediff today (Dt (mkdate 2024 1 31)))
    = Str "Yes" /\
  Pandas.consulted_recently (Pandas.days_since today (Dt (mkdate 2024 1 30)))
    = Str "Yes" /\
  Pandas.consulted_recently (Pandas.days_since today (Dt (mkdate 2024 1 31)))
    = Str "No" /\
  Pandas.days_since today (Dt (mkdate 2024 1 30)) = Num 31 /\
  Spark.datediff today (Dt (mkdate 2024 1 31)) = Num 30.
Proof. repeat split; reflexivity. Qed.

(** ** The two scripts side by side *)

(** C2 (fails): on a file of one well-formed customer the two scripts
    write one table each, [Table_USA], with the same row but for its
    last cell: ["Yes"] under pandas, ["No"] under Spark. *)
Theorem scripts_disagree_on_one_customer :
  tables (Pandas.main today storage_ok one_customer) =
    [("output/Table_USA.csv",
      [[Str "Alex"; Str "123457"; Dt (mkdate 2010 10 12);
        Dt (mkdate 2024 1 30); Str "MVD"; Str "Paul"; Str "SA"; Str "USA";
        Dt (mkdate 1987 3 6); Str "A"; Num 37; Num 31; Str "Yes"]])] /\
  tables (Spark.main today storage_ok one_customer) =
    [("dbfs:/mnt/country_tables/Table_USA",
      [[Str "Alex"; Str "123457"; Dt (mkdate 2010 10 12);
        Dt (mkdate 2024 1 30); Str "MVD"; Str "Paul"; Str "SA"; Str "USA";
        Dt (mkdate 1987 3 6); Str "A"; Num 37; Num 31; Str "No"]])] /\
  map snd (tables (Pandas.main today storage_ok one_customer)) <>
  map snd (tables (Spark.main today storage_ok one_customer)).
Proof.
  split; [vm_compute; reflexivity |].
  split; [vm_compute; reflexivity |].
  vm_compute. discriminate.
Qed.

(** ** Rows without a country *)

(** Neither script ever selects a row for the null country. *)
Lemma no_row_equals_null (c : cell) : equals Null c = false.
Proof. reflexivity. Qed.

(** C8 (fails): the second customer of [long_country] has its country
    nulled by the length check, is the canonical row of its customer,
    and is written nowhere: both scripts write [Table_USA] with the
    first customer and [Table_None] with no row at all. *)
Theorem null_country_row_is_lost :
  (exists staging latest r,
      (header <- Pandas.extract_header long_country ;;
       Pandas.process_and_load_staging long_country header) = Ok staging /\
      Pandas.global_latest_records staging = Ok latest /\
      In r (rows latest) /\
      cell_at 1 r = Str "123459" /\ cell_at 7 r = Null) /\
  map (fun t => (fst t, map (cell_at 1) (snd t)))
      (tables (Pandas.main today storage_ok long_country)) =
    [("output/Table_USA.csv", [Str "123457"]);
     ("output/Table_None.csv", [])] /\
  status (Pandas.main today storage_ok long_country) = Ok tt /\
  map (fun t => (fst t, map (cell_at 1) (snd t)))
      (tables (Spark.main today storage_ok long_country)) =
    [("dbfs:/mnt/country_tables/Table_USA", [Str "123457"]);
     ("dbfs:/mnt/country_tables/Table_None", [])] /\
  status (Spark.main today storage_ok long_country) = Ok tt.
Proof.
  split.
  - eexists. eexists. eexists.
    split; [vm_compute; reflexivity |].
    split; [vm_compute; reflexivity |].
    split; [right; left; reflexivity |].
    split; reflexivity.
  - repeat split; vm_compute; reflexivity.
Qed.

(** ** Tools for the error monad *)

Lemma bind_ok {A B : Type} (m : result A) (k : A -> result B) (b : B) :
  bind m k = Ok b -> exists a, m = Ok a /\ k a = Ok b.
Proof.
  destruct m as [a | e]; simpl; intros H; [eauto | discriminate].
Qed.

Ltac bind_inv H :=
  let a := fresh "x" in
  let Ha := fresh "Hx" in
  apply bind_ok in H; destruct H as (a & Ha & H).

Lemma ok_inj {A : Type} (a b : A) : Ok a = Ok b -> a = b.
Proof. intros H; injection H; auto. Qed.

Lemma is_null_false (c : cell) : negb (is_null c) = true <-> c <> Null.
Proof.
  destruct c; simpl; split; intros H; try reflexivity; try discriminate.
  exfalso; apply H; reflexivity.
Qed.

Lemma complete_spec (n i o : nat) (r : row) :
  complete n i o r = true <->
  cell_at n r <> Null /\ cell_at i r <> Null /\ cell_at o r <> Null.
Proof.
  unfold complete. rewrite !andb_true_iff, !is_null_false. tauto.
Qed.

Lemma filter_filter {A : Type} (p q : A -> bool) (l : list A) :
  filter q (filter p l) = filter (fun x => p x && q x) l.
Proof.
  induction l as [| x l IH]; simpl; [reflexivity |].
  destruct (p x); simpl; [destruct (q x) |]; rewrite IH; reflexivity.
Qed.

(** ** Validation *)

Section Mandatory.

(** The mandatory-field phase is the same in the two scripts but for
    the way a name is resolved. *)
Variable same : string -> string -> bool.
Variables name_col id_col open_col : string.

Let require (name : string) (df : frame) : result frame :=
  j <- resolve same name (columns df) ;;
  Ok (mkframe (columns df)
        (filter (fun r => negb (is_null (cell_at j r))) (rows df))).

Lemma three_filters (df out : frame) :
  (df1 <- require name_col df ;;
   df2 <- require id_col df1 ;;
   require open_col df2) = Ok out ->
  exists n i o,
    resolve same name_col (columns df) = Ok n /\
    resolve same id_col (columns df) = Ok i /\
    resolve same open_col (columns df) = Ok o /\
    columns out = columns df /\
    rows out = filter (complete n i o) (rows df).
Proof.
  intros H. unfold require in H.
  bind_inv H. bind_inv Hx. apply ok_inj in Hx. subst x.
  bind_inv H. bind_inv Hx. apply ok_inj in Hx. subst x.
  bind_inv H. apply ok_inj in H. subst out. simpl in *.
  exists x0, x1, x. repeat split; try assumption.
  rewrite !filter_filter. apply filter_ext. intros r.
  unfold complete. rewrite andb_assoc. reflexivity.
Qed.

End Mandatory.

Lemma pandas_drop_incomplete (df out : frame) :
  Pandas.drop_incomplete df = Ok out ->
  exists n i o,
    Pandas.column "Customer_Name" df = Ok n /\
    Pandas.column "Customer_Id" df = Ok i /\
    Pandas.column "Open_Date" df = Ok o /\
    columns out = columns df /\
    rows out = filter (complete n i o) (rows df).
Proof. apply three_filters. Qed.

Lemma spark_drop_incomplete (df out : frame) :
  Spark.drop_incomplete df = Ok out ->
  exists n i o,
    Spark.column "Customer_Name" df = Ok n /\
    Spark.column "Customer_ID" df = Ok i /\
    Spark.column "Open_Date" df = Ok o /\
    columns out = columns df /\
    rows out = filter (complete n i o) (rows df).
Proof. apply three_filters. Qed.

Lemma pandas_check_length_inv (name : string) (n : nat) (df out : frame) :
  Pandas.check_length name n df = Ok out ->
  exists j, Pandas.column name df = Ok j /\
            columns out = columns df /\
            rows out = map (map_at j (Pandas.within n)) (rows df).
Proof.
  unfold Pandas.check_length. intros H. bind_inv H.
  apply ok_inj in H. subst out. exists x. auto.
Qed.

Lemma spark_with_column_inv (name : string) (f : cell -> cell)
    (df out : frame) :
  Spark.with_column name f df = Ok out ->
  exists j, Spark.column name df = Ok j /\
            length (columns out) = length (columns df) /\
            rows out = map (map_at j f) (rows df).
Proof.
  unfold Spark.with_column. intros H. bind_inv H.
  apply ok_inj in H. subst out. exists x. simpl.
  rewrite length_map. auto.
Qed.

(** The length checks null fields and keep every row. *)
Lemma pandas_null_long_fields_keeps_rows (df nulled : frame) :
  Pandas.null_long_fields df = Ok nulled ->
  columns nulled = columns df /\
  length (rows nulled) = length (rows df).
Proof.
  unfold Pandas.null_long_fields. intros H.
  repeat (bind_inv H;
          apply pandas_check_length_inv in Hx;
          destruct Hx as (? & _ & ? & ?)).
  apply pandas_check_length_inv in H. destruct H as (? & _ & ? & ?).
  split; [congruence |].
  repeat match goal with
         | E : rows _ = map _ _ |- _ =>
             apply (f_equal (@length row)) in E; rewrite length_map in E
         end.
  congruence.
Qed.

Lemma spark_null_long_fields_keeps_rows (df nulled : frame) :
  Spark.null_long_fields df = Ok nulled ->
  length (columns nulled) = length (columns df) /\
  length (rows nulled) = length (rows df).
Proof.
  unfold Spark.null_long_fields. intros H.
  repeat (bind_inv H;
          apply spark_with_column_inv in Hx;
          destruct Hx as (? & _ & ? & ?)).
  apply spark_with_column_inv in H. destruct H as (? & _ & ? & ?).
  split; [congruence |].
  repeat match goal with
         | E : rows _ = map _ _ |- _ =>
             apply (f_equal (@length row)) in E; rewrite length_map in E
         end.
  congruence.
Qed.

Lemma filter_complete_facts (n i o : nat) (rs kept : list row) :
  kept = filter (complete n i o) rs ->
  (forall r, In r kept ->
     cell_at n r <> Null /\ cell_at i r <> Null /\ cell_at o r <> Null) /\
  (forall r, In r rs ->
     cell_at n r = Null \/ cell_at i r = Null \/ cell_at o r = Null ->
     ~ In r kept).
Proof.
  intros ->. split.
  - intros r Hr. apply filter_In in Hr. apply complete_spec. tauto.
  - intros r _ Hnull Hr. apply filter_In in Hr. destruct Hr as [_ Hr].
    apply complete_spec in Hr. tauto.
Qed.

(** ** Cells, dates and their orders *)

Lemma calendar_eqb_eq (a b : date) : Calendar.eqb a b = true <-> a = b.
Proof.
  destruct a as [ya ma da], b as [yb mb db]. unfold Calendar.eqb. simpl.
  rewrite !andb_true_iff, !Z.eqb_eq. split.
  - intros [[-> ->] ->]. reflexivity.
  - intros H. injection H. auto.
Qed.

Lemma cell_eqb_eq (a b : cell) : cell_eqb a b = true <-> a = b.
Proof.
  destruct a, b; simpl; split; intros H;
    try reflexivity; try discriminate.
  - apply String.eqb_eq in H. congruence.
  - injection H as ->. apply String.eqb_refl.
  - apply calendar_eqb_eq in H. congruence.
  - injection H as ->. apply calendar_eqb_eq. reflexivity.
  - apply Z.eqb_eq in H. congruence.
  - injection H as ->. apply Z.eqb_refl.
Qed.

Lemma cell_eqb_refl (a : cell) : cell_eqb a a = true.
Proof. apply cell_eqb_eq. reflexivity. Qed.

Lemma cell_eqb_neq (a b : cell) : cell_eqb a b = false <-> a <> b.
Proof.
  rewrite <- cell_eqb_eq. destruct (cell_eqb a b); split; intros H;
    try reflexivity; try discriminate; try congruence.
Qed.

Lemma calendar_leb_spec (a b : date) :
  Calendar.leb a b = true <->
  (year a < year b \/
   (year a = year b /\
    (month a < month b \/ (month a = month b /\ day a <= day b))))%Z.
Proof.
  unfold Calendar.leb.
  rewrite !orb_true_iff, !andb_true_iff, !orb_true_iff, !andb_true_iff.
  rewrite !Z.ltb_lt, !Z.eqb_eq, Z.leb_le. tauto.
Qed.

Lemma date_le_total (a b : cell) : date_le a b = false -> date_le b a = true.
Proof.
  destruct a as [| s | x | z], b as [| t | y | w]; simpl;
    try reflexivity; try discriminate.
  intros H.
  destruct (Calendar.leb y x) eqn:E; [reflexivity |]. exfalso.
  assert (Ha : ~ (Calendar.leb x y = true)) by (rewrite H; discriminate).
  assert (Hb : ~ (Calendar.leb y x = true)) by (rewrite E; discriminate).
  rewrite calendar_leb_spec in Ha, Hb. lia.
Qed.

Lemma date_le_trans (a b c : cell) :
  date_le a b = true -> date_le b c = true -> date_le a c = true.
Proof.
  destruct a as [| s | x | z], b as [| t | y | w], c as [| u | v | q];
    simpl; try reflexivity; try discriminate.
  rewrite !calendar_leb_spec. lia.
Qed.

Lemma date_le_refl (a : cell) : date_le a a = true.
Proof.
  destruct a as [| s | x | z]; simpl; try reflexivity.
  apply calendar_leb_spec. lia.
Qed.

(** Below a date there are only dates: null is the minimum. *)
Lemma date_le_from_date (a b : cell) (x : date) :
  a = Dt x -> date_le a b = true -> exists y, b = Dt y.
Proof.
  intros -> H. destruct b as [| t | y | w]; simpl in H;
    try discriminate. eauto.
Qed.

(** ** Sorting *)

Section Sorting.

Variable j : nat.

Lemma insert_desc_perm (r : row) (l : list row) :
  Permutation (insert_desc j r l) (r :: l).
Proof.
  induction l as [| s t IH]; simpl; [reflexivity |].
  destruct (date_le (cell_at j s) (cell_at j r)); [reflexivity |].
  rewrite IH. apply perm_swap.
Qed.

Lemma sort_desc_perm (l : list row) : Permutation (sort_desc j l) l.
Proof.
  induction l as [| r t IH]; simpl; [reflexivity |].
  rewrite insert_desc_perm. constructor. exact IH.
Qed.

Lemma insert_desc_sorted (r : row) (l : list row) :
  StronglySorted (not_before j) l ->
  StronglySorted (not_before j) (insert_desc j r l).
Proof.
  induction l as [| s t IH]; simpl; intros Hs.
  - constructor; constructor.
  - inversion Hs as [| ? ? Ht Hall]; subst.
    destruct (date_le (cell_at j s) (cell_at j r)) eqn:E.
    + constructor; [exact Hs |]. constructor; [exact E |].
      eapply Forall_impl; [| exact Hall]. intros a Ha.
      unfold not_before in *. eapply date_le_trans; eassumption.
    + constructor; [apply IH; exact Ht |].
      eapply Permutation_Forall.
      * symmetry. apply insert_desc_perm.
      * constructor; [| exact Hall].
        unfold not_before. apply date_le_total. exact E.
Qed.

Lemma sort_desc_sorted (l : list row) :
  StronglySorted (not_before j) (sort_desc j l).
Proof.
  induction l as [| r t IH]; simpl; [constructor |].
  apply insert_desc_sorted. exact IH.
Qed.

Lemma filter_sorted (p : row -> bool) (l : list row) :
  StronglySorted (not_before j) l -> StronglySorted (not_before j) (filter p l).
Proof.
  induction 1 as [| a l Hs IH Hall]; simpl; [constructor |].
  destruct (p a); [| exact IH].
  constructor; [exact IH |].
  apply Forall_forall. intros x Hx. apply filter_In in Hx.
  rewrite Forall_forall in Hall. apply Hall. tauto.
Qed.

(** The first row of a sorted list is a latest row of any list with the
    same rows. *)
Lemma head_of_sorted_is_latest (r : row) (l grp : list row) :
  StronglySorted (not_before j) (r :: l) ->
  Permutation (r :: l) grp ->
  latest_of j grp r.
Proof.
  intros Hs Hp. split.
  - eapply Permutation_in; [exact Hp | left; reflexivity].
  - intros r' Hr'. apply Permutation_sym in Hp.
    apply (Permutation_in _ Hp) in Hr'. destruct Hr' as [<- | Hr'].
    + apply date_le_refl.
    + inversion Hs as [| ? ? _ Hall]; subst.
      rewrite Forall_forall in Hall. apply Hall. exact Hr'.
Qed.

End Sorting.

(** ** Groups *)

Lemma filter_perm {A : Type} (p : A -> bool) (l l' : list A) :
  Permutation l l' -> Permutation (filter p l) (filter p l').
Proof.
  induction 1 as [| x l l' _ IH | x y l | l l' l'' _ IH1 _ IH2]; simpl.
  - constructor.
  - destruct (p x); [constructor |]; exact IH.
  - destruct (p x), (p y); try reflexivity. apply perm_swap.
  - etransitivity; eassumption.
Qed.

Lemma group_key (i : nat) (k : cell) (rs : list row) (r : row) :
  In r (group i k rs) <-> In r rs /\ cell_at i r = k.
Proof. unfold group. rewrite filter_In, cell_eqb_eq. tauto. Qed.

Lemma group_nonempty (i : nat) (k : cell) (rs : list row) :
  In k (map (cell_at i) rs) -> group i k rs <> [].
Proof.
  intros Hk E. apply in_map_iff in Hk. destruct Hk as (r & Hr & Hin).
  assert (H : In r (group i k rs)) by (apply group_key; auto).
  rewrite E in H. exact H.
Qed.

(** The first row of a group, once the frame is sorted, is a latest row
    of the group. *)
Lemma first_of_sorted_group (i j : nat) (k : cell) (rs : list row) :
  In k (map (cell_at i) rs) ->
  exists r, firstn 1 (group i k (sort_desc j rs)) = [r] /\
            latest_of j (group i k rs) r.
Proof.
  intros Hk.
  assert (Hp : Permutation (group i k (sort_desc j rs)) (group i k rs))
    by (apply filter_perm, sort_desc_perm).
  assert (Hs : StronglySorted (not_before j) (group i k (sort_desc j rs)))
    by (apply filter_sorted, sort_desc_sorted).
  destruct (group i k (sort_desc j rs)) as [| r l] eqn:E.
  - apply Permutation_nil in Hp. apply group_nonempty in Hk. contradiction.
  - exists r. split; [reflexivity |].
    eapply head_of_sorted_is_latest; eassumption.
Qed.

(** Sorting a group, as Spark does, gives the same first row. *)
Lemma first_of_group_sorted (i j : nat) (k : cell) (rs : list row) :
  In k (map (cell_at i) rs) ->
  exists r, firstn 1 (sort_desc j (group i k rs)) = [r] /\
            latest_of j (group i k rs) r.
Proof.
  intros Hk.
  pose proof (sort_desc_perm j (group i k rs)) as Hp.
  pose proof (sort_desc_sorted j (group i k rs)) as Hs.
  destruct (sort_desc j (group i k rs)) as [| r l] eqn:E.
  - apply Permutation_nil in Hp. apply group_nonempty in Hk. contradiction.
  - exists r. split; [reflexivity |].
    eapply head_of_sorted_is_latest; eassumption.
Qed.

(** [groupby(key).head(1)]: of every key that is not null, the first
    row. *)
Lemma head1_group (i : nat) (k : cell) (rs : list row) :
  k <> Null ->
  forall seen,
    group i k (Pandas.head1 i seen rs) =
    if existsb (cell_eqb k) seen then [] else firstn 1 (group i k rs).
Proof.
  intros Hk. induction rs as [| r t IH]; intros seen; simpl.
  - destruct (existsb (cell_eqb k) seen); reflexivity.
  - destruct (cell_eqb (cell_at i r) k) eqn:E.
    + apply cell_eqb_eq in E. rewrite E.
      destruct (is_null k) eqn:En; [destruct k; try discriminate; congruence |].
      simpl. destruct (existsb (cell_eqb k) seen) eqn:Es.
      * rewrite IH, Es. reflexivity.
      * simpl. rewrite <- E at 1. unfold group at 1. simpl.
        fold (group i k (Pandas.head1 i (k :: seen) t)).
        rewrite E, cell_eqb_refl, IH. simpl. rewrite cell_eqb_refl.
        reflexivity.
    + destruct (is_null (cell_at i r) || existsb (cell_eqb (cell_at i r)) seen).
      * apply IH.
      * unfold group at 1. simpl. rewrite E.
        fold (group i k (Pandas.head1 i (cell_at i r :: seen) t)).
        rewrite IH. simpl.
        assert (E' : cell_eqb k (cell_at i r) = false).
        { apply cell_eqb_neq. apply cell_eqb_neq in E. congruence. }
        rewrite E'. reflexivity.
Qed.

(** [unique]: every value once. *)
Lemma unique_from_In (seen l : list cell) (x : cell) :
  In x (unique_from seen l) <-> In x l /\ ~ In x seen.
Proof.
  revert seen. induction l as [| c t IH]; intros seen; simpl.
  - tauto.
  - destruct (existsb (cell_eqb c) seen) eqn:E.
    + rewrite IH. apply existsb_exists in E. destruct E as (y & Hy & Ey).
      apply cell_eqb_eq in Ey. subst y. split.
      * tauto.
      * intros [[-> | H] Hn]; [contradiction | tauto].
    + simpl. rewrite IH. simpl.
      assert (Hc : ~ In c seen).
      { intros Hin. assert (Ht : existsb (cell_eqb c) seen = true).
        { apply existsb_exists. exists c. split; [exact Hin |].
          apply cell_eqb_refl. }
        congruence. }
      split.
      * intros [-> | [H Hn]]; [tauto |]. split; [tauto |]. tauto.
      * intros [[-> | H] Hn]; [tauto |].
        destruct (cell_eqb c x) eqn:Ex.
        -- apply cell_eqb_eq in Ex. tauto.
        -- apply cell_eqb_neq in Ex. right. split; [exact H |].
           intros [? | ?]; tauto.
Qed.

Lemma unique_from_NoDup (seen l : list cell) : NoDup (unique_from seen l).
Proof.
  revert seen. induction l as [| c t IH]; intros seen; simpl.
  - constructor.
  - destruct (existsb (cell_eqb c) seen); [apply IH |].
    constructor; [| apply IH].
    rewrite unique_from_In. simpl. tauto.
Qed.

Lemma unique_In (l : list cell) (x : cell) : In x (unique l) <-> In x l.
Proof. unfold unique. rewrite unique_from_In. simpl. tauto. Qed.

Lemma unique_NoDup (l : list cell) : NoDup (unique l).
Proof. apply unique_from_NoDup. Qed.

Lemma group_all (i : nat) (k : cell) (rs : list row) :
  (forall r, In r rs -> cell_at i r = k) -> group i k rs = rs.
Proof.
  intros H. induction rs as [| r t IH]; simpl; [reflexivity |].
  rewrite (proj2 (cell_eqb_eq _ _) (H r (or_introl eq_refl))).
  f_equal. apply IH. intros x Hx. apply H. right. exact Hx.
Qed.

Lemma group_none (i : nat) (k : cell) (rs : list row) :
  (forall r, In r rs -> cell_at i r <> k) -> group i k rs = [].
Proof.
  intros H. induction rs as [| r t IH]; simpl; [reflexivity |].
  rewrite (proj2 (cell_eqb_neq _ _) (H r (or_introl eq_refl))).
  apply IH. intros x Hx. apply H. right. exact Hx.
Qed.

(** Of the rows picked partition by partition, those of key [k] are the
    ones picked in the partition of [k]. *)
Lemma group_flat_map (i : nat) (k : cell) (pick : cell -> list row)
    (keys : list cell) :
  (forall k' r, In r (pick k') -> cell_at i r = k') ->
  NoDup keys -> In k keys ->
  group i k (flat_map pick keys) = pick k.
Proof.
  intros Hpick Hnd Hin. induction Hnd as [| a keys Ha Hnd IH]; [easy |].
  simpl. unfold group. rewrite filter_app.
  fold (group i k (pick a)) (group i k (flat_map pick keys)).
  destruct Hin as [-> | Hin].
  - rewrite group_all by (apply Hpick).
    rewrite group_none; [apply app_nil_r |].
    intros r Hr E. apply in_flat_map in Hr. destruct Hr as (k' & Hk' & Hr).
    apply Hpick in Hr. congruence.
  - rewrite IH by exact Hin.
    rewrite group_none; [reflexivity |].
    intros r Hr E. apply Hpick in Hr. congruence.
Qed.

(** ** Cells of a row *)

Lemma cell_at_overflow (i : nat) (r : row) :
  length r <= i -> cell_at i r = Null.
Proof. intros H. unfold cell_at. apply nth_overflow. exact H. Qed.

Lemma cell_at_map_at (f : cell -> cell) (r : row) :
  forall i j,
    cell_at i (map_at j f r) =
    if ((i =? j) && (i <? length r))%nat then f (cell_at i r)
    else cell_at i r.
Proof.
  unfold cell_at. induction r as [| c t IH]; intros i j; simpl.
  - destruct i; rewrite andb_false_r; reflexivity.
  - destruct j as [| j], i as [| i]; simpl; try reflexivity.
    rewrite IH. reflexivity.
Qed.

Lemma length_map_at (f : cell -> cell) (r : row) :
  forall j, length (map_at j f r) = length r.
Proof.
  induction r as [| c t IH]; intros j; simpl; [reflexivity |].
  destruct j; simpl; [| rewrite IH]; reflexivity.
Qed.

(** A function that keeps null null acts on the cell it is applied to,
    even where the row is too short to have it. *)
Lemma cell_at_map_at_same (f : cell -> cell) (r : row) (j : nat) :
  f Null = Null -> cell_at j (map_at j f r) = f (cell_at j r).
Proof.
  intros Hf. rewrite cell_at_map_at, Nat.eqb_refl. simpl.
  destruct (Nat.ltb_spec j (length r)) as [H | H]; [reflexivity |].
  rewrite cell_at_overflow by exact H. symmetry. exact Hf.
Qed.

Lemma cell_at_map_at_other (f : cell -> cell) (r : row) (i j : nat) :
  i <> j -> cell_at i (map_at j f r) = cell_at i r.
Proof.
  intros H. rewrite cell_at_map_at.
  apply Nat.eqb_neq in H. rewrite H. reflexivity.
Qed.

(** A property of cells that [f] establishes or keeps, and null has,
    survives [f] applied anywhere. *)
Lemma map_at_keeps (P : cell -> Prop) (f : cell -> cell) (r : row)
    (i j : nat) :
  (forall c, P c -> P (f c)) -> P (cell_at i r) -> P (cell_at i (map_at j f r)).
Proof.
  intros Hf H. rewrite cell_at_map_at.
  destruct ((i =? j) && (i <? length r))%nat; auto.
Qed.

Lemma pandas_to_datetime_date_or_null (e : Calendar.encoding) (c : cell) :
  date_or_null (Pandas.to_datetime e c).
Proof.
  unfold date_or_null. destruct c as [| s | d | z]; simpl; eauto.
  destruct (Pandas.parse e s); eauto.
Qed.

Lemma spark_to_date_date_or_null (e : Calendar.encoding) (c : cell) :
  date_or_null (Spark.to_date e c).
Proof.
  unfold date_or_null. destruct c as [| s | d | z]; simpl; eauto.
  destruct (Calendar.parse e s); eauto.
Qed.

Lemma pandas_within_date_or_null (n : nat) (c : cell) :
  date_or_null c -> date_or_null (Pandas.within n c).
Proof.
  unfold date_or_null. intros [-> | [d ->]]; simpl; auto.
Qed.

Lemma spark_within_date_or_null (n : nat) (c : cell) :
  date_or_null c -> date_or_null (Spark.within n c).
Proof.
  unfold date_or_null. intros [-> | [d ->]]; simpl; auto.
Qed.

(** ** Names and positions *)

Lemma positions_rename (same : string -> string -> bool) (name : string)
    (g : string -> string) (cols : list string) :
  (forall c, same name (g c) = same name c) ->
  forall from,
    positions same name (map g cols) from = positions same name cols from.
Proof.
  intros Hg. induction cols as [| c t IH]; intros from; simpl;
    [reflexivity |].
  rewrite Hg, !IH. reflexivity.
Qed.

Lemma same_name_rename (name other c : string) :
  Spark.same_name other (if Spark.same_name name c then name else c) =
  Spark.same_name other c.
Proof.
  destruct (Spark.same_name name c) eqn:E; [| reflexivity].
  unfold Spark.same_name in *. apply String.eqb_eq in E. rewrite E.
  reflexivity.
Qed.

(** Replacing a column does not move any column. *)
Lemma spark_with_column_resolve (name : string) (f : cell -> cell)
    (df out : frame) :
  Spark.with_column name f df = Ok out ->
  forall other, Spark.column other out = Spark.column other df.
Proof.
  unfold Spark.with_column. intros H other. bind_inv H. apply ok_inj in H.
  subst out. unfold Spark.column, resolve. simpl.
  rewrite positions_rename; [reflexivity |].
  intros c. apply same_name_rename.
Qed.

(** ** What the stages keep *)

Lemma rows_map_keep (P : cell -> Prop) (f : cell -> cell) (i j : nat)
    (rs : list row) :
  (forall c, P c -> P (f c)) ->
  (forall r, In r rs -> P (cell_at i r)) ->
  forall r, In r (map (map_at j f) rs) -> P (cell_at i r).
Proof.
  intros Hf H r Hr. apply in_map_iff in Hr. destruct Hr as (r0 & <- & Hr0).
  apply map_at_keeps; auto.
Qed.

Lemma pandas_convert_date_inv (name : string) (df out : frame) :
  Pandas.convert_date name df = Ok out ->
  exists j, Pandas.column name df = Ok j /\
            columns out = columns df /\
            rows out =
              map (map_at j (Pandas.to_datetime
                               (if String.eqb name "DOB" then Calendar.DMY
                                else Calendar.YMD))) (rows df).
Proof.
  unfold Pandas.convert_date. intros H. bind_inv H.
  apply ok_inj in H. subst out. exists x. auto.
Qed.

(** The loop over the date columns, as one pass over the rows. *)
Lemma pandas_convert_dates_inv (df out : frame) :
  Pandas.convert_dates df = Ok out ->
  exists o l b,
    Pandas.column "Open_Date" df = Ok o /\
    Pandas.column "Last_Consulted_Date" df = Ok l /\
    Pandas.column "DOB" df = Ok b /\
    columns out = columns df /\
    rows out =
      map (fun r => map_at b (Pandas.to_datetime Calendar.DMY)
                   (map_at l (Pandas.to_datetime Calendar.YMD)
                   (map_at o (Pandas.to_datetime Calendar.YMD) r)))
          (rows df).
Proof.
  unfold Pandas.convert_dates. intros H.
  bind_inv H. apply pandas_convert_date_inv in Hx.
  destruct Hx as (o & Ho & Hc0 & Hr0).
  bind_inv H. apply pandas_convert_date_inv in Hx.
  destruct Hx as (l & Hl & Hc1 & Hr1).
  apply pandas_convert_date_inv in H. destruct H as (b & Hb & Hc2 & Hr2).
  unfold Pandas.column in *. rewrite Hc1, Hc0 in Hb. rewrite Hc0 in Hl.
  exists o, l, b. repeat split; try assumption; try congruence.
  rewrite Hr2, Hr1, Hr0, !map_map. reflexivity.
Qed.

Lemma spark_convert_dates_inv (df out : frame) :
  Spark.convert_dates df = Ok out ->
  exists o l b,
    Spark.column "Open_Date" df = Ok o /\
    Spark.column "Last_Consulted_Date" df = Ok l /\
    Spark.column "DOB" df = Ok b /\
    (forall name, Spark.column name out = Spark.column name df) /\
    rows out =
      map (fun r => map_at b (Spark.to_date Calendar.DMY)
                   (map_at l (Spark.to_date Calendar.YMD)
                   (map_at o (Spark.to_date Calendar.YMD) r)))
          (rows df).
Proof.
  unfold Spark.convert_dates. intros H.
  bind_inv H. pose proof (spark_with_column_resolve _ _ _ _ Hx) as Hc0.
  apply spark_with_column_inv in Hx. destruct Hx as (o & Ho & _ & Hr0).
  bind_inv H. pose proof (spark_with_column_resolve _ _ _ _ Hx) as Hc1.
  apply spark_with_column_inv in Hx. destruct Hx as (l & Hl & _ & Hr1).
  pose proof (spark_with_column_resolve _ _ _ _ H) as Hc2.
  apply spark_with_column_inv in H. destruct H as (b & Hb & _ & Hr2).
  rewrite Hc1, Hc0 in Hb. rewrite Hc0 in Hl.
  exists o, l, b. repeat split; try assumption.
  - intros name. rewrite Hc2, Hc1, Hc0. reflexivity.
  - rewrite Hr2, Hr1, Hr0, !map_map. reflexivity.
Qed.

(** Once the dates are parsed the cells of [Last_Consulted_Date] are
    dates or null, and validation leaves them so. *)
Lemma pandas_parsed_column (df0 df1 : frame) (l : nat) :
  Pandas.convert_dates df0 = Ok df1 ->
  Pandas.column "Last_Consulted_Date" df1 = Ok l ->
  forall r, In r (rows df1) -> date_or_null (cell_at l r).
Proof.
  intros H Hl r Hr. apply pandas_convert_dates_inv in H.
  destruct H as (o & l' & b & _ & Hl' & _ & Hc & Hrows).
  unfold Pandas.column in *. rewrite Hc, Hl' in Hl. apply ok_inj in Hl.
  subst l'. rewrite Hrows in Hr. apply in_map_iff in Hr.
  destruct Hr as (r0 & <- & _).
  apply map_at_keeps; [intros; apply pandas_to_datetime_date_or_null |].
  rewrite cell_at_map_at_same by reflexivity.
  apply pandas_to_datetime_date_or_null.
Qed.

Lemma spark_parsed_column (df0 df1 : frame) (l : nat) :
  Spark.convert_dates df0 = Ok df1 ->
  Spark.column "Last_Consulted_Date" df1 = Ok l ->
  forall r, In r (rows df1) -> date_or_null (cell_at l r).
Proof.
  intros H Hl r Hr. apply spark_convert_dates_inv in H.
  destruct H as (o & l' & b & _ & Hl' & _ & Hc & Hrows).
  rewrite Hc, Hl' in Hl. apply ok_inj in Hl.
  subst l'. rewrite Hrows in Hr. apply in_map_iff in Hr.
  destruct Hr as (r0 & <- & _).
  apply map_at_keeps; [intros; apply spark_to_date_date_or_null |].
  rewrite cell_at_map_at_same by reflexivity.
  apply spark_to_date_date_or_null.
Qed.

Lemma pandas_null_long_fields_keep (P : cell -> Prop) (i : nat)
    (df nulled : frame) :
  (forall n c, P c -> P (Pandas.within n c)) ->
  Pandas.null_long_fields df = Ok nulled ->
  (forall r, In r (rows df) -> P (cell_at i r)) ->
  forall r, In r (rows nulled) -> P (cell_at i r).
Proof.
  intros HP H. unfold Pandas.null_long_fields in H.
  repeat (bind_inv H;
          apply pandas_check_length_inv in Hx;
          destruct Hx as (? & _ & _ & ?)).
  apply pandas_check_length_inv in H. destruct H as (? & _ & _ & ?).
  intros Hstart.
  repeat match goal with
         | E : rows ?a = map _ (rows ?b),
           Hb : forall r, In r (rows ?b) -> P (cell_at i r) |- _ =>
             assert (forall r, In r (rows a) -> P (cell_at i r))
               by (rewrite E; apply rows_map_keep; [apply HP | exact Hb]);
             clear E
         end.
  assumption.
Qed.

Lemma spark_null_long_fields_keep (P : cell -> Prop) (i : nat)
    (df nulled : frame) :
  (forall n c, P c -> P (Spark.within n c)) ->
  Spark.null_long_fields df = Ok nulled ->
  (forall r, In r (rows df) -> P (cell_at i r)) ->
  forall r, In r (rows nulled) -> P (cell_at i r).
Proof.
  intros HP H. unfold Spark.null_long_fields in H.
  repeat (bind_inv H;
          apply spark_with_column_inv in Hx;
          destruct Hx as (? & _ & _ & ?)).
  apply spark_with_column_inv in H. destruct H as (? & _ & _ & ?).
  intros Hstart.
  repeat match goal with
         | E : rows ?a = map _ (rows ?b),
           Hb : forall r, In r (rows ?b) -> P (cell_at i r) |- _ =>
             assert (forall r, In r (rows a) -> P (cell_at i r))
               by (rewrite E; apply rows_map_keep; [apply HP | exact Hb]);
             clear E
         end.
  assumption.
Qed.

Lemma spark_null_long_fields_resolve (name : string) (df nulled : frame) :
  Spark.null_long_fields df = Ok nulled ->
  Spark.column name nulled = Spark.column name df.
Proof.
  unfold Spark.null_long_fields. intros H.
  repeat (bind_inv H;
          apply spark_with_column_resolve with (other := name) in Hx;
          revert Hx).
  apply spark_with_column_resolve with (other := name) in H.
  intros. congruence.
Qed.

Lemma latest_has_date (j : nat) (grp : list row) (r : row) :
  (forall r', In r' grp -> date_or_null (cell_at j r')) ->
  latest_of j grp r ->
  (exists r', In r' grp /\ cell_at j r' <> Null) ->
  cell_at j r <> Null.
Proof.
  intros Hd [_ Hmax] (r' & Hr' & Hn).
  destruct (Hd r' Hr') as [E | [x E]]; [contradiction |].
  destruct (date_le_from_date _ _ _ E (Hmax r' Hr')) as [y Ey].
  rewrite Ey. discriminate.
Qed.

(** ** Deduplication *)

Lemma pandas_one_latest_row (df0 df1 df : frame) :
  Pandas.convert_dates df0 = Ok df1 ->
  Pandas.validate_data df1 = Ok df ->
  exists i j latest,
    Pandas.column "Customer_Id" df = Ok i /\
    Pandas.column "Last_Consulted_Date" df = Ok j /\
    Pandas.global_latest_records df = Ok latest /\
    one_latest_row i j (rows df) (rows latest).
Proof.
  intros Hconv Hval.
  pose proof (pandas_convert_dates_inv _ _ Hconv)
    as (o & l & b & _ & Hl & _ & Hc1 & _).
  unfold Pandas.validate_data in Hval. bind_inv Hval.
  rename x into nulled, Hx into Hnull.
  destruct (pandas_null_long_fields_keeps_rows _ _ Hnull) as [Hc2 _].
  apply pandas_drop_incomplete in Hval.
  destruct Hval as (n & i & o' & _ & Hi & _ & Hc3 & Hrows).
  assert (Hl1 : Pandas.column "Last_Consulted_Date" df1 = Ok l)
    by (unfold Pandas.column in *; congruence).
  assert (Hl3 : Pandas.column "Last_Consulted_Date" df = Ok l)
    by (unfold Pandas.column in *; congruence).
  assert (Hi3 : Pandas.column "Customer_Id" df = Ok i)
    by (unfold Pandas.column in *; congruence).
  exists i, l,
    (mkframe (columns df) (Pandas.head1 i [] (sort_desc l (rows df)))).
  split; [exact Hi3 |]. split; [exact Hl3 |]. split.
  - unfold Pandas.global_latest_records. rewrite Hl3, Hi3. reflexivity.
  - simpl. intros k Hk.
    assert (Hnn : k <> Null).
    { apply in_map_iff in Hk. destruct Hk as (r0 & <- & Hr0).
      rewrite Hrows in Hr0. apply filter_In in Hr0.
      destruct Hr0 as [_ Hr0]. apply complete_spec in Hr0. tauto. }
    rewrite (head1_group i k (sort_desc l (rows df)) Hnn []). simpl.
    destruct (first_of_sorted_group i l k (rows df) Hk) as (r & Hr & Hlat).
    exists r. split; [exact Hr |]. split; [exact Hlat |].
    apply latest_has_date; [| exact Hlat].
    intros r' Hr'. apply group_key in Hr'. destruct Hr' as [Hr' _].
    rewrite Hrows in Hr'. apply filter_In in Hr'. destruct Hr' as [Hr' _].
    revert r' Hr'.
    apply (pandas_null_long_fields_keep date_or_null l df1 nulled);
      [apply pandas_within_date_or_null | exact Hnull |].
    apply (pandas_parsed_column df0 df1 l Hconv Hl1).
Qed.

Lemma positions_none (same : string -> string -> bool) (name : string)
    (cols : list string) :
  forall from,
    existsb (same name) cols = false -> positions same name cols from = [].
Proof.
  induction cols as [| c t IH]; intros from H; simpl in *; [reflexivity |].
  apply orb_false_iff in H. destruct H as [-> H]. apply IH. exact H.
Qed.

Lemma spark_without_none (name : string) (cols : list string) :
  existsb (Spark.same_name name) cols = false ->
  forall r, Spark.without name cols r = r.
Proof.
  induction cols as [| c cs IH]; intros H r; [destruct r; reflexivity |].
  cbn [existsb] in H. apply orb_false_iff in H. destruct H as [Hc H].
  destruct r as [| x xs]; [reflexivity |].
  cbn [Spark.without]. rewrite Hc, (IH H). reflexivity.
Qed.

Lemma spark_drop_none (name : string) (df : frame) :
  existsb (Spark.same_name name) (columns df) = false ->
  Spark.drop name df = df.
Proof.
  intros H. unfold Spark.drop. destruct df as [cols rs].
  cbn [columns rows] in *. f_equal.
  - clear rs. induction cols as [| c cs IH]; [reflexivity |].
    cbn [existsb] in H. apply orb_false_iff in H. destruct H as [Hc H].
    cbn [filter]. rewrite Hc. cbn [negb]. rewrite (IH H). reflexivity.
  - rewrite <- (map_id rs) at 2. apply map_ext.
    apply spark_without_none. exact H.
Qed.

(** On data without a column [row_number] the frame of
    [get_latest_data] has the columns of the data and, of every
    partition, the first row. *)
Lemma spark_get_latest_data_plain (data : frame) :
  existsb (Spark.same_name "row_number") (columns data) = false ->
  Spark.get_latest_data data =
  (j <- Spark.column "Last_Consulted_Date" data ;;
   i <- Spark.column "Customer_ID" data ;;
   Ok (mkframe (columns data)
         (flat_map
            (fun k => Spark.first_row j (Spark.partition i k (rows data)))
            (unique (map (cell_at i) (rows data)))))).
Proof.
  intros H. unfold Spark.get_latest_data.
  destruct (Spark.column "Last_Consulted_Date" data) as [j |];
    [| reflexivity].
  destruct (Spark.column "Customer_ID" data) as [i |]; [| reflexivity].
  cbn [bind]. rewrite (positions_none _ _ _ 0 H). cbn [length Nat.ltb Nat.leb].
  rewrite spark_drop_none by exact H. reflexivity.
Qed.

Lemma spark_first_row_key (i j : nat) (k : cell) (rs : list row) (r : row) :
  In r (Spark.first_row j (Spark.partition i k rs)) -> cell_at i r = k.
Proof.
  unfold Spark.first_row, Spark.partition. fold (group i k rs). intros H.
  assert (Hin : In r (sort_desc j (group i k rs))).
  { destruct (sort_desc j (group i k rs)) as [| a l]; simpl in H;
      [contradiction |]. destruct H as [-> | []]. left. reflexivity. }
  apply (Permutation_in _ (sort_desc_perm j _)) in Hin.
  apply group_key in Hin. tauto.
Qed.

Lemma spark_first_rows_latest (d0 d1 data : frame) :
  Spark.convert_dates d0 = Ok d1 ->
  Spark.validate_data d1 = Ok data ->
  exists i j,
    Spark.column "Customer_ID" data = Ok i /\
    Spark.column "Last_Consulted_Date" data = Ok j /\
    one_latest_row i j (rows data)
      (flat_map (fun k => Spark.first_row j (Spark.partition i k (rows data)))
                (unique (map (cell_at i) (rows data)))).
Proof.
  intros Hconv Hval.
  pose proof (spark_convert_dates_inv _ _ Hconv)
    as (o & l & b & _ & Hl & _ & Hc1 & _).
  unfold Spark.validate_data in Hval. bind_inv Hval.
  rename x into nulled, Hx into Hnull.
  pose proof (fun name => spark_null_long_fields_resolve name _ _ Hnull)
    as Hc2.
  apply spark_drop_incomplete in Hval.
  destruct Hval as (n & i & o' & _ & Hi & _ & Hc3 & Hrows).
  assert (Hl1 : Spark.column "Last_Consulted_Date" d1 = Ok l)
    by (rewrite Hc1; exact Hl).
  assert (Hl3 : Spark.column "Last_Consulted_Date" data = Ok l).
  { unfold Spark.column. rewrite Hc3.
    fold (Spark.column "Last_Consulted_Date" nulled).
    rewrite Hc2. exact Hl1. }
  assert (Hi3 : Spark.column "Customer_ID" data = Ok i).
  { unfold Spark.column. rewrite Hc3. exact Hi. }
  exists i, l.
  split; [exact Hi3 |]. split; [exact Hl3 |].
  intros k Hk.
  rewrite group_flat_map.
  - unfold Spark.first_row, Spark.partition. fold (group i k (rows data)).
    destruct (first_of_group_sorted i l k (rows data) Hk) as (r & Hr & Hlat).
    exists r. split; [exact Hr |]. split; [exact Hlat |].
    apply latest_has_date; [| exact Hlat].
    intros r' Hr'. apply group_key in Hr'. destruct Hr' as [Hr' _].
    rewrite Hrows in Hr'. apply filter_In in Hr'. destruct Hr' as [Hr' _].
    revert r' Hr'.
    apply (spark_null_long_fields_keep date_or_null l d1 nulled);
      [apply spark_within_date_or_null | exact Hnull |].
    apply (spark_parsed_column d0 d1 l Hconv Hl1).
  - intros k' r. apply spark_first_row_key.
  - apply unique_NoDup.
  - apply unique_In. exact Hk.
Qed.

(** ** The two date encodings *)

Section Encodings.

Local Open Scope Z_scope.

Lemma digit_of_digit_char (k : Z) :
  0 <= k <= 9 -> Calendar.digit (Calendar.digit_char k) = Some k.
Proof.
  intros H.
  assert (E : k = 0 \/ k = 1 \/ k = 2 \/ k = 3 \/ k = 4 \/ k = 5 \/
              k = 6 \/ k = 7 \/ k = 8 \/ k = 9) by lia.
  repeat (destruct E as [-> | E]; [reflexivity |]). subst k. reflexivity.
Qed.

Lemma digit_inv (c : ascii) (k : Z) :
  Calendar.digit c = Some k -> 0 <= k <= 9 /\ c = Calendar.digit_char k.
Proof.
  unfold Calendar.digit, Calendar.digit_char.
  destruct ((48 <=? nat_of_ascii c) && (nat_of_ascii c <=? 57))%nat eqn:E;
    [| discriminate].
  intros H. injection H as <-.
  apply andb_true_iff in E. destruct E as [E1 E2].
  apply Nat.leb_le in E1, E2. split; [lia |].
  rewrite Nat2Z.id.
  replace (48 + (nat_of_ascii c - 48))%nat with (nat_of_ascii c) by lia.
  symmetry. apply ascii_nat_embedding.
Qed.

Lemma number_from_cons (acc : Z) (c : ascii) (s : string) :
  Calendar.number_from acc (String c s) =
  match Calendar.digit c with
  | Some k => Calendar.number_from (10 * acc + k) s
  | None => None
  end.
Proof. reflexivity. Qed.

Lemma number_from_nil (acc : Z) :
  Calendar.number_from acc EmptyString = Some acc.
Proof. reflexivity. Qed.

Lemma two_digits (a b : Z) :
  0 <= a <= 9 -> 0 <= b <= 9 ->
  (10 * a + b) / 10 = a /\ (10 * a + b) mod 10 = b.
Proof. intros Ha Hb. Z.div_mod_to_equations. lia. Qed.

Lemma number_pad2 (n : Z) :
  0 <= n <= 99 -> Calendar.number (Calendar.pad2 n) = Some n.
Proof.
  intros H. unfold Calendar.number, Calendar.pad2.
  rewrite number_from_cons.
  rewrite digit_of_digit_char by (Z.div_mod_to_equations; lia).
  rewrite number_from_cons.
  rewrite digit_of_digit_char by (Z.div_mod_to_equations; lia).
  rewrite number_from_nil. f_equal. Z.div_mod_to_equations. lia.
Qed.

Lemma number2_inv (c0 c1 : ascii) (n : Z) :
  Calendar.number (String c0 (String c1 EmptyString)) = Some n ->
  0 <= n <= 99 /\ String c0 (String c1 EmptyString) = Calendar.pad2 n.
Proof.
  unfold Calendar.number. rewrite number_from_cons.
  destruct (Calendar.digit c0) as [a |] eqn:E0; [| discriminate].
  rewrite number_from_cons.
  destruct (Calendar.digit c1) as [b |] eqn:E1; [| discriminate].
  rewrite number_from_nil. intros H.
  assert (En : n = 10 * (10 * 0 + a) + b) by congruence.
  subst n. clear H.
  apply digit_inv in E0, E1. destruct E0 as [Ha ->], E1 as [Hb ->].
  split; [lia |]. unfold Calendar.pad2.
  replace (10 * (10 * 0 + a) + b) with (10 * a + b) by lia.
  destruct (two_digits a b Ha Hb) as [-> ->]. reflexivity.
Qed.

Lemma number_pad4 (n : Z) :
  0 <= n <= 9999 -> Calendar.number (Calendar.pad4 n) = Some n.
Proof.
  intros H. unfold Calendar.number, Calendar.pad4, Calendar.pad2.
  cbn [String.append].
  do 4 (rewrite number_from_cons;
        rewrite digit_of_digit_char by (Z.div_mod_to_equations; lia)).
  rewrite number_from_nil. f_equal. Z.div_mod_to_equations. lia.
Qed.

Lemma number4_inv (c0 c1 c2 c3 : ascii) (n : Z) :
  Calendar.number
    (String c0 (String c1 (String c2 (String c3 EmptyString)))) = Some n ->
  0 <= n <= 9999 /\
  String c0 (String c1 (String c2 (String c3 EmptyString))) = Calendar.pad4 n.
Proof.
  unfold Calendar.number. rewrite number_from_cons.
  destruct (Calendar.digit c0) as [a |] eqn:E0; [| discriminate].
  rewrite number_from_cons.
  destruct (Calendar.digit c1) as [b |] eqn:E1; [| discriminate].
  rewrite number_from_cons.
  destruct (Calendar.digit c2) as [c |] eqn:E2; [| discriminate].
  rewrite number_from_cons.
  destruct (Calendar.digit c3) as [d |] eqn:E3; [| discriminate].
  rewrite number_from_nil. intros H.
  assert (En : n = 10 * (10 * (10 * (10 * 0 + a) + b) + c) + d)
    by congruence.
  subst n. clear H.
  apply digit_inv in E0, E1, E2, E3.
  destruct E0 as [Ha ->], E1 as [Hb ->], E2 as [Hc ->], E3 as [Hd ->].
  split; [lia |]. unfold Calendar.pad4, Calendar.pad2.
  cbn [String.append].
  assert (E : 10 * (10 * (10 * (10 * 0 + a) + b) + c) + d =
              100 * (10 * a + b) + (10 * c + d)) by lia.
  rewrite E.
  assert (Hq : (100 * (10 * a + b) + (10 * c + d)) / 100 = 10 * a + b)
    by (Z.div_mod_to_equations; lia).
  assert (Hr : (100 * (10 * a + b) + (10 * c + d)) mod 100 = 10 * c + d)
    by (Z.div_mod_to_equations; lia).
  rewrite Hq, Hr.
  destruct (two_digits a b Ha Hb) as [-> ->].
  destruct (two_digits c d Hc Hd) as [-> ->]. reflexivity.
Qed.

Lemma parse_ymd_encoded (y m d : Z) :
  Calendar.parse Calendar.YMD
    (Calendar.pad4 y ++ Calendar.pad2 m ++ Calendar.pad2 d) =
  Calendar.checked (Calendar.number (Calendar.pad4 y))
    (Calendar.number (Calendar.pad2 m)) (Calendar.number (Calendar.pad2 d)).
Proof. reflexivity. Qed.

Lemma parse_dmy_encoded (y m d : Z) :
  Calendar.parse Calendar.DMY
    (Calendar.pad2 d ++ Calendar.pad2 m ++ Calendar.pad4 y) =
  Calendar.checked (Calendar.number (Calendar.pad4 y))
    (Calendar.number (Calendar.pad2 m)) (Calendar.number (Calendar.pad2 d)).
Proof. reflexivity. Qed.

Lemma valid_bounds (d : date) :
  Calendar.valid d = true ->
  1 <= year d <= 9999 /\ 1 <= month d <= 12 /\ 1 <= day d <= 31.
Proof.
  unfold Calendar.valid. rewrite !andb_true_iff, !Z.leb_le.
  intros (((((Hy1 & Hy2) & Hm1) & Hm2) & Hd1) & Hd2).
  repeat split; try assumption.
  unfold Calendar.days_in_month in Hd2.
  assert (E : month d = 1 \/ month d = 2 \/ month d = 3 \/ month d = 4 \/
              month d = 5 \/ month d = 6 \/ month d = 7 \/ month d = 8 \/
              month d = 9 \/ month d = 10 \/ month d = 11 \/ month d = 12)
    by lia.
  repeat (destruct E as [E | E];
          [rewrite E in Hd2; simpl in Hd2;
           try destruct (Calendar.is_leap (year d)); lia |]).
  rewrite E in Hd2; simpl in Hd2. lia.
Qed.

(** A day of the calendar parses from its encoding. *)
Lemma parse_encode (e : Calendar.encoding) (d : date) :
  Calendar.valid d = true -> Calendar.parse e (Calendar.encode e d) = Some d.
Proof.
  intros Hv. destruct (valid_bounds d Hv) as (Hy & Hm & Hd).
  destruct d as [y m dd]. cbn [year month day] in *.
  destruct e; unfold Calendar.encode; cbn [year month day];
    [rewrite parse_ymd_encoded | rewrite parse_dmy_encoded];
    rewrite number_pad4, !number_pad2 by lia;
    unfold Calendar.checked; rewrite Hv; reflexivity.
Qed.

Lemma eight_characters (s : string) :
  String.length s = 8%nat ->
  exists c0 c1 c2 c3 c4 c5 c6 c7,
    s = String c0 (String c1 (String c2 (String c3
          (String c4 (String c5 (String c6 (String c7 EmptyString))))))).
Proof.
  intros H.
  do 8 (destruct s as [| ? s]; [discriminate |]).
  destruct s; [| discriminate]. repeat eexists.
Qed.

(** What parses is the encoding of the day it parses to. *)
Lemma parse_inv (e : Calendar.encoding) (s : string) (d : date) :
  Calendar.parse e s = Some d ->
  Calendar.valid d = true /\ s = Calendar.encode e d.
Proof.
  unfold Calendar.parse.
  destruct (Nat.eqb_spec (String.length s) 8) as [Hlen |]; [| discriminate].
  destruct (eight_characters s Hlen)
    as (c0 & c1 & c2 & c3 & c4 & c5 & c6 & c7 & ->).
  clear Hlen. intros H. destruct e; simpl in H; unfold Calendar.checked in H.
  - destruct (Calendar.number
                (String c0 (String c1 (String c2 (String c3 "")))))
      as [y |] eqn:Ey; [| discriminate].
    destruct (Calendar.number (String c4 (String c5 ""))) as [m |] eqn:Em;
      [| discriminate].
    destruct (Calendar.number (String c6 (String c7 ""))) as [dd |] eqn:Ed;
      [| discriminate].
    destruct (Calendar.valid (mkdate y m dd)) eqn:Ev; [| discriminate].
    assert (E : d = mkdate y m dd) by congruence. subst d.
    split; [exact Ev |].
    change (Calendar.encode Calendar.YMD (mkdate y m dd))
      with (Calendar.pad4 y ++ Calendar.pad2 m ++ Calendar.pad2 dd)%string.
    apply number4_inv in Ey. apply number2_inv in Em, Ed.
    destruct Ey as [_ Ey], Em as [_ Em], Ed as [_ Ed].
    rewrite <- Ey, <- Em, <- Ed. reflexivity.
  - destruct (Calendar.number
                (String c4 (String c5 (String c6 (String c7 "")))))
      as [y |] eqn:Ey; [| discriminate].
    destruct (Calendar.number (String c2 (String c3 ""))) as [m |] eqn:Em;
      [| discriminate].
    destruct (Calendar.number (String c0 (String c1 ""))) as [dd |] eqn:Ed;
      [| discriminate].
    destruct (Calendar.valid (mkdate y m dd)) eqn:Ev; [| discriminate].
    assert (E : d = mkdate y m dd) by congruence. subst d.
    split; [exact Ev |].
    change (Calendar.encode Calendar.DMY (mkdate y m dd))
      with (Calendar.pad2 dd ++ Calendar.pad2 m ++ Calendar.pad4 y)%string.
    apply number4_inv in Ey. apply number2_inv in Em, Ed.
    destruct Ey as [_ Ey], Em as [_ Em], Ed as [_ Ed].
    rewrite <- Ey, <- Em, <- Ed. reflexivity.
Qed.

(** *** The reading of pandas *)

Lemma string_app_nil_r (s : string) : (s ++ "")%string = s.
Proof. induction s as [| c s IH]; cbn; [| rewrite IH]; reflexivity. Qed.

Lemma string_app_assoc (a b c : string) :
  ((a ++ b) ++ c)%string = (a ++ b ++ c)%string.
Proof. induction a as [| x a IH]; cbn; [| rewrite IH]; reflexivity. Qed.

Lemma orelse_some {A : Type} (a b : option A) (r : A) :
  Pandas.orelse a b = Some r -> a = Some r \/ b = Some r.
Proof. destruct a; cbn; auto. Qed.

(** What the matchers of the directives take from a text. *)
Lemma pandas_two_inv {A : Type} (test : Z -> Z -> bool) (s : string)
    (k : Z -> string -> option A) (r : A) :
  Pandas.two test s k = Some r ->
  exists n rest,
    0 <= n <= 99 /\ s = (Calendar.pad2 n ++ rest)%string /\
    test (n / 10) (n mod 10) = true /\ k n rest = Some r.
Proof.
  unfold Pandas.two. destruct s as [| a [| b rest]]; try discriminate.
  destruct (Calendar.digit a) as [x |] eqn:Ea; [| discriminate].
  destruct (Calendar.digit b) as [y |] eqn:Eb; [| discriminate].
  destruct (test x y) eqn:Et; [| discriminate]. intros H.
  apply digit_inv in Ea, Eb. destruct Ea as [Hx ->], Eb as [Hy ->].
  exists (10 * x + y), rest. destruct (two_digits x y Hx Hy) as [Eq Er].
  split; [lia |]. split; [| split].
  - unfold Calendar.pad2. rewrite Eq, Er. reflexivity.
  - rewrite Eq, Er. exact Et.
  - exact H.
Qed.

Lemma pandas_one_inv {A : Type} (s : string) (k : Z -> string -> option A)
    (r : A) :
  Pandas.one s k = Some r ->
  exists n rest,
    1 <= n <= 9 /\ s = String (Calendar.digit_char n) rest /\
    k n rest = Some r.
Proof.
  unfold Pandas.one. destruct s as [| a rest]; [discriminate |].
  destruct (Calendar.digit a) as [x |] eqn:Ea; [| discriminate].
  destruct (1 <=? x) eqn:E1; [| discriminate]. intros H.
  apply digit_inv in Ea. destruct Ea as [Hx ->]. apply Z.leb_le in E1.
  exists x, rest. split; [lia |]. split; [reflexivity | exact H].
Qed.

Lemma pandas_blank_one_inv {A : Type} (s : string)
    (k : Z -> string -> option A) (r : A) :
  Pandas.blank_one s k = Some r ->
  exists n rest,
    1 <= n <= 9 /\
    s = String " " (String (Calendar.digit_char n) rest) /\
    k n rest = Some r.
Proof.
  unfold Pandas.blank_one. destruct s as [| c s]; [discriminate |].
  destruct (Ascii.eqb_spec c " "%char) as [-> |]; [| discriminate].
  intros H. apply pandas_one_inv in H.
  destruct H as (n & rest & Hn & -> & H). eauto.
Qed.

Lemma pandas_month12_inv {A : Type} (s : string)
    (k : Z -> string -> option A) (r : A) :
  Pandas.month12 s k = Some r ->
  exists m mm rest,
    written_as false m mm /\ s = (mm ++ rest)%string /\ k m rest = Some r.
Proof.
  unfold Pandas.month12. intros H.
  repeat (apply orelse_some in H; destruct H as [H | H]).
  1, 2: apply pandas_two_inv in H; destruct H as (n & rest & _ & -> & _ & H);
    exists n, (Calendar.pad2 n), rest; split; [left; reflexivity | auto].
  apply pandas_one_inv in H. destruct H as (n & rest & Hn & -> & H).
  exists n, (String (Calendar.digit_char n) ""), rest.
  split; [right; auto | auto].
Qed.

Lemma pandas_day31_inv {A : Type} (s : string)
    (k : Z -> string -> option A) (r : A) :
  Pandas.day31 s k = Some r ->
  exists d dd rest,
    written_as true d dd /\ s = (dd ++ rest)%string /\ k d rest = Some r.
Proof.
  unfold Pandas.day31. intros H.
  repeat (apply orelse_some in H; destruct H as [H | H]).
  1, 2, 3: apply pandas_two_inv in H;
    destruct H as (n & rest & _ & -> & _ & H);
    exists n, (Calendar.pad2 n), rest; split; [left; reflexivity | auto].
  - apply pandas_one_inv in H. destruct H as (n & rest & Hn & -> & H).
    exists n, (String (Calendar.digit_char n) ""), rest.
    split; [right; auto | auto].
  - apply pandas_blank_one_inv in H. destruct H as (n & rest & Hn & -> & H).
    exists n, (String " " (String (Calendar.digit_char n) "")), rest.
    split; [right; auto | auto].
Qed.

Lemma pandas_year4_inv {A : Type} (s : string)
    (k : Z -> string -> option A) (r : A) :
  Pandas.year4 s k = Some r ->
  exists y rest, s = (Calendar.pad4 y ++ rest)%string /\ k y rest = Some r.
Proof.
  unfold Pandas.year4. intros H.
  apply pandas_two_inv in H. destruct H as (hi & rest & Hhi & -> & _ & H).
  apply pandas_two_inv in H. destruct H as (lo & rest' & Hlo & -> & _ & H).
  exists (100 * hi + lo), rest'. split; [| exact H].
  unfold Calendar.pad4.
  replace ((100 * hi + lo) / 100) with hi by (Z.div_mod_to_equations; lia).
  replace ((100 * hi + lo) mod 100) with lo by (Z.div_mod_to_equations; lia).
  rewrite string_app_assoc. reflexivity.
Qed.

(** What pandas parses is a day of the calendar that a nanosecond
    timestamp holds and that the text writes. *)
Lemma pandas_parse_inv (e : Calendar.encoding) (s : string) (d : date) :
  Pandas.parse e s = Some d ->
  Calendar.valid d = true /\ Calendar.nanosecond d = true /\
  pandas_reads e s d.
Proof.
  unfold Pandas.parse.
  destruct (Pandas.strptime e s) as [[d' [| ? ?]] |] eqn:E; try discriminate.
  destruct (Calendar.valid d') eqn:Ev; [| discriminate].
  destruct (Calendar.nanosecond d') eqn:En; [| discriminate].
  cbn [andb]. intros H. assert (d' = d) by congruence. subst d'. clear H.
  split; [exact Ev |]. split; [exact En |].
  unfold Pandas.strptime in E. destruct e.
  - apply pandas_year4_inv in E. destruct E as (y & r1 & -> & E).
    apply pandas_month12_inv in E. destruct E as (m & mm & r2 & Hm & -> & E).
    apply pandas_day31_inv in E. destruct E as (x & dd & r3 & Hd & -> & E).
    assert (Ed : d = mkdate y m x) by congruence.
    assert (Er : r3 = "") by congruence. subst d r3.
    exists dd, mm. cbn [year month day]. rewrite string_app_nil_r. auto.
  - apply pandas_day31_inv in E. destruct E as (x & dd & r1 & Hd & -> & E).
    apply pandas_month12_inv in E. destruct E as (m & mm & r2 & Hm & -> & E).
    apply pandas_year4_inv in E. destruct E as (y & r3 & -> & E).
    assert (Ed : d = mkdate y m x) by congruence.
    assert (Er : r3 = "") by congruence. subst d r3.
    exists dd, mm. cbn [year month day]. rewrite string_app_nil_r. auto.
Qed.

Lemma pandas_two_pad2 {A : Type} (test : Z -> Z -> bool) (n : Z)
    (rest : string) (k : Z -> string -> option A) :
  0 <= n <= 99 ->
  Pandas.two test (Calendar.pad2 n ++ rest) k =
  if test (n / 10) (n mod 10) then k n rest else None.
Proof.
  intros H. unfold Calendar.pad2. cbn [String.append]. unfold Pandas.two.
  rewrite !digit_of_digit_char by (Z.div_mod_to_equations; lia).
  replace (10 * (n / 10) + n mod 10) with n
    by (Z.div_mod_to_equations; lia).
  reflexivity.
Qed.

Lemma pandas_year4_pad4 {A : Type} (y : Z) (rest : string)
    (k : Z -> string -> option A) :
  0 <= y <= 9999 -> Pandas.year4 (Calendar.pad4 y ++ rest) k = k y rest.
Proof.
  intros H. unfold Pandas.year4, Calendar.pad4.
  rewrite string_app_assoc.
  rewrite pandas_two_pad2 by (Z.div_mod_to_equations; lia).
  rewrite pandas_two_pad2 by (Z.div_mod_to_equations; lia).
  f_equal. Z.div_mod_to_equations. lia.
Qed.

Lemma pandas_month12_pad2 {A : Type} (m : Z) (rest : string)
    (k : Z -> string -> option A) (r : A) :
  1 <= m <= 12 -> k m rest = Some r ->
  Pandas.month12 (Calendar.pad2 m ++ rest) k = Some r.
Proof.
  intros H Hk. unfold Pandas.month12.
  rewrite !pandas_two_pad2 by lia.
  assert (E : m / 10 = 0 /\ 1 <= m mod 10 \/ m / 10 = 1 /\ m mod 10 <= 2)
    by (Z.div_mod_to_equations; lia).
  destruct E as [[E1 E2] | [E1 E2]]; rewrite E1.
  - apply Z.leb_le in E2. cbn [Z.eqb andb Pandas.orelse].
    rewrite E2, Hk. reflexivity.
  - apply Z.leb_le in E2. cbn [Z.eqb andb]. rewrite E2, Hk. reflexivity.
Qed.

Lemma pandas_day31_pad2 {A : Type} (d : Z) (rest : string)
    (k : Z -> string -> option A) (r : A) :
  1 <= d <= 31 -> k d rest = Some r ->
  Pandas.day31 (Calendar.pad2 d ++ rest) k = Some r.
Proof.
  intros H Hk. unfold Pandas.day31.
  rewrite !pandas_two_pad2 by lia.
  assert (E : d / 10 = 0 /\ 1 <= d mod 10 \/
              1 <= d / 10 <= 2 \/
              d / 10 = 3 /\ d mod 10 <= 1)
    by (Z.div_mod_to_equations; lia).
  destruct E as [[E1 E2] | [E | [E1 E2]]].
  - rewrite E1. cbn [Z.eqb Z.leb Z.compare andb Pandas.orelse].
    apply Z.leb_le in E2. rewrite E2, Hk. reflexivity.
  - destruct (d / 10 =? 3) eqn:E3; [apply Z.eqb_eq in E3; lia |].
    cbn [andb Pandas.orelse].
    destruct E as [E1 E2]. apply Z.leb_le in E1, E2. rewrite E1, E2, Hk.
    reflexivity.
  - rewrite E1. apply Z.leb_le in E2. cbn [Z.eqb andb]. rewrite E2, Hk.
    reflexivity.
Qed.

(** The eight-digit encoding of a day parses to that day when a
    nanosecond timestamp holds it, and does not parse when not. *)
Lemma pandas_parse_encode (e : Calendar.encoding) (d : date) :
  Calendar.valid d = true ->
  Pandas.parse e (Calendar.encode e d) =
  if Calendar.nanosecond d then Some d else None.
Proof.
  intros Hv. destruct (valid_bounds d Hv) as (Hy & Hm & Hd).
  destruct d as [y m dd]. cbn [year month day] in *.
  assert (E : Pandas.strptime e (Calendar.encode e (mkdate y m dd)) =
              Some (mkdate y m dd, "")).
  { unfold Pandas.strptime, Calendar.encode. cbn [year month day].
    destruct e.
    - rewrite pandas_year4_pad4 by lia.
      apply pandas_month12_pad2; [lia |].
      rewrite <- (string_app_nil_r (Calendar.pad2 dd)).
      apply pandas_day31_pad2; [lia | reflexivity].
    - apply pandas_day31_pad2; [lia |].
      apply pandas_month12_pad2; [lia |].
      rewrite <- (string_app_nil_r (Calendar.pad4 y)).
      rewrite pandas_year4_pad4 by lia. reflexivity. }
  unfold Pandas.parse. rewrite E, Hv. reflexivity.
Qed.

End Encodings.

(** ** Names resolve to the columns that bear them *)

Lemma positions_In (same : string -> string -> bool) (name : string)
    (cols : list string) :
  forall from i,
    In i (positions same name cols from) ->
    from <= i /\
    exists c, nth_error cols (i - from) = Some c /\ same name c = true.
Proof.
  induction cols as [| c t IH]; intros from i H; simpl in H;
    [contradiction |].
  assert (Ht : In i (positions same name t (S from)) ->
               from <= i /\
               exists c', nth_error (c :: t) (i - from) = Some c' /\
                          same name c' = true).
  { intros Hin. apply IH in Hin. destruct Hin as (Hle & c' & Hn & Hs).
    split; [lia |]. exists c'. split; [| exact Hs].
    replace (i - from) with (S (i - S from)) by lia. exact Hn. }
  destruct (same name c) eqn:E; [| auto].
  destruct H as [<- | H]; [| auto].
  split; [lia |]. exists c. rewrite Nat.sub_diag. auto.
Qed.

Lemma resolve_nth (same : string -> string -> bool) (name : string)
    (cols : list string) (i : nat) :
  resolve same name cols = Ok i ->
  exists c, nth_error cols i = Some c /\ same name c = true.
Proof.
  unfold resolve. intros H.
  destruct (positions same name cols 0) as [| a [| b l]] eqn:E;
    try discriminate.
  apply ok_inj in H. subst a.
  destruct (positions_In same name cols 0 i) as (_ & c & Hc & Hs).
  - rewrite E. left. reflexivity.
  - rewrite Nat.sub_0_r in Hc. eauto.
Qed.

Lemma resolve_apart (same : string -> string -> bool) (a b : string)
    (cols : list string) (i j : nat) :
  (forall c, same a c = true -> same b c = true -> False) ->
  resolve same a cols = Ok i -> resolve same b cols = Ok j -> i <> j.
Proof.
  intros Hab Hi Hj E. subst j.
  apply resolve_nth in Hi, Hj.
  destruct Hi as (c & Hc & Ha), Hj as (c' & Hc' & Hb).
  assert (c' = c) by congruence. subst c'. eauto.
Qed.

Lemma pandas_names_apart (a b c : string) :
  a <> b -> String.eqb a c = true -> String.eqb b c = true -> False.
Proof.
  intros Hab Ha Hb. apply String.eqb_eq in Ha, Hb. congruence.
Qed.

Lemma spark_names_apart (a b c : string) :
  Text.lowercase a <> Text.lowercase b ->
  Spark.same_name a c = true -> Spark.same_name b c = true -> False.
Proof.
  unfold Spark.same_name. intros Hab Ha Hb.
  apply String.eqb_eq in Ha, Hb. congruence.
Qed.

Lemma positions_complete (same : string -> string -> bool) (name : string)
    (cols : list string) :
  forall from i c,
    nth_error cols i = Some c -> same name c = true ->
    In (from + i) (positions same name cols from).
Proof.
  induction cols as [| c0 cols IH]; intros from i c Hi Hc;
    [destruct i; discriminate |].
  cbn [positions]. destruct i as [| i]; cbn [nth_error] in Hi.
  - assert (c0 = c) by congruence. subst c0. rewrite Hc, Nat.add_0_r.
    left. reflexivity.
  - replace (from + S i) with (S from + i) by lia.
    destruct (same name c0); [right |]; apply (IH (S from) i c Hi Hc).
Qed.

(** ** The helper column of the window *)

Lemma cell_at_nil (k : nat) : cell_at k [] = Null.
Proof. destruct k; reflexivity. Qed.

(** A column that stays is found again after the drop, with the cells
    it had. *)
Lemma spark_without_cell (name : string) (cols : list string) :
  forall k c,
    nth_error cols k = Some c -> Spark.same_name name c = false ->
    exists k',
      nth_error (filter (fun c => negb (Spark.same_name name c)) cols) k'
        = Some c /\
      forall r, cell_at k' (Spark.without name cols r) = cell_at k r.
Proof.
  induction cols as [| c0 cols IH]; intros k c Hk Hc;
    [destruct k; discriminate |].
  cbn [filter]. destruct k as [| k]; cbn [nth_error] in Hk.
  - assert (c0 = c) by congruence. subst c0. rewrite Hc. cbn [negb].
    exists 0. split; [reflexivity |].
    intros [| x xs]; [reflexivity |]. cbn [Spark.without]. rewrite Hc.
    reflexivity.
  - destruct (IH k c Hk Hc) as (k' & Hk' & Hcell).
    destruct (Spark.same_name name c0) eqn:E; cbn [negb].
    + exists k'. split; [exact Hk' |].
      intros [| x xs]; [rewrite !cell_at_nil; reflexivity |].
      cbn [Spark.without]. rewrite E. rewrite Hcell. reflexivity.
    + exists (S k'). split; [exact Hk' |].
      intros [| x xs]; [rewrite !cell_at_nil; reflexivity |].
      cbn [Spark.without]. rewrite E. unfold cell_at. cbn [nth].
      apply Hcell.
Qed.

Lemma spark_without_length (name : string) (cols : list string) :
  forall r,
    length r = length cols ->
    length (Spark.without name cols r) =
    length (filter (fun c => negb (Spark.same_name name c)) cols).
Proof.
  induction cols as [| c cols IH]; intros [| x xs] H; try discriminate H;
    [reflexivity |].
  cbn [Spark.without filter]. cbn [length] in H.
  destruct (Spark.same_name name c); cbn [negb length];
    rewrite IH by lia; reflexivity.
Qed.

Lemma positions_filter_length (same : string -> string -> bool)
    (name : string) (keep : string -> bool) (cols : list string) :
  (forall c, same name c = true -> keep c = true) ->
  forall from from',
    length (positions same name (filter keep cols) from') =
    length (positions same name cols from).
Proof.
  intros Hkeep. induction cols as [| c cols IH]; intros from from';
    [reflexivity |].
  cbn [filter positions]. destruct (same name c) eqn:E.
  - rewrite (Hkeep c E). cbn [positions]. rewrite E. cbn [length].
    rewrite (IH (S from) (S from')). reflexivity.
  - destruct (keep c); [cbn [positions]; rewrite E |]; apply IH.
Qed.

(** A name other than the dropped one resolves after the drop as it
    did before, to the column with the same cells. *)
Lemma spark_drop_resolve (name other : string) (cols : list string)
    (k : nat) :
  Text.lowercase other <> Text.lowercase name ->
  resolve Spark.same_name other cols = Ok k ->
  exists k',
    resolve Spark.same_name other
      (filter (fun c => negb (Spark.same_name name c)) cols) = Ok k' /\
    forall r, cell_at k' (Spark.without name cols r) = cell_at k r.
Proof.
  intros Hne Hk.
  assert (Hkeep : forall c, Spark.same_name other c = true ->
                    negb (Spark.same_name name c) = true).
  { intros c Hc. destruct (Spark.same_name name c) eqn:E; [| reflexivity].
    exfalso. exact (spark_names_apart other name c Hne Hc E). }
  destruct (resolve_nth _ _ _ _ Hk) as (c & Hc & Ec).
  pose proof (Hkeep c Ec) as Hn. apply negb_true_iff in Hn.
  destruct (spark_without_cell name cols k c Hc Hn) as (k' & Hk' & Hcell).
  exists k'. split; [| exact Hcell].
  pose proof (positions_complete Spark.same_name other _ 0 k' c Hk' Ec)
    as Hin.
  pose proof (positions_filter_length Spark.same_name other
                (fun c => negb (Spark.same_name name c)) cols Hkeep 0 0)
    as Hlen.
  unfold resolve in *.
  destruct (positions Spark.same_name other cols 0) as [| a [| b l]];
    try discriminate Hk.
  destruct (positions Spark.same_name other
              (filter (fun c => negb (Spark.same_name name c)) cols) 0)
    as [| p [| q ps]]; try discriminate Hlen.
  cbn [In Nat.add] in Hin. destruct Hin as [-> | []]. reflexivity.
Qed.

(** What [get_latest_data] returns, and when: the first rows of the
    partitions, without the columns [row_number], as long as the data
    have at most one. *)
Lemma spark_get_latest_data_inv (data latest : frame) :
  Spark.get_latest_data data = Ok latest ->
  exists i j,
    Spark.column "Customer_ID" data = Ok i /\
    Spark.column "Last_Consulted_Date" data = Ok j /\
    length (positions Spark.same_name "row_number" (columns data) 0) <= 1 /\
    latest =
    Spark.drop "row_number"
      (mkframe (columns data)
         (flat_map
            (fun k => Spark.first_row j (Spark.partition i k (rows data)))
            (unique (map (cell_at i) (rows data))))).
Proof.
  unfold Spark.get_latest_data. intros H.
  bind_inv H. bind_inv H. rename x into j, x0 into i.
  destruct (Nat.ltb_spec 1 (length (positions Spark.same_name "row_number"
                                      (columns data) 0))) as [Hlt | Hle];
    [discriminate H |].
  apply ok_inj in H. exists i, j. auto.
Qed.

Lemma spark_get_latest_data_ok (data : frame) (i j : nat) :
  Spark.column "Customer_ID" data = Ok i ->
  Spark.column "Last_Consulted_Date" data = Ok j ->
  length (positions Spark.same_name "row_number" (columns data) 0) <= 1 ->
  Spark.get_latest_data data =
  Ok (Spark.drop "row_number"
        (mkframe (columns data)
           (flat_map
              (fun k => Spark.first_row j (Spark.partition i k (rows data)))
              (unique (map (cell_at i) (rows data)))))).
Proof.
  intros Hi Hj Hle. unfold Spark.get_latest_data. rewrite Hi, Hj.
  cbn [bind].
  destruct (Nat.ltb_spec 1 (length (positions Spark.same_name "row_number"
                                      (columns data) 0))) as [Hlt | _];
    [lia | reflexivity].
Qed.

Lemma group_map (f : row -> row) (i i' : nat) (k : cell) (rs : list row) :
  (forall r, cell_at i' (f r) = cell_at i r) ->
  group i' k (map f rs) = map f (group i k rs).
Proof.
  intros Hf. unfold group. induction rs as [| r rs IH]; [reflexivity |].
  cbn [map filter]. rewrite Hf, IH.
  destruct (cell_eqb (cell_at i r) k); reflexivity.
Qed.

Lemma spark_one_latest_row (d0 d1 data : frame) :
  Spark.convert_dates d0 = Ok d1 ->
  Spark.validate_data d1 = Ok data ->
  length (positions Spark.same_name "row_number" (columns data) 0) <= 1 ->
  exists i j latest,
    Spark.column "Customer_ID" data = Ok i /\
    Spark.column "Last_Consulted_Date" data = Ok j /\
    Spark.get_latest_data data = Ok latest /\
    (exists i' j',
        Spark.column "Customer_ID" latest = Ok i' /\
        Spark.column "Last_Consulted_Date" latest = Ok j' /\
        (forall r,
            cell_at i' (Spark.without "row_number" (columns data) r) =
              cell_at i r /\
            cell_at j' (Spark.without "row_number" (columns data) r) =
              cell_at j r) /\
        one_latest_row_shown (Spark.without "row_number" (columns data))
          i j i' (rows data) (rows latest)) /\
    (existsb (Spark.same_name "row_number") (columns data) = false ->
     one_latest_row i j (rows data) (rows latest)).
Proof.
  intros Hconv Hval Hle.
  destruct (spark_first_rows_latest _ _ _ Hconv Hval)
    as (i & j & Hi & Hj & Hone).
  exists i, j. eexists.
  split; [exact Hi |]. split; [exact Hj |].
  split; [exact (spark_get_latest_data_ok data i j Hi Hj Hle) |].
  split.
  - destruct (spark_drop_resolve "row_number" "Customer_ID" (columns data) i)
      as (i' & Hi' & Ci); [discriminate | exact Hi |].
    destruct (spark_drop_resolve "row_number" "Last_Consulted_Date"
                (columns data) j)
      as (j' & Hj' & Cj); [discriminate | exact Hj |].
    exists i', j'. split; [exact Hi' |]. split; [exact Hj' |].
    split; [intros r; split; [apply Ci | apply Cj] |].
    intros k Hk. destruct (Hone k Hk) as (r & Hg & Hlat & Hnn).
    exists r. split; [| split; assumption].
    cbn [Spark.drop rows columns].
    rewrite (group_map _ i i' k _ Ci), Hg. reflexivity.
  - intros Hplain. rewrite spark_drop_none by exact Hplain. exact Hone.
Qed.

(** C3: of every customer among the validated rows the scripts keep
    exactly one row, and it is a latest one: no row of the customer has
    a later [Last_Consulted_Date], null counting as the earliest, so a
    row with a null date is kept only when the customer has no row with
    a date.  For pandas' sort and [groupby().head(1)], and for Spark's
    window and [row_number() == 1].  The PySpark script puts the number
    in a column [row_number] and drops it, so a column of that name in
    the data is overwritten and lost, and two of them make the
    reference to it ambiguous: with at most one, the row kept is the
    latest row without that cell, the customer and the date being
    found in it under their names; with none, it is the row itself. *)
Theorem one_latest_row_per_customer :
  (forall df0 df1 df : frame,
      Pandas.convert_dates df0 = Ok df1 ->
      Pandas.validate_data df1 = Ok df ->
      exists i j latest,
        Pandas.column "Customer_Id" df = Ok i /\
        Pandas.column "Last_Consulted_Date" df = Ok j /\
        Pandas.global_latest_records df = Ok latest /\
        one_latest_row i j (rows df) (rows latest)) /\
  (forall d0 d1 data : frame,
      Spark.convert_dates d0 = Ok d1 ->
      Spark.validate_data d1 = Ok data ->
      length (positions Spark.same_name "row_number" (columns data) 0)
        <= 1 ->
      exists i j latest,
        Spark.column "Customer_ID" data = Ok i /\
        Spark.column "Last_Consulted_Date" data = Ok j /\
        Spark.get_latest_data data = Ok latest /\
        (exists i' j',
            Spark.column "Customer_ID" latest = Ok i' /\
            Spark.column "Last_Consulted_Date" latest = Ok j' /\
            (forall r,
                cell_at i' (Spark.without "row_number" (columns data) r) =
                  cell_at i r /\
                cell_at j' (Spark.without "row_number" (columns data) r) =
                  cell_at j r) /\
            one_latest_row_shown
              (Spark.without "row_number" (columns data))
              i j i' (rows data) (rows latest)) /\
        (existsb (Spark.same_name "row_number") (columns data) = false ->
         one_latest_row i j (rows data) (rows latest))).
Proof.
  split; [exact pandas_one_latest_row | exact spark_one_latest_row].
Qed.

(** ** Parsing the dates *)

Lemma to_datetime_parsed_as (e : Calendar.encoding) (c : cell) :
  pandas_parsed_as e c (Pandas.to_datetime e c).
Proof.
  destruct c as [| s | d | z]; simpl; auto.
  split.
  - destruct (Pandas.parse e s) as [d |] eqn:E; [right | left; reflexivity].
    apply pandas_parse_inv in E. destruct E as (Hv & Hn & Hr).
    exists d. auto.
  - intros d Hv ->. rewrite pandas_parse_encode by exact Hv.
    destruct (Calendar.nanosecond d); reflexivity.
Qed.

Lemma to_date_parsed_as (e : Calendar.encoding) (c : cell) :
  parsed_as e c (Spark.to_date e c).
Proof.
  destruct c as [| s | d | z]; simpl; auto.
  destruct (Calendar.parse e s) as [d |] eqn:E.
  - left. apply parse_inv in E. destruct E as [Hv Hs]. eauto.
  - right. split; [| reflexivity]. intros d Hv Hs. subst s.
    rewrite parse_encode in E by exact Hv. discriminate.
Qed.

Lemma Forall2_map_right {A B : Type} (R : A -> B -> Prop) (f : A -> B)
    (l : list A) :
  (forall a, R a (f a)) -> Forall2 R l (map f l).
Proof.
  intros H. induction l as [| a l IH]; simpl; constructor; auto.
Qed.

(** Three parsers applied at three distinct positions parse each of
    the three cells and nothing else. *)
Lemma three_dates_parsed
    (read : Calendar.encoding -> cell -> cell -> Prop)
    (f : Calendar.encoding -> cell -> cell) (o l b : nat) (r : row) :
  (forall e, f e Null = Null) ->
  (forall e c, read e c (f e c)) ->
  o <> l -> o <> b -> l <> b ->
  dates_parsed read o l b r
    (map_at b (f Calendar.DMY)
       (map_at l (f Calendar.YMD) (map_at o (f Calendar.YMD) r))).
Proof.
  intros Hnull Hf Hol Hob Hlb. unfold dates_parsed.
  repeat split.
  - rewrite cell_at_map_at_other by exact Hob.
    rewrite cell_at_map_at_other by exact Hol.
    rewrite cell_at_map_at_same by apply Hnull. apply Hf.
  - rewrite cell_at_map_at_other by exact Hlb.
    rewrite cell_at_map_at_same by apply Hnull.
    rewrite cell_at_map_at_other by (intros E; apply Hol; auto). apply Hf.
  - rewrite cell_at_map_at_same by apply Hnull.
    rewrite !cell_at_map_at_other by (intros E; auto). apply Hf.
  - rewrite !length_map_at. reflexivity.
  - intros k Ho Hl Hb. rewrite !cell_at_map_at_other by assumption.
    reflexivity.
Qed.

Lemma pandas_dates_parsed (df : frame) (o l b : nat) :
  Pandas.column "Open_Date" df = Ok o ->
  Pandas.column "Last_Consulted_Date" df = Ok l ->
  Pandas.column "DOB" df = Ok b ->
  exists out,
    Pandas.convert_dates df = Ok out /\
    columns out = columns df /\
    Forall2 (dates_parsed pandas_parsed_as o l b) (rows df) (rows out).
Proof.
  intros Ho Hl Hb.
  exists (mkframe (columns df)
            (map (fun r => map_at b (Pandas.to_datetime Calendar.DMY)
                          (map_at l (Pandas.to_datetime Calendar.YMD)
                          (map_at o (Pandas.to_datetime Calendar.YMD) r)))
                 (rows df))).
  split; [| split; [reflexivity |]].
  - unfold Pandas.convert_dates, Pandas.convert_date, Pandas.column in *.
    rewrite Ho. simpl. rewrite Hl. simpl. rewrite Hb. simpl.
    unfold apply_at. simpl. rewrite !map_map. reflexivity.
  - simpl. apply Forall2_map_right. intros r.
    apply (three_dates_parsed pandas_parsed_as Pandas.to_datetime).
    + reflexivity.
    + apply to_datetime_parsed_as.
    + apply (resolve_apart String.eqb "Open_Date" "Last_Consulted_Date"
               (columns df)); [| exact Ho | exact Hl].
      intros c. apply pandas_names_apart. discriminate.
    + apply (resolve_apart String.eqb "Open_Date" "DOB" (columns df));
        [| exact Ho | exact Hb].
      intros c. apply pandas_names_apart. discriminate.
    + apply (resolve_apart String.eqb "Last_Consulted_Date" "DOB"
               (columns df)); [| exact Hl | exact Hb].
      intros c. apply pandas_names_apart. discriminate.
Qed.

Lemma spark_with_column_ok (name : string) (f : cell -> cell) (df : frame)
    (j : nat) :
  Spark.column name df = Ok j ->
  exists out,
    Spark.with_column name f df = Ok out /\
    rows out = map (map_at j f) (rows df) /\
    forall other, Spark.column other out = Spark.column other df.
Proof.
  intros Hj. unfold Spark.with_column. rewrite Hj. simpl.
  eexists. split; [reflexivity |]. split; [reflexivity |].
  apply (spark_with_column_resolve name f df).
  unfold Spark.with_column. rewrite Hj. reflexivity.
Qed.

Lemma spark_dates_parsed (data : frame) (o l b : nat) :
  Spark.column "Open_Date" data = Ok o ->
  Spark.column "Last_Consulted_Date" data = Ok l ->
  Spark.column "DOB" data = Ok b ->
  exists out,
    Spark.convert_dates data = Ok out /\
    (forall name, Spark.column name out = Spark.column name data) /\
    Forall2 (dates_parsed parsed_as o l b) (rows data) (rows out).
Proof.
  intros Ho Hl Hb. unfold Spark.convert_dates.
  destruct (spark_with_column_ok "Open_Date" (Spark.to_date Calendar.YMD)
              data o Ho) as (d1 & E1 & R1 & C1).
  rewrite E1. simpl.
  destruct (spark_with_column_ok "Last_Consulted_Date"
              (Spark.to_date Calendar.YMD) d1 l) as (d2 & E2 & R2 & C2);
    [rewrite C1; exact Hl |].
  rewrite E2. simpl.
  destruct (spark_with_column_ok "DOB" (Spark.to_date Calendar.DMY) d2 b)
    as (d3 & E3 & R3 & C3); [rewrite C2, C1; exact Hb |].
  exists d3. split; [exact E3 |]. split.
  - intros name. rewrite C3, C2, C1. reflexivity.
  - rewrite R3, R2, R1, !map_map. apply Forall2_map_right. intros r.
    apply (three_dates_parsed parsed_as Spark.to_date).
    + reflexivity.
    + apply to_date_parsed_as.
    + apply (resolve_apart Spark.same_name "Open_Date"
               "Last_Consulted_Date" (columns data)); [| exact Ho | exact Hl].
      intros c. apply spark_names_apart. discriminate.
    + apply (resolve_apart Spark.same_name "Open_Date" "DOB"
               (columns data)); [| exact Ho | exact Hb].
      intros c. apply spark_names_apart. discriminate.
    + apply (resolve_apart Spark.same_name "Last_Consulted_Date" "DOB"
               (columns data)); [| exact Hl | exact Hb].
      intros c. apply spark_names_apart. discriminate.
Qed.


Lemma length_encode (e : Calendar.encoding) (d : date) :
  String.length (Calendar.encode e d) = 8.
Proof. destruct e; reflexivity. Qed.


(** ** Lines, tokens and prefixes *)

Lemma split_nonempty (sep : ascii) (s : string) : Text.split sep s <> [].
Proof.
  destruct s as [| c s]; simpl; [discriminate |].
  destruct (Ascii.eqb c sep); [discriminate |].
  destruct (Text.split sep s); discriminate.
Qed.

Lemma split_cons_sep (sep : ascii) (s : string) :
  Text.split sep (String sep s) = EmptyString :: Text.split sep s.
Proof. simpl. rewrite Ascii.eqb_refl. reflexivity. Qed.

Lemma split_cons_other (sep c : ascii) (s : string) :
  c <> sep ->
  exists t ts, Text.split sep s = t :: ts /\
               Text.split sep (String c s) = String c t :: ts.
Proof.
  intros H. simpl. apply Ascii.eqb_neq in H. rewrite H.
  destruct (Text.split sep s) as [| t ts] eqn:E.
  - exfalso. exact (split_nonempty sep s E).
  - eauto.
Qed.

(** A first token that is empty, with more tokens after it, comes from
    a leading separator. *)
Lemma split_empty_head (sep : ascii) (s : string) (t : string)
    (ts : list string) :
  Text.split sep s = EmptyString :: t :: ts ->
  exists s', s = String sep s' /\ Text.split sep s' = t :: ts.
Proof.
  destruct s as [| c s]; simpl; [discriminate |].
  destruct (Ascii.eqb_spec c sep) as [-> | Hc].
  - intros H. injection H as H. eauto.
  - destruct (Text.split sep s); discriminate.
Qed.

(** A first token that starts with a character starts the text. *)
Lemma split_char_head (sep c : ascii) (s tok : string)
    (ts : list string) :
  Text.split sep s = String c tok :: ts ->
  exists s', s = String c s' /\ Text.split sep s' = tok :: ts.
Proof.
  destruct s as [| c' s]; simpl; [discriminate |].
  destruct (Ascii.eqb_spec c' sep) as [-> | Hc]; [discriminate |].
  destruct (Text.split sep s) as [| t0 ts0] eqn:E.
  - exfalso. exact (split_nonempty sep s E).
  - intros H. injection H as -> -> ->. eauto.
Qed.

Lemma startswith_tag_for (sep t : ascii) (line : string) :
  t <> sep ->
  Text.startswith line (String sep (String t (String sep EmptyString)))
    = true <->
  exists payload, payload <> [] /\
    Text.split sep line = EmptyString :: String t EmptyString :: payload.
Proof.
  intros Ht. split.
  - destruct line as [| c0 [| c1 [| c2 rest]]]; simpl;
      try discriminate;
      try (rewrite ?andb_false_r; discriminate).
    rewrite !andb_true_iff.
    intros (H0 & H1 & H2 & _).
    apply Ascii.eqb_eq in H0, H1, H2. subst c0 c1 c2.
    exists (Text.split sep rest). split; [apply split_nonempty |].
    rewrite Ascii.eqb_refl.
    apply Ascii.eqb_neq in Ht. rewrite Ht. reflexivity.
  - intros (payload & Hne & H).
    destruct payload as [| p ps]; [contradiction |].
    apply split_empty_head in H. destruct H as (s1 & -> & H).
    apply split_char_head in H. destruct H as (s2 & -> & H).
    apply split_empty_head in H. destruct H as (s3 & -> & _).
    simpl. rewrite !Ascii.eqb_refl. reflexivity.
Qed.

(** A line starts with [|T|], for a one-letter tag [T], exactly when
    its first token is empty, its second is [T] and it has a third. *)
Lemma startswith_tag (t : ascii) (line : string) :
  t <> pipe ->
  Text.startswith line (String pipe (String t (String pipe EmptyString)))
    = true <->
  exists payload, payload <> [] /\
    tokens line = EmptyString :: String t EmptyString :: payload.
Proof. apply startswith_tag_for. Qed.

Lemma tag_of_prefixed (t : ascii) (line : string) :
  t <> pipe ->
  Text.startswith line (String pipe (String t (String pipe EmptyString)))
    = true ->
  tag line = Some (String t EmptyString).
Proof.
  intros Ht H. apply (startswith_tag t line Ht) in H.
  destruct H as (payload & _ & H). unfold tag. rewrite H. reflexivity.
Qed.

(** ** The header line *)

Ltac first_header :=
  let line := fresh "line" in
  let rest := fresh "rest" in
  let IH := fresh "IH" in
  let E := fresh "E" in
  intros lines; induction lines as [| line rest IH];
  cbn [Pandas.extract_header Spark.extract_header];
  [ split; [reflexivity | constructor]
  | destruct (Text.startswith line "|H|") eqn:E;
    [ exists [], line, rest; repeat split; auto
    | match goal with
      | |- match ?x with _ => _ end =>
          destruct x as [? | ?];
          [ destruct IH as (before & l & after & -> & ? & ? & ?);
            exists (line :: before), l, after; repeat split; auto
          | destruct IH as [-> IH]; split; [reflexivity |];
            constructor; assumption ]
      end ] ].

(** [extract_header] gives the payload of the first line that starts
    with [|H|], and fails when there is none. *)
Lemma pandas_first_header_line :
  forall lines,
    match Pandas.extract_header lines with
    | Ok header =>
        exists before line after,
          lines = before ++ line :: after /\
          Forall (fun l => Text.startswith l "|H|" = false) before /\
          Text.startswith line "|H|" = true /\
          header = skipn 2 (tokens (Text.strip line))
    | Err e =>
        e = HeaderNotFound /\
        Forall (fun l => Text.startswith l "|H|" = false) lines
    end.
Proof. first_header. Qed.

Lemma spark_first_header_line :
  forall lines,
    match Spark.extract_header lines with
    | Ok header =>
        exists before line after,
          lines = before ++ line :: after /\
          Forall (fun l => Text.startswith l "|H|" = false) before /\
          Text.startswith line "|H|" = true /\
          header = skipn 2 (tokens line)
    | Err e =>
        e = HeaderNotFound /\
        Forall (fun l => Text.startswith l "|H|" = false) lines
    end.
Proof. first_header. Qed.

(** ** Records and their fields *)

Lemma mapM_ok {A B : Type} (f : A -> result B) (g : A -> B) (l : list A) :
  (forall x, In x l -> f x = Ok (g x)) -> mapM f l = Ok (map g l).
Proof.
  induction l as [| x l IH]; intros H; simpl; [reflexivity |].
  rewrite (H x (or_introl eq_refl)). simpl.
  rewrite IH by (intros y Hy; apply H; right; exact Hy). reflexivity.
Qed.

Lemma mapM_err {A B : Type} (f : A -> result B) (e : error) (l : list A) :
  (forall x, In x l -> f x = Err e \/ exists y, f x = Ok y) ->
  (exists x, In x l /\ f x = Err e) ->
  mapM f l = Err e.
Proof.
  induction l as [| x l IH]; intros Hall (x0 & Hin & Hx0);
    [contradiction |].
  simpl. destruct (Hall x (or_introl eq_refl)) as [E | [y E]]; rewrite E;
    [reflexivity |]. simpl.
  destruct Hin as [-> | Hin]; [congruence |].
  rewrite IH; [reflexivity | | eauto].
  intros z Hz. apply Hall. right. exact Hz.
Qed.

Lemma cell_at_fill (width i : nat) (r : row) :
  cell_at i (Pandas.fill width r) = cell_at i r.
Proof.
  unfold cell_at, Pandas.fill.
  destruct (Nat.lt_ge_cases i (length r)) as [H | H].
  - apply app_nth1. exact H.
  - rewrite app_nth2 by exact H. rewrite (nth_overflow r Null H).
    destruct (Nat.lt_ge_cases (i - length r) (width - length r)) as [H' | H'].
    + apply nth_repeat_lt. exact H'.
    + apply nth_overflow. rewrite repeat_length. exact H'.
Qed.

Lemma cell_at_map (f : string -> cell) (i : nat) (toks : list string) :
  cell_at i (map f toks) =
  match nth_error toks i with
  | Some t => f t
  | None => Null
  end.
Proof.
  unfold cell_at. revert i.
  induction toks as [| t ts IH]; intros [| i]; simpl; auto.
Qed.

(** A record no longer than the frame is read, and filled with nulls
    to the width of the frame; a longer one is a parse error. *)
Lemma pandas_read_record_ok (width : nat) (line : string) :
  length (tokens line) <= width ->
  exists r,
    Pandas.read_record width line = Ok r /\
    length r = width /\
    forall i, cell_at i r =
              match nth_error (tokens line) i with
              | Some t => Pandas.to_cell t
              | None => Null
              end.
Proof.
  intros H. unfold Pandas.read_record. fold (tokens line).
  apply Nat.ltb_ge in H. rewrite H. apply Nat.ltb_ge in H.
  eexists. split; [reflexivity |]. split.
  - unfold Pandas.fill. rewrite length_app, repeat_length, length_map. lia.
  - intros i. rewrite cell_at_fill. apply cell_at_map.
Qed.

Lemma pandas_read_record_long (width : nat) (line : string) :
  width < length (tokens line) ->
  Pandas.read_record width line = Err ParserError.
Proof.
  intros H. unfold Pandas.read_record. fold (tokens line).
  apply Nat.ltb_lt in H. rewrite H. reflexivity.
Qed.

Lemma to_cell_D (t : string) : Pandas.to_cell t = Str "D" <-> t = "D".
Proof.
  split.
  - unfold Pandas.to_cell.
    destruct (existsb (String.eqb t) Pandas.na_values); [discriminate |].
    intros H. injection H. auto.
  - intros ->. reflexivity.
Qed.

(** pandas takes a record for a data record on its second field. *)
Lemma pandas_data_by_tag (width : nat) (line : string) (r : row) :
  Pandas.read_record width line = Ok r ->
  cell_eqb (cell_at 1 r) (Str "D") = true <-> tag line = Some "D".
Proof.
  intros H.
  destruct (Nat.lt_ge_cases width (length (tokens line))) as [Hw | Hw].
  - rewrite pandas_read_record_long in H by exact Hw. discriminate.
  - destruct (pandas_read_record_ok width line Hw) as (r' & E & _ & Hc).
    assert (r' = r) by congruence. subst r'.
    rewrite cell_eqb_eq, Hc. unfold tag.
    destruct (nth_error (tokens line) 1) as [t |].
    + rewrite to_cell_D. split; congruence.
    + split; discriminate.
Qed.

(** Spark binds a line to the header field by field: the tokens from
    index 2 on, null where the line has no more, and no further than
    the header goes. *)
Lemma spark_bind_line_cells (header : list string) (line : string) :
  length (Spark.bind_line header line) = length header /\
  forall i, i < length header ->
    cell_at i (Spark.bind_line header line) =
    match nth_error (tokens line) (i + 2) with
    | Some t => Str t
    | None => Null
    end.
Proof.
  unfold Spark.bind_line. fold (tokens line). split.
  - rewrite length_map, length_seq. reflexivity.
  - intros i Hi. unfold cell_at.
    rewrite (nth_indep _ Null (Spark.element (tokens line) (0 + 2)))
      by (rewrite length_map, length_seq; exact Hi).
    rewrite (map_nth (fun i => Spark.element (tokens line) (i + 2))).
    rewrite seq_nth by exact Hi. reflexivity.
Qed.

(** ** Classification *)



(** ** Records of the wrong length *)

Lemma Forall2_map_where {A B : Type} (P : A -> Prop) (R : A -> B -> Prop)
    (f : A -> B) (l : list A) :
  Forall P l -> (forall a, P a -> R a (f a)) -> Forall2 R l (map f l).
Proof.
  intros Hl H. induction Hl as [| a l Ha Hl IH]; simpl; constructor; auto.
Qed.

Lemma pandas_read_csv_ok (lines : list string) (first : string)
    (rest : list string) :
  records lines = first :: rest ->
  Forall (fun l => length (tokens l) <= length (tokens first)) rest ->
  exists data,
    Pandas.read_csv lines = Ok (length (tokens first), data) /\
    Forall2 (bound_to Pandas.to_cell 0 (length (tokens first)))
            (first :: rest) data.
Proof.
  intros Hrec Hrest. unfold Pandas.read_csv. fold (records lines).
  rewrite Hrec. fold (tokens first).
  set (w := length (tokens first)).
  set (g := fun l => Pandas.fill w (map Pandas.to_cell (tokens l))).
  assert (Hall : Forall (fun l => length (tokens l) <= w) (first :: rest))
    by (constructor; [apply Nat.le_refl | exact Hrest]).
  exists (map g (first :: rest)). split.
  - rewrite (mapM_ok (Pandas.read_record w) g); [reflexivity |].
    intros l Hl. rewrite Forall_forall in Hall. specialize (Hall l Hl).
    unfold Pandas.read_record. fold (tokens l).
    apply Nat.ltb_ge in Hall. rewrite Hall. reflexivity.
  - apply (Forall2_map_where _ _ _ _ Hall). intros l Hl.
    destruct (pandas_read_record_ok w l Hl) as (r & E & Hlen & Hc).
    unfold Pandas.read_record in E. fold (tokens l) in E.
    apply Nat.ltb_ge in Hl. rewrite Hl in E. apply ok_inj in E.
    fold (g l) in E. subst r. split; [exact Hlen |].
    intros i _. rewrite Nat.add_0_r. apply Hc.
Qed.

Lemma pandas_read_csv_long (lines : list string) (first : string)
    (rest : list string) :
  records lines = first :: rest ->
  Exists (fun l => length (tokens first) < length (tokens l)) rest ->
  Pandas.read_csv lines = Err ParserError.
Proof.
  intros Hrec Hlong. unfold Pandas.read_csv. fold (records lines).
  rewrite Hrec. fold (tokens first).
  rewrite (mapM_err (Pandas.read_record (length (tokens first)))
             ParserError); [reflexivity | |].
  - intros l _. unfold Pandas.read_record.
    destruct (length (tokens first) <? length (Text.split pipe l))%nat;
      eauto.
  - apply Exists_exists in Hlong. destruct Hlong as (l & Hl & Hlen).
    exists l. split; [right; exact Hl |].
    apply pandas_read_record_long. exact Hlen.
Qed.

Lemma pandas_main_parser_error (now : date) (fails : string -> bool)
    (lines : list string) (header : list string) :
  Pandas.extract_header lines = Ok header ->
  Pandas.read_csv lines = Err ParserError ->
  Pandas.main now fails lines = mkoutcome [] (Err ParserError).
Proof.
  intros Hh Hr. unfold Pandas.main. rewrite Hh. simpl.
  unfold Pandas.process_and_load_staging, Pandas.load_staging.
  rewrite Hr. reflexivity.
Qed.



(** ** Assigning a column *)

Lemma positions_app (same : string -> string -> bool) (name : string)
    (a b : list string) :
  forall from,
    positions same name (a ++ b) from =
    positions same name a from ++ positions same name b (from + length a).
Proof.
  induction a as [| c a IH]; intros from; simpl.
  - rewrite Nat.add_0_r. reflexivity.
  - rewrite IH. replace (S from + length a) with (from + S (length a)) by lia.
    destruct (same name c); reflexivity.
Qed.

Lemma positions_some (same : string -> string -> bool) (name : string)
    (cols : list string) :
  forall from,
    existsb (same name) cols = true -> positions same name cols from <> [].
Proof.
  induction cols as [| c t IH]; intros from H; simpl in *; [discriminate |].
  destruct (same name c); [discriminate |]. apply IH. exact H.
Qed.

Lemma rename_same (name : string) (cols : list string) :
  map (fun c => if String.eqb name c then name else c) cols = cols.
Proof.
  induction cols as [| c t IH]; simpl; [reflexivity |].
  rewrite IH. destruct (String.eqb_spec name c); congruence.
Qed.

Lemma pandas_assign_columns (name : string) (g : row -> cell) (df : frame) :
  columns (assign String.eqb name g df) =
  if existsb (String.eqb name) (columns df) then columns df
  else columns df ++ [name].
Proof.
  unfold assign. destruct (existsb (String.eqb name) (columns df)); simpl;
    [apply rename_same | reflexivity].
Qed.

Lemma assign_length (same : string -> string -> bool) (name : string)
    (g : row -> cell) (df : frame) :
  length (rows (assign same name g df)) = length (rows df).
Proof.
  unfold assign. destruct (existsb (same name) (columns df)); simpl;
    apply length_map.
Qed.

(** Assigning a column leaves every other name where it was. *)
Lemma pandas_assign_other (name other : string) (g : row -> cell)
    (df : frame) :
  name <> other ->
  positions String.eqb other (columns (assign String.eqb name g df)) 0 =
  positions String.eqb other (columns df) 0.
Proof.
  intros H. rewrite pandas_assign_columns.
  destruct (existsb (String.eqb name) (columns df)); [reflexivity |].
  rewrite positions_app. simpl.
  destruct (String.eqb_spec other name); [congruence |].
  apply app_nil_r.
Qed.

(** A column that is assigned can be read back, unless the frame had
    several columns of its name. *)
Lemma pandas_assign_same (name : string) (g : row -> cell) (df : frame) :
  length (positions String.eqb name (columns df) 0) <= 1 ->
  exists i,
    Pandas.column name (assign String.eqb name g df) = Ok i.
Proof.
  intros H. unfold Pandas.column, resolve. rewrite pandas_assign_columns.
  destruct (existsb (String.eqb name) (columns df)) eqn:E.
  - apply (positions_some _ _ _ 0) in E.
    destruct (positions String.eqb name (columns df) 0) as [| i [| j l]];
      [contradiction | eauto | simpl in H; lia].
  - rewrite positions_app, (positions_none _ _ _ 0 E). simpl.
    rewrite String.eqb_refl. eauto.
Qed.

(** The table of a country: the canonical rows of the country, each
    with its three derived cells, under the path of the country. *)
Lemma pandas_country_table_ok (now : date) (latest : frame) (country : cell)
    (c b l : nat) :
  Pandas.column "Country" latest = Ok c ->
  Pandas.column "DOB" latest = Ok b ->
  Pandas.column "Last_Consulted_Date" latest = Ok l ->
  length (positions String.eqb "Days_Since_Last_Consulted"
            (columns latest) 0) <= 1 ->
  exists table,
    Pandas.country_table now latest country =
      Ok (Pandas.output_path country, table) /\
    length (rows table) =
    length (filter (fun r => equals country (cell_at c r)) (rows latest)).
Proof.
  intros Hc Hb Hl Hd. unfold Pandas.country_table.
  rewrite Hc. simpl.
  set (df0 := mkframe (columns latest)
                (filter (fun r => equals country (cell_at c r))
                        (rows latest))).
  assert (Hb0 : Pandas.column "DOB" df0 = Ok b) by exact Hb.
  rewrite Hb0. simpl.
  set (df1 := assign String.eqb "Age" (fun r => Pandas.age now (cell_at b r))
                     df0).
  assert (Hl1 : Pandas.column "Last_Consulted_Date" df1 = Ok l).
  { unfold Pandas.column, resolve, df1.
    rewrite pandas_assign_other by discriminate. exact Hl. }
  rewrite Hl1. simpl.
  set (df2 := assign String.eqb "Days_Since_Last_Consulted"
                     (fun r => Pandas.days_since now (cell_at l r)) df1).
  destruct (pandas_assign_same "Days_Since_Last_Consulted"
              (fun r => Pandas.days_since now (cell_at l r)) df1) as [d Hd2].
  { unfold df1. rewrite pandas_assign_other by discriminate. exact Hd. }
  fold df2 in Hd2. rewrite Hd2. simpl.
  eexists. split; [reflexivity |].
  unfold df2, df1. rewrite !assign_length. reflexivity.
Qed.

(** ** The loop over the countries *)

Lemma for_each_country_stops (body : cell -> result (string * frame))
    (fails : string -> bool) (before after : list cell) (c : cell)
    (path : string) (table : frame) :
  (forall c', In c' before ->
     exists p t, body c' = Ok (p, t) /\ fails p = false) ->
  body c = Ok (path, table) ->
  fails path = true ->
  status (for_each_country body fails (before ++ c :: after)) =
    Err (WriteFailure path) /\
  Forall2 (fun c' w => body c' = Ok w) before
          (written (for_each_country body fails (before ++ c :: after))).
Proof.
  intros Hbefore Hc Hfail. induction before as [| a before IH]; simpl.
  - rewrite Hc, Hfail. simpl. split; [reflexivity | constructor].
  - destruct (Hbefore a (or_introl eq_refl)) as (p & t & Ha & Hp).
    rewrite Ha, Hp. simpl.
    destruct IH as [IHs IHw].
    { intros c' Hc'. apply Hbefore. right. exact Hc'. }
    split; [exact IHs |]. constructor; [exact Ha | exact IHw].
Qed.

Lemma for_each_country_all (body : cell -> result (string * frame))
    (fails : string -> bool) (cs : list cell) :
  (forall c, In c cs -> exists p t, body c = Ok (p, t) /\ fails p = false) ->
  status (for_each_country body fails cs) = Ok tt /\
  Forall2 (fun c w => body c = Ok w) cs
          (written (for_each_country body fails cs)).
Proof.
  intros H. induction cs as [| a cs IH]; simpl.
  - split; [reflexivity | constructor].
  - destruct (H a (or_introl eq_refl)) as (p & t & Ha & Hp).
    rewrite Ha, Hp. simpl.
    destruct IH as [IHs IHw].
    { intros c Hc. apply H. right. exact Hc. }
    split; [exact IHs |]. constructor; [exact Ha | exact IHw].
Qed.

(** The paths written, when every table is written under the path of
    its country. *)
Lemma written_paths (body : cell -> result (string * frame))
    (path : cell -> string) (cs : list cell)
    (ws : list (string * frame)) :
  (forall c w, body c = Ok w -> fst w = path c) ->
  Forall2 (fun c w => body c = Ok w) cs ws ->
  map fst ws = map path cs.
Proof.
  intros Hpath H. induction H as [| c w cs ws Hc _ IH]; simpl;
    [reflexivity |].
  rewrite IH, (Hpath c w Hc). reflexivity.
Qed.

Lemma written_table (body : cell -> result (string * frame))
    (cs : list cell) (ws : list (string * frame)) (c : cell) :
  Forall2 (fun c w => body c = Ok w) cs ws ->
  In c cs -> exists w, In w ws /\ body c = Ok w.
Proof.
  intros H. induction H as [| a w cs ws Ha _ IH]; intros Hin;
    [contradiction |].
  destruct Hin as [-> | Hin].
  - exists w. split; [left; reflexivity | exact Ha].
  - destruct (IH Hin) as (w' & Hw' & Hb). exists w'.
    split; [right; exact Hw' | exact Hb].
Qed.

Lemma pandas_country_table_path (now : date) (latest : frame) (c : cell)
    (w : string * frame) :
  Pandas.country_table now latest c = Ok w -> fst w = Pandas.output_path c.
Proof.
  unfold Pandas.country_table. intros H.
  repeat bind_inv H. apply ok_inj in H. subst w. reflexivity.
Qed.

Lemma spark_country_table_path (latest : frame) (c : cell)
    (w : string * frame) :
  Spark.country_table latest c = Ok w -> fst w = Spark.table_path c.
Proof.
  unfold Spark.country_table. intros H.
  bind_inv H. apply ok_inj in H. subst w. reflexivity.
Qed.

Lemma pandas_latest_columns (staging latest : frame) :
  Pandas.global_latest_records staging = Ok latest ->
  columns latest = columns staging /\
  exists l, Pandas.column "Last_Consulted_Date" staging = Ok l.
Proof.
  unfold Pandas.global_latest_records. intros H.
  bind_inv H. bind_inv H. apply ok_inj in H. subst latest. simpl. eauto.
Qed.

(** Under pandas every table can be built once the columns the loop
    reads are there. *)
Lemma pandas_tables_build (now : date) (staging latest : frame)
    (c b : nat) :
  Pandas.global_latest_records staging = Ok latest ->
  Pandas.column "Country" staging = Ok c ->
  Pandas.column "DOB" staging = Ok b ->
  length (positions String.eqb "Days_Since_Last_Consulted"
            (columns staging) 0) <= 1 ->
  forall country,
    exists table,
      Pandas.country_table now latest country =
        Ok (Pandas.output_path country, table) /\
      length (rows table) =
      length (filter (fun r => equals country (cell_at c r)) (rows latest)).
Proof.
  intros Hlat Hc Hb Hd country.
  destruct (pandas_latest_columns staging latest Hlat) as (Hcols & l & Hl).
  unfold Pandas.column in *. rewrite <- Hcols in Hc, Hb, Hd, Hl.
  exact (pandas_country_table_ok now latest country c b l Hc Hb Hl Hd).
Qed.

(** ** A table that cannot be written *)

Lemma pandas_artifact_path (country : cell) :
  Pandas.output_path country = pandas_artifact country.
Proof. destruct country; reflexivity. Qed.

Lemma spark_artifact_path (country : cell) :
  Spark.table_path country = spark_artifact country.
Proof. destruct country; reflexivity. Qed.

Lemma spark_registration_statement (country : cell) :
  Spark.create_table country = spark_registration country.
Proof. destruct country; reflexivity. Qed.

Lemma pandas_write_failure (now : date) (fails : string -> bool)
    (staging latest : frame) (before after : list cell) (c : cell)
    (b : nat) :
  Pandas.global_latest_records staging = Ok latest ->
  Pandas.countries staging = Ok (before ++ c :: after) ->
  Pandas.column "DOB" staging = Ok b ->
  length (positions String.eqb "Days_Since_Last_Consulted"
            (columns staging) 0) <= 1 ->
  (forall c', In c' before -> fails (pandas_artifact c') = false) ->
  fails (pandas_artifact c) = true ->
  status (Pandas.create_and_populate_country_tables now fails staging) =
    Err (WriteFailure (pandas_artifact c)) /\
  map fst
      (written (Pandas.create_and_populate_country_tables now fails staging))
    = map pandas_artifact before.
Proof.
  intros Hlat Hcs Hb Hd Hbefore Hfail.
  rewrite <- pandas_artifact_path in Hfail.
  rewrite <- (map_ext _ _ pandas_artifact_path), <- pandas_artifact_path.
  assert (Hc : exists k, Pandas.column "Country" staging = Ok k).
  { unfold Pandas.countries in Hcs. bind_inv Hcs. eauto. }
  destruct Hc as [k Hk].
  pose proof (pandas_tables_build now staging latest k b Hlat Hk Hb Hd)
    as Hbuild.
  unfold Pandas.create_and_populate_country_tables.
  rewrite Hlat, Hcs. simpl.
  destruct (Hbuild c) as (table & Hc & _).
  destruct (for_each_country_stops (Pandas.country_table now latest) fails
              before after c (Pandas.output_path c) table) as [Hs Hw];
    [| exact Hc | exact Hfail |].
  - intros c' Hc'. destruct (Hbuild c') as (t & Ht & _).
    exists (Pandas.output_path c'), t. split; [exact Ht |].
    rewrite pandas_artifact_path. apply Hbefore. exact Hc'.
  - split; [exact Hs |].
    apply (written_paths (Pandas.country_table now latest)); [| exact Hw].
    apply pandas_country_table_path.
Qed.

(** The loop of the PySpark script, when the table of every country
    can be built: it goes on as long as the tables are written and
    registered. *)
Lemma spark_save_each_goes_on (fails : string -> bool) (latest : frame)
    (n : nat) (before rest : list cell) :
  Spark.column "Country" latest = Ok n ->
  (forall c', In c' before ->
     fails (Spark.table_path c') = false /\
     fails (Spark.create_table c') = false) ->
  status (Spark.save_each fails latest (before ++ rest)) =
    status (Spark.save_each fails latest rest) /\
  map fst (written (Spark.save_each fails latest (before ++ rest))) =
    map Spark.table_path before ++
    map fst (written (Spark.save_each fails latest rest)).
Proof.
  intros Hn Hbefore. induction before as [| a before IH];
    [split; reflexivity |].
  destruct (Hbefore a (or_introl eq_refl)) as [Hw Hr].
  cbn [app Spark.save_each]. unfold Spark.country_table.
  rewrite Hn. cbn [bind]. rewrite Hw, Hr. cbn [written status map fst].
  destruct IH as [IHs IHw].
  { intros c' Hc'. apply Hbefore. right. exact Hc'. }
  split; [exact IHs | rewrite IHw; reflexivity].
Qed.

Lemma spark_write_failure (fails : string -> bool) (latest : frame)
    (n : nat) (before after : list cell) (c : cell) :
  Spark.column "Country" latest = Ok n ->
  (forall c', In c' before ->
     fails (Spark.table_path c') = false /\
     fails (Spark.create_table c') = false) ->
  fails (Spark.table_path c) = true ->
  status (Spark.save_each fails latest (before ++ c :: after)) =
    Err (WriteFailure (Spark.table_path c)) /\
  map fst (written (Spark.save_each fails latest (before ++ c :: after))) =
    map Spark.table_path before.
Proof.
  intros Hn Hbefore Hfail.
  destruct (spark_save_each_goes_on fails latest n before (c :: after)
              Hn Hbefore) as [Hs Hw].
  rewrite Hs, Hw. cbn [Spark.save_each]. unfold Spark.country_table.
  rewrite Hn. cbn [bind]. rewrite Hfail. cbn [status written map].
  rewrite app_nil_r. split; reflexivity.
Qed.

Lemma spark_registration_failure (fails : string -> bool) (latest : frame)
    (n : nat) (before after : list cell) (c : cell) :
  Spark.column "Country" latest = Ok n ->
  (forall c', In c' before ->
     fails (Spark.table_path c') = false /\
     fails (Spark.create_table c') = false) ->
  fails (Spark.table_path c) = false ->
  fails (Spark.create_table c) = true ->
  status (Spark.save_each fails latest (before ++ c :: after)) =
    Err (TableNotCreated (Spark.create_table c)) /\
  map fst (written (Spark.save_each fails latest (before ++ c :: after))) =
    map Spark.table_path (before ++ [c]).
Proof.
  intros Hn Hbefore Hwrite Hfail.
  destruct (spark_save_each_goes_on fails latest n before (c :: after)
              Hn Hbefore) as [Hs Hw].
  rewrite Hs, Hw. cbn [Spark.save_each]. unfold Spark.country_table.
  rewrite Hn. cbn [bind]. rewrite Hwrite, Hfail. cbn [status written map fst].
  rewrite map_app. split; reflexivity.
Qed.

(** C9, as the scripts have it: when the table of a country cannot be
    written the failure is reported and the loop ends there.  The
    tables of the countries before it stay written; no table of a
    country after it is written, or attempted.  The [try] of both
    scripts is around the whole loop.  The PySpark script also
    registers every table it has written, and the loop ends in the
    same way when that statement raises, the table just written
    staying written; its part is about the loop over the countries in
    whatever order Spark collects them, [Spark.save_country_data] being
    that loop in the order the model takes. *)
Theorem write_failure_ends_the_loop :
  (forall now fails staging latest before after c b,
      Pandas.global_latest_records staging = Ok latest ->
      Pandas.countries staging = Ok (before ++ c :: after) ->
      Pandas.column "DOB" staging = Ok b ->
      length (positions String.eqb "Days_Since_Last_Consulted"
                (columns staging) 0) <= 1 ->
      (forall c', In c' before -> fails (pandas_artifact c') = false) ->
      fails (pandas_artifact c) = true ->
      status (Pandas.create_and_populate_country_tables now fails staging) =
        Err (WriteFailure (pandas_artifact c)) /\
      map fst
        (written (Pandas.create_and_populate_country_tables now fails
                    staging))
        = map pandas_artifact before) /\
  (forall fails latest n before after c,
      Spark.column "Country" latest = Ok n ->
      (forall c', In c' before ->
         fails (spark_artifact c') = false /\
         fails (spark_registration c') = false) ->
      (fails (spark_artifact c) = true ->
       status (Spark.save_each fails latest (before ++ c :: after)) =
         Err (WriteFailure (spark_artifact c)) /\
       map fst (written (Spark.save_each fails latest
                           (before ++ c :: after))) =
         map spark_artifact before) /\
      (fails (spark_artifact c) = false ->
       fails (spark_registration c) = true ->
       status (Spark.save_each fails latest (before ++ c :: after)) =
         Err (TableNotCreated (spark_registration c)) /\
       map fst (written (Spark.save_each fails latest
                           (before ++ c :: after))) =
         map spark_artifact (before ++ [c])) /\
      (Spark.countries latest = Ok (before ++ c :: after) ->
       Spark.save_country_data fails latest =
       Spark.save_each fails latest (before ++ c :: after))).
Proof.
  split; [exact pandas_write_failure |].
  intros fails latest n before after c Hn Hbefore.
  assert (Hb : forall c', In c' before ->
                 fails (Spark.table_path c') = false /\
                 fails (Spark.create_table c') = false).
  { intros c' Hc'.
    rewrite spark_artifact_path, spark_registration_statement.
    apply Hbefore. exact Hc'. }
  rewrite <- !(map_ext _ _ spark_artifact_path).
  rewrite <- spark_artifact_path, <- spark_registration_statement.
  split; [| split].
  - apply (spark_write_failure fails latest n); assumption.
  - apply (spark_registration_failure fails latest n); assumption.
  - intros Hcs. unfold Spark.save_country_data. rewrite Hcs. reflexivity.
Qed.

(** C9 as stated fails: with a storage that cannot take [Table_IND],
    the second table of [three_countries], neither script writes
    [Table_AU], which the storage would take (Spark, when it collects
    the countries in this order); and the PySpark script writes
    [Table_IND] and no more when only the statement that registers it
    raises, as it writes [Table_U-S] of [hyphenated] and no more in a
    session that does not take that name for a table. *)
Lemma write_failure_abandons_the_rest :
  ind_unwritable "output/Table_AU.csv" = false /\
  ind_unwritable "dbfs:/mnt/country_tables/Table_AU" = false /\
  map fst (tables (Pandas.main today storage_ok three_countries)) =
    ["output/Table_USA.csv"; "output/Table_IND.csv";
     "output/Table_AU.csv"] /\
  status (Pandas.main today ind_unwritable three_countries) =
    Err (WriteFailure "output/Table_IND.csv") /\
  map fst (tables (Pandas.main today ind_unwritable three_countries)) =
    ["output/Table_USA.csv"] /\
  map fst (tables (Spark.main today storage_ok three_countries)) =
    ["dbfs:/mnt/country_tables/Table_USA";
     "dbfs:/mnt/country_tables/Table_IND";
     "dbfs:/mnt/country_tables/Table_AU"] /\
  status (Spark.main today ind_unwritable three_countries) =
    Err (WriteFailure "dbfs:/mnt/country_tables/Table_IND") /\
  map fst (tables (Spark.main today ind_unwritable three_countries)) =
    ["dbfs:/mnt/country_tables/Table_USA"] /\
  status (Spark.main today ind_unregistered three_countries) =
    Err (TableNotCreated
           "CREATE TABLE IF NOT EXISTS Table_IND_check USING DELTA LOCATION 'dbfs:/mnt/country_tables/Table_IND'") /\
  map fst (tables (Spark.main today ind_unregistered three_countries)) =
    ["dbfs:/mnt/country_tables/Table_USA";
     "dbfs:/mnt/country_tables/Table_IND"] /\
  map fst (tables (Spark.main today storage_ok hyphenated)) =
    ["dbfs:/mnt/country_tables/Table_U-S";
     "dbfs:/mnt/country_tables/Table_IND"] /\
  status (Spark.main today hyphen_refused hyphenated) =
    Err (TableNotCreated
           "CREATE TABLE IF NOT EXISTS Table_U-S_check USING DELTA LOCATION 'dbfs:/mnt/country_tables/Table_U-S'") /\
  map fst (tables (Spark.main today hyphen_refused hyphenated)) =
    ["dbfs:/mnt/country_tables/Table_U-S"].
Proof. repeat split; vm_compute; reflexivity. Qed.

(** ** The countries that get a table *)

Lemma no_row_of_country (country : cell) (c : nat) (rs : list row) :
  (forall r, In r rs -> cell_at c r <> country) ->
  filter (fun r => equals country (cell_at c r)) rs = [].
Proof.
  intros Hnone. induction rs as [| r rs IH]; simpl; [reflexivity |].
  assert (E : equals country (cell_at c r) = false).
  { destruct country; simpl; try reflexivity;
      apply cell_eqb_neq; apply Hnone; left; reflexivity. }
  rewrite E. apply IH. intros r' Hr'. apply Hnone. right. exact Hr'.
Qed.

(** C10: pandas takes the countries from the validated rows, before
    deduplication.  When its storage works, the tables written are one
    per country value of the validated rows, in order of appearance,
    each as [output/Table_<Country>.csv], which is [pandas_artifact],
    and with as many rows as the country has canonical rows: none,
    when no row of the country is canonical. *)
Theorem pandas_tables_follow_validated_countries :
  forall now fails staging latest c b,
    Pandas.global_latest_records staging = Ok latest ->
    Pandas.column "Country" staging = Ok c ->
    Pandas.column "DOB" staging = Ok b ->
    length (positions String.eqb "Days_Since_Last_Consulted"
              (columns staging) 0) <= 1 ->
    (forall path, fails path = false) ->
    let o := Pandas.create_and_populate_country_tables now fails staging in
    status o = Ok tt /\
    map fst (written o) =
      map pandas_artifact (unique (map (cell_at c) (rows staging))) /\
    forall country,
      In country (map (cell_at c) (rows staging)) ->
      exists table,
        In (pandas_artifact country, table) (written o) /\
        length (rows table) =
        length (filter (fun r => equals country (cell_at c r))
                       (rows latest)) /\
        ((forall r, In r (rows latest) -> cell_at c r <> country) ->
         rows table = []).
Proof.
  intros now fails staging latest c b Hlat Hc Hb Hd Hok o.
  pose proof (pandas_tables_build now staging latest c b Hlat Hc Hb Hd)
    as Hbuild.
  assert (Ho : o = for_each_country (Pandas.country_table now latest) fails
                     (unique (map (cell_at c) (rows staging)))).
  { unfold o, Pandas.create_and_populate_country_tables, Pandas.countries.
    rewrite Hlat, Hc. reflexivity. }
  destruct (for_each_country_all (Pandas.country_table now latest) fails
              (unique (map (cell_at c) (rows staging)))) as [Hs Hw].
  { intros k _. destruct (Hbuild k) as (t & Ht & _).
    exists (Pandas.output_path k), t. auto. }
  rewrite <- Ho in Hs, Hw. split; [exact Hs |]. split.
  - rewrite <- (map_ext _ _ pandas_artifact_path).
    apply (written_paths (Pandas.country_table now latest)); [| exact Hw].
    apply pandas_country_table_path.
  - intros country Hin. apply unique_In in Hin.
    destruct (written_table _ _ _ country Hw Hin) as (w & Hww & Hbw).
    destruct (Hbuild country) as (t & Ht & Hlen).
    assert (w = (Pandas.output_path country, t)) by congruence. subst w.
    exists t. rewrite <- pandas_artifact_path.
    split; [exact Hww |]. split; [exact Hlen |].
    intros Hnone. apply length_zero_iff_nil. rewrite Hlen.
    rewrite (no_row_of_country country c (rows latest) Hnone). reflexivity.
Qed.

(** ** The mandatory fields in the tables written *)

Section Untouched.

Variable same : string -> string -> bool.

Lemma overwrite_other (name : string) (v : cell) (cols : list string) :
  forall (r : row) (k : nat) (c : string),
    nth_error cols k = Some c -> same name c = false ->
    cell_at k (overwrite same name v cols r) = cell_at k r.
Proof.
  induction cols as [| c0 cols IH]; intros r k c Hk Hc;
    [destruct k; discriminate |].
  destruct r as [| x xs]; [reflexivity |].
  destruct k as [| k]; simpl in *.
  - injection Hk as ->. rewrite Hc. reflexivity.
  - unfold cell_at in *. simpl. apply (IH xs k c Hk Hc).
Qed.

Lemma append_other (r : row) (v : cell) (k : nat) :
  cell_at k r <> Null -> cell_at k (r ++ [v]) = cell_at k r.
Proof.
  intros H. unfold cell_at. apply app_nth1.
  destruct (Nat.lt_ge_cases k (length r)) as [Hk | Hk]; [exact Hk |].
  exfalso. apply H. apply cell_at_overflow. exact Hk.
Qed.

(** Assigning a column changes no cell that is there under another
    name. *)
Lemma assign_keeps_cells (name : string) (g : row -> cell) (df : frame)
    (r' : row) :
  In r' (rows (assign same name g df)) ->
  exists r, In r (rows df) /\
    forall k c, nth_error (columns df) k = Some c -> same name c = false ->
                cell_at k r <> Null -> cell_at k r' = cell_at k r.
Proof.
  unfold assign. destruct (existsb (same name) (columns df)); simpl;
    intros H; apply in_map_iff in H; destruct H as (r & <- & Hr);
    exists r; (split; [exact Hr |]); intros k c Hk Hc Hn.
  - apply (overwrite_other name (g r) (columns df) r k c Hk Hc).
  - apply append_other. exact Hn.
Qed.

Lemma assign_keeps_names (name : string) (g : row -> cell) (df : frame)
    (k : nat) (c : string) :
  nth_error (columns df) k = Some c -> same name c = false ->
  nth_error (columns (assign same name g df)) k = Some c.
Proof.
  intros Hk Hc. unfold assign.
  destruct (existsb (same name) (columns df)); simpl.
  - rewrite nth_error_map, Hk. simpl. rewrite Hc. reflexivity.
  - rewrite nth_error_app1; [exact Hk |].
    apply nth_error_Some. rewrite Hk. discriminate.
Qed.

Lemma assign_keeps_mandatory (name : string) (g : row -> cell) (df : frame)
    (n i o : nat) (cn ci co : string) :
  same name cn = false -> same name ci = false -> same name co = false ->
  mandatory_at n i o cn ci co df ->
  mandatory_at n i o cn ci co (assign same name g df).
Proof.
  intros Hn Hi Ho (Hcn & Hci & Hco & Hrows).
  repeat split; try (apply assign_keeps_names; assumption).
  intros r' Hr'. apply assign_keeps_cells in Hr'.
  destruct Hr' as (r & Hr & Hkeep).
  specialize (Hrows r Hr). apply complete_spec in Hrows.
  destruct Hrows as (Rn & Ri & Ro). apply complete_spec.
  rewrite (Hkeep n cn Hcn Hn Rn), (Hkeep i ci Hci Hi Ri),
    (Hkeep o co Hco Ho Ro).
  auto.
Qed.

End Untouched.

Lemma filter_keeps_mandatory (p : row -> bool) (df : frame)
    (n i o : nat) (cn ci co : string) :
  mandatory_at n i o cn ci co df ->
  mandatory_at n i o cn ci co (mkframe (columns df) (filter p (rows df))).
Proof.
  intros (Hcn & Hci & Hco & Hrows). repeat split; try assumption.
  simpl. intros r Hr. apply filter_In in Hr. apply Hrows. tauto.
Qed.

Lemma written_by_the_body (body : cell -> result (string * frame))
    (fails : string -> bool) (cs : list cell) (w : string * frame) :
  In w (written (for_each_country body fails cs)) ->
  exists c, In c cs /\ body c = Ok w.
Proof.
  induction cs as [| c cs IH]; simpl; [contradiction |].
  destruct (body c) as [[p t] | e] eqn:E; simpl; [| contradiction].
  destruct (fails p); simpl; [contradiction |].
  intros [<- | H].
  - exists c. auto.
  - destruct (IH H) as (c' & Hc' & Hb). exists c'. auto.
Qed.

Lemma spark_written_by_the_body (fails : string -> bool) (latest : frame)
    (cs : list cell) (w : string * frame) :
  In w (written (Spark.save_each fails latest cs)) ->
  exists c, In c cs /\ Spark.country_table latest c = Ok w.
Proof.
  induction cs as [| c cs IH]; cbn [Spark.save_each written];
    [contradiction |].
  destruct (Spark.country_table latest c) as [[p t] | e] eqn:E;
    cbn [written]; [| contradiction].
  destruct (fails p); cbn [written]; [contradiction |].
  destruct (fails (Spark.create_table c)); cbn [written].
  - intros [<- | []]. exists c. split; [left; reflexivity | exact E].
  - intros [<- | H].
    + exists c. split; [left; reflexivity | exact E].
    + destruct (IH H) as (c' & Hc' & Hb). exists c'.
      split; [right; exact Hc' | exact Hb].
Qed.

Lemma head1_subset (i : nat) (rs : list row) :
  forall seen r, In r (Pandas.head1 i seen rs) -> In r rs.
Proof.
  induction rs as [| a rs IH]; intros seen r; simpl; [auto |].
  destruct (is_null (cell_at i a) || existsb (cell_eqb (cell_at i a)) seen).
  - intros H. right. exact (IH seen r H).
  - intros [-> | H]; [left; reflexivity | right; exact (IH _ r H)].
Qed.

Lemma pandas_latest_subset (staging latest : frame) :
  Pandas.global_latest_records staging = Ok latest ->
  columns latest = columns staging /\
  forall r, In r (rows latest) -> In r (rows staging).
Proof.
  unfold Pandas.global_latest_records. intros H.
  bind_inv H. bind_inv H. apply ok_inj in H. subst latest. simpl.
  split; [reflexivity |]. intros r Hr. apply head1_subset in Hr.
  exact (Permutation_in _ (sort_desc_perm x (rows staging)) Hr).
Qed.

Lemma spark_first_rows_subset (i j : nat) (rs : list row) (r : row) :
  In r (flat_map (fun k => Spark.first_row j (Spark.partition i k rs))
                 (unique (map (cell_at i) rs))) ->
  In r rs.
Proof.
  intros Hr. apply in_flat_map in Hr.
  destruct Hr as (k & _ & Hr). unfold Spark.first_row in Hr.
  assert (Hin : In r (sort_desc j (Spark.partition i k rs))).
  { destruct (sort_desc j (Spark.partition i k rs)) as [| a l];
      simpl in Hr; [contradiction |].
    destruct Hr as [-> | []]. left. reflexivity. }
  apply (Permutation_in _ (sort_desc_perm j _)) in Hin.
  unfold Spark.partition in Hin. apply filter_In in Hin. tauto.
Qed.

(** Assigning a column moves no column of another name. *)
Lemma spark_assign_resolve (name other : string) (g : row -> cell)
    (df : frame) :
  Text.lowercase other <> Text.lowercase name ->
  resolve Spark.same_name other
          (columns (assign Spark.same_name name g df)) =
  resolve Spark.same_name other (columns df).
Proof.
  intros Hne. unfold assign.
  destruct (existsb (Spark.same_name name) (columns df)); cbn [columns];
    unfold resolve.
  - rewrite positions_rename; [reflexivity |].
    intros c. apply same_name_rename.
  - rewrite positions_app. cbn [positions].
    assert (E : Spark.same_name other name = false)
      by (unfold Spark.same_name; apply String.eqb_neq; exact Hne).
    rewrite E, app_nil_r. reflexivity.
Qed.

Lemma spark_latest_subset (data latest : frame) :
  existsb (Spark.same_name "row_number") (columns data) = false ->
  Spark.get_latest_data data = Ok latest ->
  columns latest = columns data /\
  forall r, In r (rows latest) -> In r (rows data).
Proof.
  intros Hplain H. rewrite (spark_get_latest_data_plain _ Hplain) in H.
  bind_inv H. bind_inv H. apply ok_inj in H. subst latest. simpl.
  split; [reflexivity |]. intros r. apply spark_first_rows_subset.
Qed.

Lemma pandas_name_resolved (name : string) (cols : list string) (k : nat) :
  resolve String.eqb name cols = Ok k -> nth_error cols k = Some name.
Proof.
  intros H. apply resolve_nth in H. destruct H as (c & Hc & E).
  apply String.eqb_eq in E. congruence.
Qed.

Lemma spark_other_name (name other c : string) :
  Text.lowercase other <> Text.lowercase name ->
  Spark.same_name name c = true -> Spark.same_name other c = false.
Proof.
  intros Hne H. destruct (Spark.same_name other c) eqn:E; [| reflexivity].
  exfalso. exact (spark_names_apart other name c Hne E H).
Qed.

(** Every row pandas writes is a validated row with cells added: its
    mandatory fields are those of the validated row. *)
Lemma pandas_written_rows_complete (now : date) (fails : string -> bool)
    (staging : frame) (n i o : nat) :
  Pandas.column "Customer_Name" staging = Ok n ->
  Pandas.column "Customer_Id" staging = Ok i ->
  Pandas.column "Open_Date" staging = Ok o ->
  (forall r, In r (rows staging) -> complete n i o r = true) ->
  forall path table r,
    In (path, table)
       (written (Pandas.create_and_populate_country_tables now fails
                   staging)) ->
    In r (rows table) -> complete n i o r = true.
Proof.
  intros Hn Hi Ho Hrows path table r Hw Hr.
  unfold Pandas.create_and_populate_country_tables in Hw.
  destruct (Pandas.global_latest_records staging) as [latest | e] eqn:Hlat;
    simpl in Hw; [| contradiction].
  destruct (Pandas.countries staging) as [cs | e]; simpl in Hw;
    [| contradiction].
  apply written_by_the_body in Hw. destruct Hw as (c & _ & Hbody).
  destruct (pandas_latest_subset staging latest Hlat) as [Hcols Hsub].
  assert (Hm : mandatory_at n i o "Customer_Name" "Customer_Id" "Open_Date"
                 latest).
  { unfold Pandas.column in *. rewrite <- Hcols in Hn, Hi, Ho.
    repeat split; try (apply pandas_name_resolved; assumption).
    intros r0 Hr0. apply Hrows, Hsub, Hr0. }
  unfold Pandas.country_table in Hbody.
  repeat bind_inv Hbody. apply ok_inj in Hbody.
  injection Hbody as _ <-.
  revert r Hr.
  match goal with
  | |- forall r, In r (rows ?df) -> _ =>
      assert (H : mandatory_at n i o "Customer_Name" "Customer_Id"
                    "Open_Date" df)
  end.
  { do 3 (apply assign_keeps_mandatory; [reflexivity .. |]).
    apply filter_keeps_mandatory. exact Hm. }
  destruct H as (_ & _ & _ & H). exact H.
Qed.

Lemma spark_written_rows_complete (now : date) (fails : string -> bool)
    (data latest derived : frame) (n i o : nat) :
  Spark.column "Customer_Name" data = Ok n ->
  Spark.column "Customer_ID" data = Ok i ->
  Spark.column "Open_Date" data = Ok o ->
  (forall r, In r (rows data) -> complete n i o r = true) ->
  existsb (Spark.same_name "row_number") (columns data) = false ->
  Spark.get_latest_data data = Ok latest ->
  Spark.add_derived_columns now latest = Ok derived ->
  forall path table r,
    In (path, table) (written (Spark.save_country_data fails derived)) ->
    In r (rows table) -> complete n i o r = true.
Proof.
  intros Hn Hi Ho Hrows Hplain Hlat Hder path table r Hw Hr.
  destruct (spark_latest_subset data latest Hplain Hlat) as [Hcols Hsub].
  apply resolve_nth in Hn, Hi, Ho.
  destruct Hn as (cn & Hcn & En), Hi as (ci & Hci & Ei),
           Ho as (co & Hco & Eo).
  rewrite <- Hcols in Hcn, Hci, Hco.
  assert (Hm : mandatory_at n i o cn ci co latest).
  { repeat split; try assumption. intros r0 Hr0. apply Hrows, Hsub, Hr0. }
  assert (Hd : mandatory_at n i o cn ci co derived).
  { unfold Spark.add_derived_columns in Hder.
    bind_inv Hder. bind_inv Hder. apply ok_inj in Hder. subst derived.
    do 3 (apply assign_keeps_mandatory;
          [ eapply spark_other_name; [| eassumption]; discriminate ..
          | ]).
    exact Hm. }
  unfold Spark.save_country_data in Hw.
  destruct (Spark.countries derived) as [cs | e]; simpl in Hw;
    [| contradiction].
  apply spark_written_by_the_body in Hw. destruct Hw as (c & _ & Hbody).
  unfold Spark.country_table in Hbody. bind_inv Hbody.
  apply ok_inj in Hbody. injection Hbody as _ <-.
  destruct (filter_keeps_mandatory
              (fun r => equals c (cell_at x r)) derived n i o cn ci co Hd)
    as (_ & _ & _ & H).
  apply H. exact Hr.
Qed.

(** The same by name: whatever [get_latest_data] dropped, the three
    fields are found in every table written, and none is null. *)
Lemma spark_written_rows_named (now : date) (fails : string -> bool)
    (data latest derived : frame) (n i o : nat) :
  Spark.column "Customer_Name" data = Ok n ->
  Spark.column "Customer_ID" data = Ok i ->
  Spark.column "Open_Date" data = Ok o ->
  (forall r, In r (rows data) -> complete n i o r = true) ->
  Spark.get_latest_data data = Ok latest ->
  Spark.add_derived_columns now latest = Ok derived ->
  forall path table r,
    In (path, table) (written (Spark.save_country_data fails derived)) ->
    In r (rows table) ->
    exists n' i' o',
      Spark.column "Customer_Name" table = Ok n' /\
      Spark.column "Customer_ID" table = Ok i' /\
      Spark.column "Open_Date" table = Ok o' /\
      complete n' i' o' r = true.
Proof.
  intros Hn Hi Ho Hrows Hlat Hder path table r Hw Hr.
  apply spark_get_latest_data_inv in Hlat.
  destruct Hlat as (ci & cj & _ & _ & _ & Hlat).
  destruct (spark_drop_resolve "row_number" "Customer_Name" (columns data) n)
    as (n' & Hn' & Cn); [discriminate | exact Hn |].
  destruct (spark_drop_resolve "row_number" "Customer_ID" (columns data) i)
    as (i' & Hi' & Ci); [discriminate | exact Hi |].
  destruct (spark_drop_resolve "row_number" "Open_Date" (columns data) o)
    as (o' & Ho' & Co); [discriminate | exact Ho |].
  assert (Hcols : columns latest =
                  filter (fun c => negb (Spark.same_name "row_number" c))
                         (columns data))
    by (rewrite Hlat; reflexivity).
  rewrite <- Hcols in Hn', Hi', Ho'.
  assert (Hl : forall r0, In r0 (rows latest) -> complete n' i' o' r0 = true).
  { intros r0 H0. rewrite Hlat in H0. cbn [Spark.drop rows columns] in H0.
    apply in_map_iff in H0. destruct H0 as (r1 & <- & H1).
    apply spark_first_rows_subset in H1. specialize (Hrows r1 H1).
    unfold complete in *. rewrite Cn, Ci, Co. exact Hrows. }
  clear Hlat Hcols Cn Ci Co Hrows Hn Hi Ho.
  destruct (resolve_nth _ _ _ _ Hn') as (cn & Hcn & En).
  destruct (resolve_nth _ _ _ _ Hi') as (cc & Hcc & Ec).
  destruct (resolve_nth _ _ _ _ Ho') as (co & Hco & Eo).
  assert (Hm : mandatory_at n' i' o' cn cc co latest)
    by (repeat split; assumption).
  assert (Hd : mandatory_at n' i' o' cn cc co derived /\
               Spark.column "Customer_Name" derived = Ok n' /\
               Spark.column "Customer_ID" derived = Ok i' /\
               Spark.column "Open_Date" derived = Ok o').
  { unfold Spark.add_derived_columns in Hder.
    bind_inv Hder. bind_inv Hder. apply ok_inj in Hder. subst derived.
    split.
    - do 3 (apply assign_keeps_mandatory;
            [ eapply spark_other_name; [| eassumption]; discriminate ..
            | ]).
      exact Hm.
    - unfold Spark.column.
      rewrite !spark_assign_resolve by discriminate. auto. }
  destruct Hd as (Hd & Dn & Di & Do).
  unfold Spark.save_country_data in Hw.
  destruct (Spark.countries derived) as [cs | e]; simpl in Hw;
    [| contradiction].
  apply spark_written_by_the_body in Hw. destruct Hw as (c & _ & Hbody).
  unfold Spark.country_table in Hbody. bind_inv Hbody.
  apply ok_inj in Hbody. injection Hbody as _ <-.
  exists n', i', o'. unfold Spark.column. cbn [columns].
  repeat (split; [assumption |]).
  destruct (filter_keeps_mandatory
              (fun r => equals c (cell_at x r)) derived n' i' o' cn cc co Hd)
    as (_ & _ & _ & H).
  apply H. exact Hr.
Qed.

(** C4: a row that survives [validate_data] has its [Customer_Name],
    [Customer_Id] and [Open_Date]; the survivors are exactly the rows
    that have all three once the over-long fields are nulled, so a row
    that lacks one is dropped whole; and every row of every table
    written afterwards has all three.  In both scripts.  The tables of
    the PySpark script are read by name, and also at the positions the
    three fields have in the validated frame, which they keep when the
    data have no column [row_number] for [get_latest_data] to drop. *)
Theorem mandatory_fields_never_null :
  (forall df out : frame,
      Pandas.validate_data df = Ok out ->
      exists nulled n i o,
        Pandas.null_long_fields df = Ok nulled /\
        length (rows nulled) = length (rows df) /\
        Pandas.column "Customer_Name" out = Ok n /\
        Pandas.column "Customer_Id" out = Ok i /\
        Pandas.column "Open_Date" out = Ok o /\
        rows out = filter (complete n i o) (rows nulled) /\
        (forall r, In r (rows out) ->
           cell_at n r <> Null /\ cell_at i r <> Null /\
           cell_at o r <> Null) /\
        (forall r, In r (rows nulled) ->
           cell_at n r = Null \/ cell_at i r = Null \/ cell_at o r = Null ->
           ~ In r (rows out)) /\
        (forall now fails path table r,
           In (path, table)
              (written (Pandas.create_and_populate_country_tables now fails
                          out)) ->
           In r (rows table) ->
           cell_at n r <> Null /\ cell_at i r <> Null /\
           cell_at o r <> Null)) /\
  (forall data out : frame,
      Spark.validate_data data = Ok out ->
      exists nulled n i o,
        Spark.null_long_fields data = Ok nulled /\
        length (rows nulled) = length (rows data) /\
        Spark.column "Customer_Name" out = Ok n /\
        Spark.column "Customer_ID" out = Ok i /\
        Spark.column "Open_Date" out = Ok o /\
        rows out = filter (complete n i o) (rows nulled) /\
        (forall r, In r (rows out) ->
           cell_at n r <> Null /\ cell_at i r <> Null /\
           cell_at o r <> Null) /\
        (forall r, In r (rows nulled) ->
           cell_at n r = Null \/ cell_at i r = Null \/ cell_at o r = Null ->
           ~ In r (rows out)) /\
        (forall now fails latest derived path table r,
           Spark.get_latest_data out = Ok latest ->
           Spark.add_derived_columns now latest = Ok derived ->
           In (path, table) (written (Spark.save_country_data fails derived)) ->
           In r (rows table) ->
           exists n' i' o',
             Spark.column "Customer_Name" table = Ok n' /\
             Spark.column "Customer_ID" table = Ok i' /\
             Spark.column "Open_Date" table = Ok o' /\
             cell_at n' r <> Null /\ cell_at i' r <> Null /\
             cell_at o' r <> Null) /\
        (forall now fails latest derived path table r,
           existsb (Spark.same_name "row_number") (columns out) = false ->
           Spark.get_latest_data out = Ok latest ->
           Spark.add_derived_columns now latest = Ok derived ->
           In (path, table) (written (Spark.save_country_data fails derived)) ->
           In r (rows table) ->
           cell_at n r <> Null /\ cell_at i r <> Null /\
           cell_at o r <> Null)).
Proof.
  split.
  - intros df out H. unfold Pandas.validate_data in H. bind_inv H.
    destruct (pandas_null_long_fields_keeps_rows _ _ Hx) as [_ Hlen].
    apply pandas_drop_incomplete in H.
    destruct H as (n & i & o & Hn & Hi & Ho & Hc & Hr).
    exists x, n, i, o. unfold Pandas.column in *. rewrite Hc.
    destruct (filter_complete_facts _ _ _ _ _ Hr) as [Hin Hout].
    repeat (split; [first [assumption | exact Hin | exact Hout] |]).
    intros now fails path table r Hw Hrow. apply complete_spec.
    apply (pandas_written_rows_complete now fails out n i o)
      with (path := path) (table := table);
      try assumption; unfold Pandas.column; try (rewrite Hc; assumption).
    intros r0 Hr0. apply complete_spec. apply Hin. exact Hr0.
  - intros df out H. unfold Spark.validate_data in H. bind_inv H.
    destruct (spark_null_long_fields_keeps_rows _ _ Hx) as [_ Hlen].
    apply spark_drop_incomplete in H.
    destruct H as (n & i & o & Hn & Hi & Ho & Hc & Hr).
    exists x, n, i, o. unfold Spark.column in *. rewrite Hc.
    destruct (filter_complete_facts _ _ _ _ _ Hr) as [Hin Hout].
    repeat (split; [first [assumption | exact Hin | exact Hout] |]).
    assert (Hall : forall r0, In r0 (rows out) -> complete n i o r0 = true)
      by (intros r0 Hr0; apply complete_spec; apply Hin; exact Hr0).
    split.
    + intros now fails latest derived path table r Hlat Hder Hw Hrow.
      destruct (spark_written_rows_named now fails out latest derived n i o)
        with (path := path) (table := table) (r := r)
        as (n' & i' & o' & Tn & Ti & To & Hcomplete);
        try assumption; unfold Spark.column; try (rewrite Hc; assumption).
      exists n', i', o'. repeat (split; [assumption |]).
      apply complete_spec. exact Hcomplete.
    + intros now fails latest derived path table r Hplain Hlat Hder Hw Hrow.
      apply complete_spec.
      apply (spark_written_rows_complete now fails out latest derived n i o)
        with (path := path) (table := table);
        try assumption; unfold Spark.column; try (rewrite Hc; assumption).
Qed.

(** ** The theorems at work on the sample files *)

(** C4 on [sample_file]: the row whose [Open_Date] did not parse is
    gone, under both scripts; and on [numbered_file] under PySpark. *)
Lemma mandatory_fields_on_sample :
  (Pandas.validate_data pandas_parsed = Ok pandas_validated /\
   exists nulled n i o,
     Pandas.null_long_fields pandas_parsed = Ok nulled /\
     length (rows nulled) = length (rows pandas_parsed) /\
     Pandas.column "Customer_Name" pandas_validated = Ok n /\
     Pandas.column "Customer_Id" pandas_validated = Ok i /\
     Pandas.column "Open_Date" pandas_validated = Ok o /\
     rows pandas_validated = filter (complete n i o) (rows nulled) /\
     (forall r, In r (rows pandas_validated) ->
        cell_at n r <> Null /\ cell_at i r <> Null /\ cell_at o r <> Null) /\
     (forall r, In r (rows nulled) ->
        cell_at n r = Null \/ cell_at i r = Null \/ cell_at o r = Null ->
        ~ In r (rows pandas_validated)) /\
     (forall now fails path table r,
        In (path, table)
           (written (Pandas.create_and_populate_country_tables now fails
                       pandas_validated)) ->
        In r (rows table) ->
        cell_at n r <> Null /\ cell_at i r <> Null /\ cell_at o r <> Null)) /\
  (Spark.validate_data spark_parsed = Ok spark_validated /\
   exists nulled n i o,
     Spark.null_long_fields spark_parsed = Ok nulled /\
     length (rows nulled) = length (rows spark_parsed) /\
     Spark.column "Customer_Name" spark_validated = Ok n /\
     Spark.column "Customer_ID" spark_validated = Ok i /\
     Spark.column "Open_Date" spark_validated = Ok o /\
     rows spark_validated = filter (complete n i o) (rows nulled) /\
     (forall r, In r (rows spark_validated) ->
        cell_at n r <> Null /\ cell_at i r <> Null /\ cell_at o r <> Null) /\
     (forall r, In r (rows nulled) ->
        cell_at n r = Null \/ cell_at i r = Null \/ cell_at o r = Null ->
        ~ In r (rows spark_validated)) /\
     (forall now fails latest derived path table r,
        Spark.get_latest_data spark_validated = Ok latest ->
        Spark.add_derived_columns now latest = Ok derived ->
        In (path, table) (written (Spark.save_country_data fails derived)) ->
        In r (rows table) ->
        exists n' i' o',
          Spark.column "Customer_Name" table = Ok n' /\
          Spark.column "Customer_ID" table = Ok i' /\
          Spark.column "Open_Date" table = Ok o' /\
          cell_at n' r <> Null /\ cell_at i' r <> Null /\
          cell_at o' r <> Null) /\
     (forall now fails latest derived path table r,
        existsb (Spark.same_name "row_number") (columns spark_validated)
          = false ->
        Spark.get_latest_data spark_validated = Ok latest ->
        Spark.add_derived_columns now latest = Ok derived ->
        In (path, table) (written (Spark.save_country_data fails derived)) ->
        In r (rows table) ->
        cell_at n r <> Null /\ cell_at i r <> Null /\ cell_at o r <> Null)) /\
  (Spark.validate_data numbered_parsed = Ok numbered_validated /\
   exists nulled n i o,
     Spark.null_long_fields numbered_parsed = Ok nulled /\
     length (rows nulled) = length (rows numbered_parsed) /\
     Spark.column "Customer_Name" numbered_validated = Ok n /\
     Spark.column "Customer_ID" numbered_validated = Ok i /\
     Spark.column "Open_Date" numbered_validated = Ok o /\
     rows numbered_validated = filter (complete n i o) (rows nulled) /\
     (forall r, In r (rows numbered_validated) ->
        cell_at n r <> Null /\ cell_at i r <> Null /\ cell_at o r <> Null) /\
     (forall r, In r (rows nulled) ->
        cell_at n r = Null \/ cell_at i r = Null \/ cell_at o r = Null ->
        ~ In r (rows numbered_validated)) /\
     (forall now fails latest derived path table r,
        Spark.get_latest_data numbered_validated = Ok latest ->
        Spark.add_derived_columns now latest = Ok derived ->
        In (path, table) (written (Spark.save_country_data fails derived)) ->
        In r (rows table) ->
        exists n' i' o',
          Spark.column "Customer_Name" table = Ok n' /\
          Spark.column "Customer_ID" table = Ok i' /\
          Spark.column "Open_Date" table = Ok o' /\
          cell_at n' r <> Null /\ cell_at i' r <> Null /\
          cell_at o' r <> Null) /\
     (forall now fails latest derived path table r,
        existsb (Spark.same_name "row_number") (columns numbered_validated)
          = false ->
        Spark.get_latest_data numbered_validated = Ok latest ->
        Spark.add_derived_columns now latest = Ok derived ->
        In (path, table) (written (Spark.save_country_data fails derived)) ->
        In r (rows table) ->
        cell_at n r <> Null /\ cell_at i r <> Null /\ cell_at o r <> Null)).
Proof.
  split; [| split]; (split; [vm_compute; reflexivity |]).
  - apply (proj1 mandatory_fields_never_null pandas_parsed pandas_validated).
    vm_compute. reflexivity.
  - apply (proj2 mandatory_fields_never_null spark_parsed spark_validated).
    vm_compute. reflexivity.
  - apply (proj2 mandatory_fields_never_null numbered_parsed
             numbered_validated).
    vm_compute. reflexivity.
Defined.

(** C3 on [sample_file]: of the two rows of customer 123457 the one of
    2024 is kept; and on [numbered_file] under PySpark, where the row
    kept comes without its [Row_Number]. *)
Lemma one_latest_row_on_sample :
  (Pandas.convert_dates sample_bound = Ok pandas_parsed /\
   Pandas.validate_data pandas_parsed = Ok pandas_validated /\
   exists i j latest,
     Pandas.column "Customer_Id" pandas_validated = Ok i /\
     Pandas.column "Last_Consulted_Date" pandas_validated = Ok j /\
     Pandas.global_latest_records pandas_validated = Ok latest /\
     one_latest_row i j (rows pandas_validated) (rows latest)) /\
  (Spark.convert_dates sample_bound = Ok spark_parsed /\
   Spark.validate_data spark_parsed = Ok spark_validated /\
   length (positions Spark.same_name "row_number"
             (columns spark_validated) 0) <= 1 /\
   exists i j latest,
     Spark.column "Customer_ID" spark_validated = Ok i /\
     Spark.column "Last_Consulted_Date" spark_validated = Ok j /\
     Spark.get_latest_data spark_validated = Ok latest /\
     (exists i' j',
         Spark.column "Customer_ID" latest = Ok i' /\
         Spark.column "Last_Consulted_Date" latest = Ok j' /\
         (forall r,
             cell_at i' (Spark.without "row_number"
                           (columns spark_validated) r) = cell_at i r /\
             cell_at j' (Spark.without "row_number"
                           (columns spark_validated) r) = cell_at j r) /\
         one_latest_row_shown
           (Spark.without "row_number" (columns spark_validated))
           i j i' (rows spark_validated) (rows latest)) /\
     (existsb (Spark.same_name "row_number") (columns spark_validated)
        = false ->
      one_latest_row i j (rows spark_validated) (rows latest))) /\
  (Spark.convert_dates numbered_bound = Ok numbered_parsed /\
   Spark.validate_data numbered_parsed = Ok numbered_validated /\
   length (positions Spark.same_name "row_number"
             (columns numbered_validated) 0) <= 1 /\
   exists i j latest,
     Spark.column "Customer_ID" numbered_validated = Ok i /\
     Spark.column "Last_Consulted_Date" numbered_validated = Ok j /\
     Spark.get_latest_data numbered_validated = Ok latest /\
     (exists i' j',
         Spark.column "Customer_ID" latest = Ok i' /\
         Spark.column "Last_Consulted_Date" latest = Ok j' /\
         (forall r,
             cell_at i' (Spark.without "row_number"
                           (columns numbered_validated) r) = cell_at i r /\
             cell_at j' (Spark.without "row_number"
                           (columns numbered_validated) r) = cell_at j r) /\
         one_latest_row_shown
           (Spark.without "row_number" (columns numbered_validated))
           i j i' (rows numbered_validated) (rows latest)) /\
     (existsb (Spark.same_name "row_number") (columns numbered_validated)
        = false ->
      one_latest_row i j (rows numbered_validated) (rows latest))).
Proof.
  split; [| split];
    (split; [vm_compute; reflexivity |]);
    (split; [vm_compute; reflexivity |]).
  - apply (proj1 one_latest_row_per_customer sample_bound pandas_parsed
             pandas_validated); vm_compute; reflexivity.
  - split; [vm_compute; lia |].
    apply (proj2 one_latest_row_per_customer sample_bound spark_parsed
             spark_validated);
      [vm_compute; reflexivity | vm_compute; reflexivity | vm_compute; lia].
  - split; [vm_compute; lia |].
    apply (proj2 one_latest_row_per_customer numbered_bound numbered_parsed
             numbered_validated);
      [vm_compute; reflexivity | vm_compute; reflexivity | vm_compute; lia].
Defined.




(** C9 on the frames of [three_countries], with a storage that cannot
    take [Table_IND], the second of three tables: [Table_USA] stays
    written and [Table_AU] is not; and, for the PySpark script, with a
    session that does not register [Table_IND]: [Table_USA] and
    [Table_IND] are written and [Table_AU] is not. *)
Lemma write_failure_on_sample :
  (status (Pandas.create_and_populate_country_tables today ind_unwritable
             pandas_three) =
     Err (WriteFailure "output/Table_IND.csv") /\
   map fst (written (Pandas.create_and_populate_country_tables today
                       ind_unwritable pandas_three)) =
     ["output/Table_USA.csv"]) /\
  (status (Spark.save_each ind_unwritable spark_three
             [Str "USA"; Str "IND"; Str "AU"]) =
     Err (WriteFailure "dbfs:/mnt/country_tables/Table_IND") /\
   map fst (written (Spark.save_each ind_unwritable spark_three
                       [Str "USA"; Str "IND"; Str "AU"])) =
     ["dbfs:/mnt/country_tables/Table_USA"]) /\
  (status (Spark.save_each ind_unregistered spark_three
             [Str "USA"; Str "IND"; Str "AU"]) =
     Err (TableNotCreated
            "CREATE TABLE IF NOT EXISTS Table_IND_check USING DELTA LOCATION 'dbfs:/mnt/country_tables/Table_IND'") /\
   map fst (written (Spark.save_each ind_unregistered spark_three
                       [Str "USA"; Str "IND"; Str "AU"])) =
     ["dbfs:/mnt/country_tables/Table_USA";
      "dbfs:/mnt/country_tables/Table_IND"]) /\
  Spark.save_country_data ind_unwritable spark_three =
    Spark.save_each ind_unwritable spark_three
      [Str "USA"; Str "IND"; Str "AU"].
Proof.
  assert (Hn : Spark.column "Country" spark_three = Ok 7)
    by (vm_compute; reflexivity).
  assert (Hw : forall c', In c' [Str "USA"] ->
                 ind_unwritable (spark_artifact c') = false /\
                 ind_unwritable (spark_registration c') = false)
    by (intros c' [<- | []]; split; reflexivity).
  assert (Hr : forall c', In c' [Str "USA"] ->
                 ind_unregistered (spark_artifact c') = false /\
                 ind_unregistered (spark_registration c') = false)
    by (intros c' [<- | []]; split; reflexivity).
  split; [| split; [| split]].
  - apply (proj1 write_failure_ends_the_loop today ind_unwritable
             pandas_three pandas_three_latest [Str "USA"] [Str "AU"]
             (Str "IND") 8).
    + vm_compute. reflexivity.
    + vm_compute. reflexivity.
    + vm_compute. reflexivity.
    + vm_compute. lia.
    + intros c' [<- | []]. reflexivity.
    + reflexivity.
  - exact (proj1 (proj2 write_failure_ends_the_loop ind_unwritable
                    spark_three 7 [Str "USA"] [Str "AU"] (Str "IND") Hn Hw)
             eq_refl).
  - exact (proj1 (proj2 (proj2 write_failure_ends_the_loop ind_unregistered
                           spark_three 7 [Str "USA"] [Str "AU"] (Str "IND")
                           Hn Hr))
             eq_refl eq_refl).
  - apply (proj2 (proj2 (proj2 write_failure_ends_the_loop ind_unwritable
                           spark_three 7 [Str "USA"] [Str "AU"] (Str "IND")
                           Hn Hw))).
    vm_compute. reflexivity.
Defined.

(** C10 on the frames of [sample_file]: three tables, and the one of
    [AU], whose only row lost to a later row in [USA], is empty. *)
Lemma pandas_tables_on_sample :
  let o := Pandas.create_and_populate_country_tables today storage_ok
             pandas_validated in
  status o = Ok tt /\
  map fst (written o) =
    ["output/Table_USA.csv"; "output/Table_AU.csv"; "output/Table_IND.csv"]
  /\
  forall country,
    In country (map (cell_at 7) (rows pandas_validated)) ->
    exists table,
      In (pandas_artifact country, table) (written o) /\
      length (rows table) =
      length (filter (fun r => equals country (cell_at 7 r))
                     (rows pandas_latest)) /\
      ((forall r, In r (rows pandas_latest) -> cell_at 7 r <> country) ->
       rows table = []).
Proof.
  apply (pandas_tables_follow_validated_countries today storage_ok
           pandas_validated pandas_latest 7 8).
  - vm_compute. reflexivity.
  - vm_compute. reflexivity.
  - vm_compute. reflexivity.
  - vm_compute. lia.
  - intros path. reflexivity.
Defined.

Example table_of_AU_is_written_empty :
  tables (Pandas.main today storage_ok moved_customer) =
    [("output/Table_USA.csv",
      [[Str "Alex"; Str "123457"; Dt (mkdate 2010 10 12);
        Dt (mkdate 2024 1 30); Str "MVD"; Str "Paul"; Str "SA"; Str "USA";
        Dt (mkdate 1987 3 6); Str "A"; Num 37; Num 31; Str "Yes"]]);
     ("output/Table_AU.csv", [])] /\
  map fst (tables (Spark.main today storage_ok moved_customer)) =
    ["dbfs:/mnt/country_tables/Table_USA"].
Proof. split; vm_compute; reflexivity. Qed.

(** * Further properties of the stages *)

(** ** Without a header line *)

Lemma pandas_no_header (lines : list string) :
  Forall (fun l => Text.startswith l "|H|" = false) lines ->
  Pandas.extract_header lines = Err HeaderNotFound.
Proof.
  induction 1 as [| l lines Hl _ IH]; cbn [Pandas.extract_header];
    [reflexivity |].
  rewrite Hl. exact IH.
Qed.

Lemma spark_no_header (lines : list string) :
  Forall (fun l => Text.startswith l "|H|" = false) lines ->
  Spark.extract_header lines = Err HeaderNotFound.
Proof.
  induction 1 as [| l lines Hl _ IH]; cbn [Spark.extract_header];
    [reflexivity |].
  rewrite Hl. exact IH.
Qed.

(** X1: a file in which no line starts with [|H|] is not processed at
    all: both runs end with the header not found and nothing written,
    whatever the data lines, the clock and the storage. *)
Theorem no_header_nothing_written (now : date) (fails : string -> bool)
    (lines : list string) :
  Forall (fun l => Text.startswith l "|H|" = false) lines ->
  Pandas.main now fails lines = mkoutcome [] (Err HeaderNotFound) /\
  Spark.main now fails lines = mkoutcome [] (Err HeaderNotFound).
Proof.
  intros H. unfold Pandas.main, Spark.main.
  rewrite (pandas_no_header lines H), (spark_no_header lines H).
  split; reflexivity.
Qed.

Lemma no_header_on_headless :
  Forall (fun l => Text.startswith l "|H|" = false) headless /\
  Pandas.main today storage_ok headless = mkoutcome [] (Err HeaderNotFound) /\
  Spark.main today storage_ok headless = mkoutcome [] (Err HeaderNotFound).
Proof.
  assert (H : Forall (fun l => Text.startswith l "|H|" = false) headless)
    by (repeat constructor).
  split; [exact H |].
  exact (no_header_nothing_written today storage_ok headless H).
Defined.

(** ** The header is never empty *)

Lemma startswith_three (a b c : ascii) (line : string) :
  Text.startswith line (String a (String b (String c EmptyString))) = true ->
  exists rest, line = String a (String b (String c rest)).
Proof.
  destruct line as [| c0 [| c1 [| c2 rest]]]; simpl;
    try discriminate; try (rewrite ?andb_false_r; discriminate).
  rewrite !andb_true_iff. intros (H0 & H1 & H2 & _).
  apply Ascii.eqb_eq in H0, H1, H2. subst. eauto.
Qed.

Lemma rstrip_cons (c : ascii) (s : string) :
  Text.is_space c = false ->
  Text.rstrip (String c s) = String c (Text.rstrip s).
Proof.
  intros H. cbn [Text.rstrip]. rewrite H.
  destruct (Text.rstrip s); reflexivity.
Qed.

Lemma lstrip_cons (c : ascii) (s : string) :
  Text.is_space c = false -> Text.lstrip (String c s) = String c s.
Proof. intros H. cbn [Text.lstrip]. rewrite H. reflexivity. Qed.

(** Stripping a line that starts with [|H|] leaves the prefix in place. *)
Lemma strip_keeps_prefix (line : string) :
  Text.startswith line "|H|" = true ->
  Text.startswith (Text.strip line) "|H|" = true.
Proof.
  intros H. apply startswith_three in H. destruct H as [rest ->].
  unfold Text.strip.
  rewrite lstrip_cons by reflexivity.
  rewrite !rstrip_cons by reflexivity.
  reflexivity.
Qed.

Lemma payload_nonempty (line : string) :
  Text.startswith line "|H|" = true -> skipn 2 (tokens line) <> [].
Proof.
  intros H. apply (startswith_tag "H"%char) in H; [| discriminate].
  destruct H as (payload & Hne & ->). exact Hne.
Qed.

(** X2: the header that [extract_header] returns has at least one
    column name, in both scripts: a line that starts with [|H|] has a
    token after the tag, and stripping the line does not take it
    away. *)
Theorem header_is_never_empty (lines header : list string) :
  Pandas.extract_header lines = Ok header \/
  Spark.extract_header lines = Ok header ->
  header <> [].
Proof.
  intros [H | H].
  - pose proof (pandas_first_header_line lines) as Hp. rewrite H in Hp.
    destruct Hp as (before & line & after & _ & _ & Hl & ->).
    apply payload_nonempty. apply strip_keeps_prefix. exact Hl.
  - pose proof (spark_first_header_line lines) as Hs. rewrite H in Hs.
    destruct Hs as (before & line & after & _ & _ & Hl & ->).
    apply payload_nonempty. exact Hl.
Qed.

Lemma header_of_bare_tag :
  Pandas.extract_header ["|H|  "] = Ok [""] /\ [""] <> @nil string.
Proof.
  split; [vm_compute; reflexivity |].
  apply (header_is_never_empty ["|H|  "] [""]).
  left. vm_compute. reflexivity.
Defined.

(** ** What reading the file takes *)

Lemma mapM_inv {A B : Type} (f : A -> result B) (l : list A) :
  forall l', mapM f l = Ok l' -> Forall2 (fun x y => f x = Ok y) l l'.
Proof.
  induction l as [| x l IH]; simpl; intros l' H.
  - apply ok_inj in H. subst l'. constructor.
  - bind_inv H. bind_inv H. apply ok_inj in H. subst l'.
    constructor; [exact Hx | apply IH; exact Hx0].
Qed.

Lemma Forall2_left {A B : Type} (R : A -> B -> Prop) (P : A -> Prop)
    (l : list A) (l' : list B) :
  (forall x y, R x y -> P x) -> Forall2 R l l' -> Forall P l.
Proof. intros H. induction 1; constructor; eauto. Qed.

Lemma Forall2_right {A B : Type} (R : A -> B -> Prop) (P : B -> Prop)
    (l : list A) (l' : list B) :
  (forall x y, R x y -> P y) -> Forall2 R l l' -> Forall P l'.
Proof. intros H. induction 1; constructor; eauto. Qed.

Lemma pandas_read_record_inv (width : nat) (line : string) (r : row) :
  Pandas.read_record width line = Ok r ->
  length (tokens line) <= width /\ length r = width.
Proof.
  intros H.
  destruct (Nat.lt_ge_cases width (length (tokens line))) as [Hw | Hw].
  - rewrite pandas_read_record_long in H by exact Hw. discriminate.
  - destruct (pandas_read_record_ok width line Hw) as (r' & E & Hlen & _).
    split; [exact Hw | congruence].
Qed.

Lemma pandas_read_csv_inv (lines : list string) (width : nat)
    (data : list row) :
  Pandas.read_csv lines = Ok (width, data) ->
  exists first rest,
    records lines = first :: rest /\
    width = length (tokens first) /\
    Forall (fun l => length (tokens l) <= length (tokens first)) rest /\
    Forall (fun r => length r = width) data.
Proof.
  unfold Pandas.read_csv. fold (records lines).
  destruct (records lines) as [| first rest] eqn:E; [discriminate |].
  fold (tokens first). intros H. bind_inv H. apply ok_inj in H.
  injection H as <- <-. exists first, rest.
  split; [reflexivity |]. split; [reflexivity |].
  apply mapM_inv in Hx. split.
  - inversion Hx as [| a b l l' _ Hrest]; subst.
    apply (Forall2_left _ _ _ _ (fun l r Hl =>
             proj1 (pandas_read_record_inv _ l r Hl)) Hrest).
  - apply (Forall2_right _ _ _ _ (fun l r Hl =>
             proj2 (pandas_read_record_inv _ l r Hl)) Hx).
Qed.

Lemma pandas_load_staging_inv (lines header : list string) (df : frame) :
  Pandas.load_staging lines header = Ok df ->
  exists width data,
    Pandas.read_csv lines = Ok (width, data) /\
    length header + 2 = width /\
    Pandas.convert_dates
      (mkframe header
         (map (skipn 2)
              (filter (fun r => cell_eqb (cell_at 1 r) (Str "D")) data)))
      = Ok df.
Proof.
  unfold Pandas.load_staging. intros H. bind_inv H.
  destruct x as [width data].
  destruct (Nat.ltb_spec width 2) as [Hw | Hw]; [discriminate |].
  destruct (Nat.eqb_spec (length header) (width - 2)) as [Hh | Hh];
    [| discriminate].
  exists width, data. repeat split; [exact Hx | lia | exact H].
Qed.

(** X4: pandas reads the file only if its first record, blank lines
    apart, is exactly as long as the header line, and no record is
    longer: the frame takes its width from the first record and its
    names from the header.  So a shorter line before the header, a
    title say, ends the run. *)
Theorem pandas_first_record_sets_the_width (lines header : list string)
    (df : frame) :
  Pandas.process_and_load_staging lines header = Ok df ->
  exists first rest,
    records lines = first :: rest /\
    length (tokens first) = length header + 2 /\
    Forall (fun l => length (tokens l) <= length header + 2) rest.
Proof.
  unfold Pandas.process_and_load_staging. intros H. bind_inv H. clear H.
  apply pandas_load_staging_inv in Hx.
  destruct Hx as (width & data & Hr & Hw & _).
  apply pandas_read_csv_inv in Hr.
  destruct Hr as (first & rest & Hrec & Hf & Hrest & _).
  exists first, rest. split; [exact Hrec |]. split; [lia |].
  eapply Forall_impl; [| exact Hrest]. intros l Hl. simpl in Hl. lia.
Qed.

Lemma pandas_first_record_on_sample :
  Pandas.process_and_load_staging sample_file
    (skipn 2 (tokens sample_header)) = Ok pandas_validated /\
  (exists first rest,
      records sample_file = first :: rest /\
      length (tokens first) = length (skipn 2 (tokens sample_header)) + 2 /\
      Forall (fun l => length (tokens l) <=
                       length (skipn 2 (tokens sample_header)) + 2) rest) /\
  Pandas.main today storage_ok titled = mkoutcome [] (Err ParserError).
Proof.
  split; [vm_compute; reflexivity |]. split.
  - apply (pandas_first_record_sets_the_width sample_file
             (skipn 2 (tokens sample_header)) pandas_validated).
    vm_compute. reflexivity.
  - vm_compute. reflexivity.
Defined.

(** ** Rows as wide as the header *)

Lemma pandas_null_long_fields_inv (df nulled : frame) :
  Pandas.null_long_fields df = Ok nulled ->
  exists c1 c2 c3 c4 c5 c6,
    Pandas.column "Customer_Name" df = Ok c1 /\
    Pandas.column "Customer_Id" df = Ok c2 /\
    Pandas.column "Vaccination_Id" df = Ok c3 /\
    Pandas.column "Dr_Name" df = Ok c4 /\
    Pandas.column "State" df = Ok c5 /\
    Pandas.column "Country" df = Ok c6 /\
    columns nulled = columns df /\
    rows nulled = map (null_fields c1 c2 c3 c4 c5 c6) (rows df).
Proof.
  unfold Pandas.null_long_fields. intros H.
  bind_inv H. apply pandas_check_length_inv in Hx.
  destruct Hx as (c1 & H1 & C1 & R1).
  bind_inv H. apply pandas_check_length_inv in Hx.
  destruct Hx as (c2 & H2 & C2 & R2).
  bind_inv H. apply pandas_check_length_inv in Hx.
  destruct Hx as (c3 & H3 & C3 & R3).
  bind_inv H. apply pandas_check_length_inv in Hx.
  destruct Hx as (c4 & H4 & C4 & R4).
  bind_inv H. apply pandas_check_length_inv in Hx.
  destruct Hx as (c5 & H5 & C5 & R5).
  apply pandas_check_length_inv in H.
  destruct H as (c6 & H6 & C6 & R6).
  unfold Pandas.column in *.
  rewrite C5, C4, C3, C2, C1 in H6. rewrite C4, C3, C2, C1 in H5.
  rewrite C3, C2, C1 in H4. rewrite C2, C1 in H3. rewrite C1 in H2.
  exists c1, c2, c3, c4, c5, c6.
  repeat (split; [assumption |]). split; [congruence |].
  rewrite R6, R5, R4, R3, R2, R1, !map_map. reflexivity.
Qed.

Lemma spark_null_long_fields_inv (df nulled : frame) :
  Spark.null_long_fields df = Ok nulled ->
  exists c1 c2 c3 c4 c5 c6,
    Spark.column "Customer_Name" df = Ok c1 /\
    Spark.column "Customer_ID" df = Ok c2 /\
    Spark.column "Vaccination_Id" df = Ok c3 /\
    Spark.column "Dr_Name" df = Ok c4 /\
    Spark.column "State" df = Ok c5 /\
    Spark.column "Country" df = Ok c6 /\
    length (columns nulled) = length (columns df) /\
    (forall name, Spark.column name nulled = Spark.column name df) /\
    rows nulled = map (null_fields c1 c2 c3 c4 c5 c6) (rows df).
Proof.
  intros H0. pose proof H0 as H. unfold Spark.null_long_fields in H.
  bind_inv H. pose proof (spark_with_column_resolve _ _ _ _ Hx) as C1.
  apply spark_with_column_inv in Hx. destruct Hx as (c1 & H1 & _ & R1).
  bind_inv H. pose proof (spark_with_column_resolve _ _ _ _ Hx) as C2.
  apply spark_with_column_inv in Hx. destruct Hx as (c2 & H2 & _ & R2).
  bind_inv H. pose proof (spark_with_column_resolve _ _ _ _ Hx) as C3.
  apply spark_with_column_inv in Hx. destruct Hx as (c3 & H3 & _ & R3).
  bind_inv H. pose proof (spark_with_column_resolve _ _ _ _ Hx) as C4.
  apply spark_with_column_inv in Hx. destruct Hx as (c4 & H4 & _ & R4).
  bind_inv H. pose proof (spark_with_column_resolve _ _ _ _ Hx) as C5.
  apply spark_with_column_inv in Hx. destruct Hx as (c5 & H5 & _ & R5).
  apply spark_with_column_inv in H. destruct H as (c6 & H6 & _ & R6).
  rewrite C5, C4, C3, C2, C1 in H6. rewrite C4, C3, C2, C1 in H5.
  rewrite C3, C2, C1 in H4. rewrite C2, C1 in H3. rewrite C1 in H2.
  exists c1, c2, c3, c4, c5, c6.
  repeat (split; [assumption |]).
  split; [exact (proj1 (spark_null_long_fields_keeps_rows _ _ H0)) |].
  split; [intros name; apply spark_null_long_fields_resolve; exact H0 |].
  rewrite R6, R5, R4, R3, R2, R1, !map_map. reflexivity.
Qed.

Lemma length_null_fields (c1 c2 c3 c4 c5 c6 : nat) (r : row) :
  length (null_fields c1 c2 c3 c4 c5 c6 r) = length r.
Proof. unfold null_fields. rewrite !length_map_at. reflexivity. Qed.

Lemma pandas_convert_dates_rectangular (df out : frame) :
  Pandas.convert_dates df = Ok out -> rectangular df -> rectangular out.
Proof.
  intros H Hrect. apply pandas_convert_dates_inv in H.
  destruct H as (o & l & b & _ & _ & _ & Hc & Hr).
  intros r Hin. rewrite Hr in Hin. apply in_map_iff in Hin.
  destruct Hin as (r0 & <- & Hr0). rewrite !length_map_at, Hc.
  apply Hrect. exact Hr0.
Qed.

Lemma pandas_validate_rectangular (df out : frame) :
  Pandas.validate_data df = Ok out ->
  columns out = columns df /\ (rectangular df -> rectangular out).
Proof.
  unfold Pandas.validate_data. intros H. bind_inv H.
  apply pandas_null_long_fields_inv in Hx.
  destruct Hx as (c1 & c2 & c3 & c4 & c5 & c6 & _ & _ & _ & _ & _ & _
                  & Hc & Hr).
  apply pandas_drop_incomplete in H.
  destruct H as (n & i & o & _ & _ & _ & Hc' & Hr').
  split; [congruence |]. intros Hrect r Hin.
  rewrite Hr' in Hin. apply filter_In in Hin. destruct Hin as [Hin _].
  rewrite Hr in Hin. apply in_map_iff in Hin.
  destruct Hin as (r0 & <- & Hr0).
  rewrite length_null_fields, Hc', Hc. apply Hrect. exact Hr0.
Qed.

Lemma spark_convert_dates_rectangular (df out : frame) :
  Spark.convert_dates df = Ok out ->
  length (columns out) = length (columns df) /\
  (rectangular df -> rectangular out).
Proof.
  intros H0. pose proof H0 as H. unfold Spark.convert_dates in H.
  bind_inv H. apply spark_with_column_inv in Hx.
  destruct Hx as (o & _ & L1 & _).
  bind_inv H. apply spark_with_column_inv in Hx.
  destruct Hx as (l & _ & L2 & _).
  apply spark_with_column_inv in H. destruct H as (b & _ & L3 & _).
  assert (Hlen : length (columns out) = length (columns df)) by congruence.
  split; [exact Hlen |]. intros Hrect r Hin.
  apply spark_convert_dates_inv in H0.
  destruct H0 as (o' & l' & b' & _ & _ & _ & _ & Hr).
  rewrite Hr in Hin. apply in_map_iff in Hin.
  destruct Hin as (r0 & <- & Hr0). rewrite !length_map_at, Hlen.
  apply Hrect. exact Hr0.
Qed.

Lemma spark_validate_rectangular (df out : frame) :
  Spark.validate_data df = Ok out ->
  length (columns out) = length (columns df) /\
  (rectangular df -> rectangular out).
Proof.
  unfold Spark.validate_data. intros H. bind_inv H.
  apply spark_null_long_fields_inv in Hx.
  destruct Hx as (c1 & c2 & c3 & c4 & c5 & c6 & _ & _ & _ & _ & _ & _
                  & Hc & _ & Hr).
  apply spark_drop_incomplete in H.
  destruct H as (n & i & o & _ & _ & _ & Hc' & Hr').
  assert (Hlen : length (columns out) = length (columns df))
    by (rewrite Hc'; exact Hc).
  split; [exact Hlen |]. intros Hrect r Hin.
  rewrite Hr' in Hin. apply filter_In in Hin. destruct Hin as [Hin _].
  rewrite Hr in Hin. apply in_map_iff in Hin.
  destruct Hin as (r0 & <- & Hr0).
  rewrite length_null_fields, Hlen. apply Hrect. exact Hr0.
Qed.

Lemma spark_process_data_rectangular (raw header : list string) :
  rectangular (Spark.process_data raw header).
Proof.
  intros r Hin. unfold Spark.process_data in *. simpl in *.
  apply in_map_iff in Hin. destruct Hin as (line & <- & _).
  apply spark_bind_line_cells.
Qed.

Lemma pandas_staging_rectangular (lines header : list string) (df : frame) :
  Pandas.process_and_load_staging lines header = Ok df ->
  columns df = header /\
  forall r, In r (rows df) -> length r = length header.
Proof.
  intros H.
  unfold Pandas.process_and_load_staging in H. bind_inv H.
  apply pandas_load_staging_inv in Hx.
  destruct Hx as (width & data & Hr & Hw & Hconv).
  apply pandas_read_csv_inv in Hr.
  destruct Hr as (first & rest & _ & _ & _ & Hdata).
  destruct (pandas_validate_rectangular _ _ H) as [Hc Hrect].
  pose proof (pandas_convert_dates_inv _ _ Hconv)
    as (_ & _ & _ & _ & _ & _ & Hc0 & _).
  simpl in Hc0.
  assert (Hcols : columns df = header) by congruence.
  split; [exact Hcols |]. rewrite <- Hcols. apply Hrect.
  apply (pandas_convert_dates_rectangular _ _ Hconv).
  intros r Hin. cbn [rows columns] in *. apply in_map_iff in Hin.
  destruct Hin as (r0 & <- & Hr0). apply filter_In in Hr0.
  destruct Hr0 as [Hr0 _]. rewrite Forall_forall in Hdata.
  rewrite length_skipn, (Hdata r0 Hr0). lia.
Qed.

Lemma spark_clean_rectangular (raw header : list string) (data : frame) :
  spark_clean (Spark.process_data raw header) = Ok data ->
  length (columns data) = length header /\
  forall r, In r (rows data) -> length r = length header.
Proof.
  intros H. unfold spark_clean in H. bind_inv H.
  destruct (spark_convert_dates_rectangular _ _ Hx) as [L1 R1].
  destruct (spark_validate_rectangular _ _ H) as [L2 R2].
  simpl in L1.
  assert (Hlen : length (columns data) = length header) by congruence.
  split; [exact Hlen |]. rewrite <- Hlen. apply R2, R1.
  apply spark_process_data_rectangular.
Qed.

(** X3: every row of the staging frame has exactly as many cells as the
    header has names, in both scripts, whatever the lengths of the
    lines of the file: pandas refuses the file otherwise, Spark cuts
    and fills each line to the header. *)
Theorem staged_rows_are_as_wide_as_the_header :
  (forall lines header df,
      Pandas.process_and_load_staging lines header = Ok df ->
      columns df = header /\
      forall r, In r (rows df) -> length r = length header) /\
  (forall raw header data,
      spark_clean (Spark.process_data raw header) = Ok data ->
      length (columns data) = length header /\
      forall r, In r (rows data) -> length r = length header).
Proof.
  split.
  - exact pandas_staging_rectangular.
  - exact spark_clean_rectangular.
Qed.

Lemma staged_rows_on_sample :
  (Pandas.process_and_load_staging sample_file
     (skipn 2 (tokens sample_header)) = Ok pandas_validated /\
   columns pandas_validated = skipn 2 (tokens sample_header) /\
   forall r, In r (rows pandas_validated) ->
             length r = length (skipn 2 (tokens sample_header))) /\
  (spark_clean (Spark.process_data sample_file
                  (skipn 2 (tokens sample_header))) = Ok spark_validated /\
   length (columns spark_validated) =
     length (skipn 2 (tokens sample_header)) /\
   forall r, In r (rows spark_validated) ->
             length r = length (skipn 2 (tokens sample_header))).
Proof.
  split; (split; [vm_compute; reflexivity |]).
  - apply (proj1 staged_rows_are_as_wide_as_the_header sample_file
             (skipn 2 (tokens sample_header)) pandas_validated).
    vm_compute. reflexivity.
  - apply (proj2 staged_rows_are_as_wide_as_the_header sample_file
             (skipn 2 (tokens sample_header)) spark_validated).
    vm_compute. reflexivity.
Defined.

(** ** What validation does to a row *)

Lemma within_bounded (n : nat) (c : cell) : bounded n (Pandas.within n c).
Proof.
  unfold bounded. destruct c as [| s | d | z]; simpl; auto.
  destruct (Nat.leb_spec (String.length s) n); eauto.
Qed.

Lemma within_keeps_bounded (n m : nat) (c : cell) :
  bounded n c -> bounded n (Pandas.within m c).
Proof.
  unfold bounded. intros [-> | (s & -> & Hs)]; simpl; auto.
  destruct (String.length s <=? m)%nat; eauto.
Qed.

Lemma within_same_or_null (n : nat) (c : cell) :
  same_or_null c (Pandas.within n c).
Proof.
  unfold same_or_null. destruct c as [| s | d | z]; simpl; auto.
  destruct (String.length s <=? n)%nat; auto.
Qed.

Lemma map_at_same_or_null (n j k : nat) (r : row) :
  same_or_null (cell_at k r) (cell_at k (map_at j (Pandas.within n) r)).
Proof.
  rewrite cell_at_map_at.
  destruct ((k =? j) && (k <? length r))%nat;
    [apply within_same_or_null | left; reflexivity].
Qed.

Lemma same_or_null_trans (a b c : cell) :
  same_or_null a b -> same_or_null b c -> same_or_null a c.
Proof.
  unfold same_or_null. intros [-> | ->] [-> | ->]; auto.
Qed.

(** The length checks change no value: a cell is left as it was or
    nulled. *)
Lemma null_fields_same_or_null (c1 c2 c3 c4 c5 c6 k : nat) (r : row) :
  same_or_null (cell_at k r) (cell_at k (null_fields c1 c2 c3 c4 c5 c6 r)).
Proof.
  unfold null_fields.
  repeat (eapply same_or_null_trans; [| apply map_at_same_or_null]).
  left. reflexivity.
Qed.

Ltac bounded_cell :=
  unfold null_fields;
  repeat first
    [ rewrite cell_at_map_at_same by reflexivity; apply within_bounded
    | apply (map_at_keeps (bounded _));
      [intros ? ?; apply within_keeps_bounded; assumption |] ].

(** After the length checks each of the six fields is within its
    bound. *)
Lemma null_fields_bounded (c1 c2 c3 c4 c5 c6 : nat) (r : row) :
  let r' := null_fields c1 c2 c3 c4 c5 c6 r in
  bounded 255 (cell_at c1 r') /\ bounded 18 (cell_at c2 r') /\
  bounded 5 (cell_at c3 r') /\ bounded 255 (cell_at c4 r') /\
  bounded 5 (cell_at c5 r') /\ bounded 5 (cell_at c6 r').
Proof.
  cbv zeta. repeat split; bounded_cell.
Qed.

Lemma bounded_text (n : nat) (c : cell) :
  bounded n c -> c <> Null -> exists s, c = Str s /\ String.length s <= n.
Proof. intros [-> | H] Hn; [contradiction | exact H]. Qed.

Lemma pandas_bounds_after_validation (df out : frame) :
  Pandas.validate_data df = Ok out ->
  fields_within_bounds Pandas.column "Customer_Id" out.
Proof.
  unfold Pandas.validate_data, fields_within_bounds. intros H. bind_inv H.
  apply pandas_null_long_fields_inv in Hx.
  destruct Hx as (c1 & c2 & c3 & c4 & c5 & c6 & H1 & H2 & H3 & H4 & H5
                  & H6 & Hc & Hr).
  apply pandas_drop_incomplete in H.
  destruct H as (n & i & o & Hn & Hi & _ & Hc' & Hr').
  unfold Pandas.column in *. rewrite Hc in Hn, Hi.
  assert (n = c1) by congruence. assert (i = c2) by congruence. subst n i.
  exists c1, c2, c3, c4, c5, c6. rewrite Hc', Hc.
  repeat (split; [assumption |]).
  intros r Hin. rewrite Hr' in Hin. apply filter_In in Hin.
  destruct Hin as [Hin Hcomp]. apply complete_spec in Hcomp.
  destruct Hcomp as (Nn & Ni & _).
  rewrite Hr in Hin. apply in_map_iff in Hin.
  destruct Hin as (r0 & <- & _).
  destruct (null_fields_bounded c1 c2 c3 c4 c5 c6 r0)
    as (B1 & B2 & B3 & B4 & B5 & B6).
  repeat split; try assumption; apply bounded_text; assumption.
Qed.

Lemma spark_bounds_after_validation (data out : frame) :
  Spark.validate_data data = Ok out ->
  fields_within_bounds Spark.column "Customer_ID" out.
Proof.
  unfold Spark.validate_data, fields_within_bounds. intros H. bind_inv H.
  apply spark_null_long_fields_inv in Hx.
  destruct Hx as (c1 & c2 & c3 & c4 & c5 & c6 & H1 & H2 & H3 & H4 & H5
                  & H6 & _ & Hc & Hr).
  apply spark_drop_incomplete in H.
  destruct H as (n & i & o & Hn & Hi & _ & Hc' & Hr').
  rewrite Hc in Hn, Hi.
  assert (n = c1) by congruence. assert (i = c2) by congruence. subst n i.
  assert (Hres : forall name, Spark.column name out = Spark.column name data).
  { intros name. rewrite <- Hc. unfold Spark.column. rewrite Hc'.
    reflexivity. }
  exists c1, c2, c3, c4, c5, c6. rewrite !Hres.
  repeat (split; [assumption |]).
  intros r Hin. rewrite Hr' in Hin. apply filter_In in Hin.
  destruct Hin as [Hin Hcomp]. apply complete_spec in Hcomp.
  destruct Hcomp as (Nn & Ni & _).
  rewrite Hr in Hin. apply in_map_iff in Hin.
  destruct Hin as (r0 & <- & _).
  destruct (null_fields_bounded c1 c2 c3 c4 c5 c6 r0)
    as (B1 & B2 & B3 & B4 & B5 & B6).
  repeat split; try assumption; apply bounded_text; assumption.
Qed.

(** X5: in a validated frame every length-checked field is within its
    bound: [Customer_Name] is a text of at most 255 characters and the
    customer identifier one of at most 18, and [Vaccination_Id],
    [Dr_Name], [State] and [Country] are null or within 5, 255, 5 and 5
    characters.  In both scripts. *)
Theorem validated_fields_are_within_bounds :
  (forall df out,
      Pandas.validate_data df = Ok out ->
      fields_within_bounds Pandas.column "Customer_Id" out) /\
  (forall data out,
      Spark.validate_data data = Ok out ->
      fields_within_bounds Spark.column "Customer_ID" out).
Proof.
  split; [exact pandas_bounds_after_validation
         | exact spark_bounds_after_validation].
Qed.

Lemma validated_fields_on_sample :
  (Pandas.validate_data pandas_parsed = Ok pandas_validated /\
   fields_within_bounds Pandas.column "Customer_Id" pandas_validated) /\
  (Spark.validate_data spark_parsed = Ok spark_validated /\
   fields_within_bounds Spark.column "Customer_ID" spark_validated).
Proof.
  split; (split; [vm_compute; reflexivity |]).
  - apply (proj1 validated_fields_are_within_bounds pandas_parsed).
    vm_compute. reflexivity.
  - apply (proj2 validated_fields_are_within_bounds spark_parsed).
    vm_compute. reflexivity.
Defined.

(** ** Which rows validation keeps *)

Lemma filter_map_commute (A B : Type) (p : B -> bool) (f : A -> B)
    (l : list A) :
  filter p (map f l) = map f (filter (fun x => p (f x)) l).
Proof.
  induction l as [| a l IH]; simpl; [reflexivity |].
  destruct (p (f a)); simpl; rewrite IH; reflexivity.
Qed.

Ltac apart :=
  match goal with
  | H : NoDup _ |- ?a <> ?b =>
      let E := fresh in
      intros E; subst;
      repeat match goal with
             | N : NoDup (_ :: _) |- _ => inversion N; clear N; subst
             end;
      simpl in *; tauto
  end.

(** With the seven columns apart, the mandatory fields of a row after
    the length checks are those of the row before them, the name and
    the identifier checked. *)
Lemma complete_after_null_fields (c1 c2 c3 c4 c5 c6 o : nat) (r : row) :
  NoDup [o; c1; c2; c3; c4; c5; c6] ->
  complete c1 c2 o (null_fields c1 c2 c3 c4 c5 c6 r) = admissible c1 c2 o r.
Proof.
  intros N. unfold complete, admissible, null_fields.
  assert (E1 : cell_at c1
                 (map_at c6 (Pandas.within 5)
                 (map_at c5 (Pandas.within 5)
                 (map_at c4 (Pandas.within 255)
                 (map_at c3 (Pandas.within 5)
                 (map_at c2 (Pandas.within 18)
                 (map_at c1 (Pandas.within 255) r))))))
               = Pandas.within 255 (cell_at c1 r)).
  { rewrite !(cell_at_map_at_other _ _ c1 c6) by apart.
    rewrite !(cell_at_map_at_other _ _ c1 c5) by apart.
    rewrite !(cell_at_map_at_other _ _ c1 c4) by apart.
    rewrite !(cell_at_map_at_other _ _ c1 c3) by apart.
    rewrite !(cell_at_map_at_other _ _ c1 c2) by apart.
    apply cell_at_map_at_same. reflexivity. }
  assert (E2 : cell_at c2
                 (map_at c6 (Pandas.within 5)
                 (map_at c5 (Pandas.within 5)
                 (map_at c4 (Pandas.within 255)
                 (map_at c3 (Pandas.within 5)
                 (map_at c2 (Pandas.within 18)
                 (map_at c1 (Pandas.within 255) r))))))
               = Pandas.within 18 (cell_at c2 r)).
  { rewrite !(cell_at_map_at_other _ _ c2 c6) by apart.
    rewrite !(cell_at_map_at_other _ _ c2 c5) by apart.
    rewrite !(cell_at_map_at_other _ _ c2 c4) by apart.
    rewrite !(cell_at_map_at_other _ _ c2 c3) by apart.
    rewrite cell_at_map_at_same by reflexivity.
    rewrite (cell_at_map_at_other _ _ c2 c1) by apart. reflexivity. }
  assert (E3 : cell_at o
                 (map_at c6 (Pandas.within 5)
                 (map_at c5 (Pandas.within 5)
                 (map_at c4 (Pandas.within 255)
                 (map_at c3 (Pandas.within 5)
                 (map_at c2 (Pandas.within 18)
                 (map_at c1 (Pandas.within 255) r))))))
               = cell_at o r).
  { rewrite (cell_at_map_at_other _ _ o c6) by apart.
    rewrite (cell_at_map_at_other _ _ o c5) by apart.
    rewrite (cell_at_map_at_other _ _ o c4) by apart.
    rewrite (cell_at_map_at_other _ _ o c3) by apart.
    rewrite (cell_at_map_at_other _ _ o c2) by apart.
    rewrite (cell_at_map_at_other _ _ o c1) by apart. reflexivity. }
  rewrite E1, E2, E3. reflexivity.
Qed.

(** Columns resolved under pairwise different names are pairwise
    different. *)
Lemma resolved_apart (same : string -> string -> bool) (cols : list string) :
  forall (names : list string) (at_ : list nat),
    Forall2 (fun name j => resolve same name cols = Ok j) names at_ ->
    ForallOrdPairs
      (fun a b => forall c, same a c = true -> same b c = true -> False)
      names ->
    NoDup at_.
Proof.
  induction 1 as [| name j names at_ Hj Hrest IH]; intros Hp;
    [constructor |].
  inversion Hp as [| ? ? Hhead Htail]; subst.
  constructor; [| apply IH; exact Htail].
  intros Hin.
  clear IH Htail Hp. induction Hrest as [| name' j' names at_ Hj' _ IH];
    [contradiction |].
  inversion Hhead as [| ? ? Hd Hd']; subst.
  destruct Hin as [-> | Hin].
  - exact (resolve_apart same name name' cols j j Hd Hj Hj' eq_refl).
  - apply IH; assumption.
Qed.

Lemma pandas_validated_from (df out : frame) :
  Pandas.validate_data df = Ok out ->
  validated_from Pandas.column "Customer_Id" df out.
Proof.
  unfold Pandas.validate_data, validated_from. intros H. bind_inv H.
  apply pandas_null_long_fields_inv in Hx.
  destruct Hx as (c1 & c2 & c3 & c4 & c5 & c6 & H1 & H2 & H3 & H4 & H5
                  & H6 & Hc & Hr).
  apply pandas_drop_incomplete in H.
  destruct H as (n & i & o & Hn & Hi & Ho & Hc' & Hr').
  unfold Pandas.column in *. rewrite Hc in Hn, Hi, Ho.
  assert (n = c1) by congruence. assert (i = c2) by congruence. subst n i.
  exists c1, c2, c3, c4, c5, c6, o.
  repeat (split; [assumption |]).
  rewrite Hr', Hr, filter_map_commute. f_equal.
  apply filter_ext. intros r. apply complete_after_null_fields.
  apply (resolved_apart String.eqb (columns df)
           ["Open_Date"; "Customer_Name"; "Customer_Id"; "Vaccination_Id";
            "Dr_Name"; "State"; "Country"]).
  - repeat (constructor; [assumption |]). constructor.
  - repeat (constructor;
            [repeat (constructor;
                     [intros c; apply pandas_names_apart; discriminate |]);
             constructor |]).
    constructor.
Qed.

Lemma spark_validated_from (data out : frame) :
  Spark.validate_data data = Ok out ->
  validated_from Spark.column "Customer_ID" data out.
Proof.
  unfold Spark.validate_data, validated_from. intros H. bind_inv H.
  apply spark_null_long_fields_inv in Hx.
  destruct Hx as (c1 & c2 & c3 & c4 & c5 & c6 & H1 & H2 & H3 & H4 & H5
                  & H6 & _ & Hc & Hr).
  apply spark_drop_incomplete in H.
  destruct H as (n & i & o & Hn & Hi & Ho & Hc' & Hr').
  rewrite Hc in Hn, Hi, Ho.
  assert (n = c1) by congruence. assert (i = c2) by congruence. subst n i.
  exists c1, c2, c3, c4, c5, c6, o.
  repeat (split; [assumption |]).
  rewrite Hr', Hr, filter_map_commute. f_equal.
  apply filter_ext. intros r. apply complete_after_null_fields.
  apply (resolved_apart Spark.same_name (columns data)
           ["Open_Date"; "Customer_Name"; "Customer_ID"; "Vaccination_Id";
            "Dr_Name"; "State"; "Country"]).
  - repeat (constructor; [assumption |]). constructor.
  - repeat (constructor;
            [repeat (constructor;
                     [intros c; apply spark_names_apart;
                      vm_compute; discriminate |]);
             constructor |]).
    constructor.
Qed.



(** ** A file without data lines *)

Lemma pandas_read_csv_records (lines : list string) (width : nat)
    (data : list row) :
  Pandas.read_csv lines = Ok (width, data) ->
  Forall2 (fun l r => Pandas.read_record width l = Ok r) (records lines) data.
Proof.
  unfold Pandas.read_csv. fold (records lines).
  destruct (records lines) as [| first rest] eqn:E; [discriminate |].
  intros H. bind_inv H. apply ok_inj in H.
  assert (Hw : length (Text.split pipe first) = width) by congruence.
  assert (Hd : x = data) by congruence.
  subst width data. apply mapM_inv. exact Hx.
Qed.

Lemma filter_In_records (lines : list string) (l : string) :
  In l (records lines) -> In l lines.
Proof. unfold records. intros H. apply filter_In in H. apply H. Qed.

(** Without a record tagged [D], pandas' selection of the data rows is
    empty. *)
Lemma pandas_no_data_rows (lines : list string) (width : nat)
    (data : list row) :
  Forall (fun l => tag l <> Some "D") lines ->
  Pandas.read_csv lines = Ok (width, data) ->
  filter (fun r => cell_eqb (cell_at 1 r) (Str "D")) data = [].
Proof.
  intros Hno H. apply pandas_read_csv_records in H.
  assert (Hrec : Forall (fun l => tag l <> Some "D") (records lines)).
  { rewrite Forall_forall in *. intros l Hl. apply Hno.
    apply filter_In_records. exact Hl. }
  clear Hno. induction H as [| l r ls rs Hr _ IH]; [reflexivity |].
  inversion Hrec as [| ? ? Hl Hls]; subst.
  cbn [filter].
  destruct (cell_eqb (cell_at 1 r) (Str "D")) eqn:E.
  - apply (pandas_data_by_tag width l r Hr) in E. contradiction.
  - apply IH. exact Hls.
Qed.

Lemma spark_no_data_rows (lines : list string) :
  Forall (fun l => tag l <> Some "D") lines ->
  filter (fun l => Text.startswith l "|D|") lines = [].
Proof.
  induction 1 as [| l ls Hl _ IH]; [reflexivity |].
  cbn [filter].
  destruct (Text.startswith l "|D|") eqn:E; [| exact IH].
  apply (tag_of_prefixed "D"%char) in E; [contradiction | discriminate].
Qed.

Lemma assign_no_rows (same : string -> string -> bool) (name : string)
    (g : row -> cell) (df : frame) :
  rows df = [] -> rows (assign same name g df) = [].
Proof.
  intros H. apply length_zero_iff_nil. rewrite assign_length, H.
  reflexivity.
Qed.

Lemma pandas_no_rows_no_table (now : date) (fails : string -> bool)
    (staging_df : frame) :
  rows staging_df = [] ->
  written (Pandas.create_and_populate_country_tables now fails staging_df)
    = [].
Proof.
  intros H. unfold Pandas.create_and_populate_country_tables.
  destruct (Pandas.global_latest_records staging_df) as [latest | e];
    [| reflexivity].
  cbn [bind]. unfold Pandas.countries.
  destruct (Pandas.column "Country" staging_df) as [c | e]; [| reflexivity].
  cbn [bind]. rewrite H. reflexivity.
Qed.

Lemma spark_no_rows_no_table (fails : string -> bool) (latest_data : frame) :
  rows latest_data = [] ->
  written (Spark.save_country_data fails latest_data) = [].
Proof.
  intros H. unfold Spark.save_country_data, Spark.countries.
  destruct (Spark.column "Country" latest_data) as [c | e]; [| reflexivity].
  cbn [bind]. rewrite H. reflexivity.
Qed.

Lemma pandas_no_data_nothing_written (now : date) (fails : string -> bool)
    (lines : list string) :
  Forall (fun l => tag l <> Some "D") lines ->
  written (Pandas.main now fails lines) = [].
Proof.
  intros Hno. unfold Pandas.main.
  destruct (header <- Pandas.extract_header lines ;;
            Pandas.process_and_load_staging lines header)
    as [staging_df | e] eqn:E; [| reflexivity].
  apply pandas_no_rows_no_table.
  bind_inv E. unfold Pandas.process_and_load_staging in E. bind_inv E.
  apply pandas_load_staging_inv in Hx0.
  destruct Hx0 as (width & data & Hread & _ & Hconv).
  rewrite (pandas_no_data_rows lines width data Hno Hread) in Hconv.
  apply pandas_convert_dates_inv in Hconv.
  destruct Hconv as (o & l & b & _ & _ & _ & _ & Hrows).
  cbn [rows map] in Hrows.
  apply pandas_validated_from in E.
  destruct E as (c1 & c2 & c3 & c4 & c5 & c6 & o' & _ & _ & _ & _ & _ & _
                 & _ & Hout).
  rewrite Hout, Hrows. reflexivity.
Qed.

Lemma spark_no_data_nothing_written (now : date) (fails : string -> bool)
    (lines : list string) :
  Forall (fun l => tag l <> Some "D") lines ->
  written (Spark.main now fails lines) = [].
Proof.
  intros Hno. unfold Spark.main.
  destruct (header <- Spark.extract_header lines ;;
            data <- Spark.convert_dates (Spark.process_data lines header) ;;
            data <- Spark.validate_data data ;;
            latest_data <- Spark.get_latest_data data ;;
            Spark.add_derived_columns now latest_data)
    as [latest_data | e] eqn:E; [| reflexivity].
  apply spark_no_rows_no_table.
  bind_inv E. bind_inv E. bind_inv E. bind_inv E.
  apply spark_convert_dates_inv in Hx0.
  destruct Hx0 as (o & l & b & _ & _ & _ & _ & Hrows).
  unfold Spark.process_data in Hrows. cbn [rows] in Hrows.
  rewrite (spark_no_data_rows lines Hno) in Hrows. cbn [map] in Hrows.
  apply spark_validated_from in Hx1.
  destruct Hx1 as (c1 & c2 & c3 & c4 & c5 & c6 & o' & _ & _ & _ & _ & _ & _
                   & _ & Hval).
  rewrite Hrows in Hval. cbn [filter map] in Hval.
  unfold Spark.get_latest_data in Hx2. bind_inv Hx2. bind_inv Hx2.
  destruct (1 <? length (positions Spark.same_name "row_number"
                           (columns x1) 0))%nat; [discriminate |].
  apply ok_inj in Hx2. subst x2.
  unfold Spark.add_derived_columns in E. bind_inv E. bind_inv E.
  apply ok_inj in E. subst latest_data.
  repeat apply assign_no_rows. cbn [rows Spark.drop]. rewrite Hval.
  reflexivity.
Qed.

(** X7: a file in which no line has [D] as its second token yields no
    table, in either script, whatever its header, the clock and the
    storage: the staging frame is empty, so no country is found and
    the loop over the countries does not run. *)
Theorem no_data_line_nothing_written (now : date) (fails : string -> bool)
    (lines : list string) :
  Forall (fun l => tag l <> Some "D") lines ->
  written (Pandas.main now fails lines) = [] /\
  written (Spark.main now fails lines) = [].
Proof.
  intros Hno. split.
  - apply pandas_no_data_nothing_written. exact Hno.
  - apply spark_no_data_nothing_written. exact Hno.
Qed.

Lemma no_data_on_header_only :
  Forall (fun l => tag l <> Some "D") [sample_header] /\
  Pandas.main today storage_ok [sample_header] = mkoutcome [] (Ok tt) /\
  Spark.main today storage_ok [sample_header] = mkoutcome [] (Ok tt) /\
  written (Pandas.main today storage_ok [sample_header]) = [] /\
  written (Spark.main today storage_ok [sample_header]) = [].
Proof.
  assert (H : Forall (fun l => tag l <> Some "D") [sample_header])
    by (repeat constructor; vm_compute; discriminate).
  split; [exact H |].
  split; [vm_compute; reflexivity |].
  split; [vm_compute; reflexivity |].
  exact (no_data_line_nothing_written today storage_ok [sample_header] H).
Defined.

(** ** The derived columns *)

Lemma assign_fresh (same : string -> string -> bool) (name : string)
    (g : row -> cell) (df : frame) :
  existsb (same name) (columns df) = false ->
  assign same name g df =
  mkframe (columns df ++ [name]) (map (fun r => r ++ [g r]) (rows df)).
Proof. intros H. unfold assign. rewrite H. reflexivity. Qed.

Lemma cell_at_app_left (r x : row) (k : nat) :
  k < length r -> cell_at k (r ++ x) = cell_at k r.
Proof. intros H. unfold cell_at. apply app_nth1. exact H. Qed.

Lemma cell_at_app_right (r x : row) (k : nat) :
  cell_at (length r + k) (r ++ x) = cell_at k x.
Proof. unfold cell_at. apply app_nth2_plus. Qed.

Lemma resolve_lt (same : string -> string -> bool) (name : string)
    (cols : list string) (i : nat) :
  resolve same name cols = Ok i -> i < length cols.
Proof.
  intros H. apply resolve_nth in H. destruct H as (c & Hc & _).
  apply nth_error_Some. congruence.
Qed.

(** A name resolves among more columns as it did, when none of the new
    ones answers to it. *)
Lemma resolve_app_fresh (same : string -> string -> bool) (name : string)
    (cols extra : list string) :
  existsb (same name) extra = false ->
  resolve same name (cols ++ extra) = resolve same name cols.
Proof.
  intros H. unfold resolve.
  rewrite positions_app, (positions_none same name extra _ H), app_nil_r.
  reflexivity.
Qed.

(** A name appended to columns none of which answers to it resolves to
    the new, last column. *)
Lemma resolve_appended (same : string -> string -> bool) (name : string)
    (cols : list string) :
  existsb (same name) cols = false -> same name name = true ->
  resolve same name (cols ++ [name]) = Ok (length cols).
Proof.
  intros H Hn. unfold resolve.
  rewrite positions_app, (positions_none same name cols _ H).
  cbn [positions app]. rewrite Hn. reflexivity.
Qed.

Lemma pandas_country_table_derived (now : date) (latest : frame)
    (country : cell) (path : string) (table : frame) :
  rectangular latest ->
  Forall (fun n => existsb (String.eqb n) (columns latest) = false)
         derived_names ->
  Pandas.country_table now latest country = Ok (path, table) ->
  exists c b l,
    Pandas.column "Country" latest = Ok c /\
    Pandas.column "DOB" latest = Ok b /\
    Pandas.column "Last_Consulted_Date" latest = Ok l /\
    path = Pandas.output_path country /\
    columns table = columns latest ++ derived_names /\
    rows table =
      map (pandas_derived now b l)
          (filter (fun r => equals country (cell_at c r)) (rows latest)).
Proof.
  intros Hrect Hfresh H.
  inversion Hfresh as [| ? ? Hage Hfresh']; subst.
  inversion Hfresh' as [| ? ? Hdays Hfresh'']; subst.
  inversion Hfresh'' as [| ? ? Hflag _]; subst.
  clear Hfresh Hfresh' Hfresh''.
  unfold Pandas.country_table in H.
  bind_inv H. rename x into c, Hx into Hc.
  bind_inv H. rename x into b, Hx into Hb.
  cbv zeta in H.
  rewrite assign_fresh in H by exact Hage.
  bind_inv H. rename x into l, Hx into Hl.
  unfold Pandas.column in Hb, Hl. cbn [columns rows] in Hb, Hl, H.
  rewrite resolve_app_fresh in Hl by reflexivity.
  rewrite assign_fresh in H
    by (cbn [columns]; rewrite existsb_app, Hdays; reflexivity).
  bind_inv H. rename x into d, Hx into Hd.
  unfold Pandas.column in Hd. cbn [columns rows] in Hd, H.
  rewrite resolve_appended in Hd
    by (rewrite ?existsb_app, ?Hdays; reflexivity).
  assert (d = length (columns latest) + 1).
  { apply ok_inj in Hd. rewrite <- Hd, length_app. reflexivity. }
  subst d. clear Hd.
  rewrite assign_fresh in H
    by (cbn [columns]; rewrite !existsb_app, Hflag; reflexivity).
  cbn [columns rows] in H.
  apply ok_inj in H.
  assert (Hp : path = Pandas.output_path country) by congruence.
  assert (Ht : table =
               mkframe (((columns latest ++ ["Age"]) ++
                          ["Days_Since_Last_Consulted"]) ++
                         ["Consulted_Recently"])
                 (map (fun r => r ++ [Pandas.consulted_recently
                                        (cell_at (length (columns latest) + 1)
                                           r)])
                    (map (fun r => r ++ [Pandas.days_since now (cell_at l r)])
                       (map (fun r => r ++ [Pandas.age now (cell_at b r)])
                          (filter (fun r => equals country (cell_at c r))
                             (rows latest)))))) by congruence.
  clear H. exists c, b, l.
  repeat (split; [assumption |]). subst table. cbn [columns rows]. split.
  - rewrite <- !app_assoc. reflexivity.
  - rewrite !map_map. apply map_ext_in. intros r Hin.
    apply filter_In in Hin. destruct Hin as [Hin _].
    pose proof (Hrect r Hin) as Hlen.
    pose proof (resolve_lt _ _ _ _ Hl) as Hl'.
    unfold pandas_derived.
    rewrite (cell_at_app_left r _ l) by lia.
    rewrite <- Hlen.
    replace (length r + 1)
      with (length (r ++ [Pandas.age now (cell_at b r)]) + 0)
      by (rewrite length_app; cbn [length]; lia).
    rewrite cell_at_app_right. cbn [cell_at nth].
    rewrite <- !app_assoc. reflexivity.
Qed.

Lemma spark_add_derived_columns_derived (now : date) (latest out : frame) :
  rectangular latest ->
  Forall (fun n => existsb (Spark.same_name n) (columns latest) = false)
         derived_names ->
  Spark.add_derived_columns now latest = Ok out ->
  exists b l,
    Spark.column "DOB" latest = Ok b /\
    Spark.column "Last_Consulted_Date" latest = Ok l /\
    columns out = columns latest ++ derived_names /\
    rows out = map (spark_derived now b l) (rows latest).
Proof.
  intros Hrect Hfresh H.
  inversion Hfresh as [| ? ? Hage Hfresh']; subst.
  inversion Hfresh' as [| ? ? Hdays Hfresh'']; subst.
  inversion Hfresh'' as [| ? ? Hflag _]; subst.
  clear Hfresh Hfresh' Hfresh''.
  unfold Spark.add_derived_columns in H.
  bind_inv H. rename x into b, Hx into Hb.
  bind_inv H. rename x into l, Hx into Hl.
  cbv zeta in H.
  rewrite (assign_fresh Spark.same_name "Age") in H by exact Hage.
  rewrite (assign_fresh Spark.same_name "Days_Since_Last_Consulted") in H
    by (cbn [columns]; rewrite existsb_app, Hdays; reflexivity).
  rewrite (assign_fresh Spark.same_name "Consulted_Recently") in H
    by (cbn [columns]; rewrite !existsb_app, Hflag; reflexivity).
  cbn [columns rows] in H. apply ok_inj in H. subst out.
  exists b, l. repeat (split; [assumption |]). cbn [columns rows]. split.
  - rewrite <- !app_assoc. reflexivity.
  - rewrite !map_map. apply map_ext_in. intros r Hin.
    pose proof (Hrect r Hin) as Hlen.
    pose proof (resolve_lt _ _ _ _ Hl) as Hl'.
    unfold spark_derived.
    rewrite (cell_at_app_left (r ++ _) _ l)
      by (rewrite length_app; lia).
    rewrite (cell_at_app_left r _ l) by lia.
    rewrite <- !app_assoc. reflexivity.
Qed.

(** X8: on a frame that has none of [Age], [Days_Since_Last_Consulted]
    and [Consulted_Recently] among its columns, the derived columns are
    three new columns at the end, in that order, and no other cell of a
    row changes; the three values of a row are computed from its [DOB]
    and its [Last_Consulted_Date].  For the table pandas builds of a
    country, and for [add_derived_columns] in PySpark. *)
Theorem derived_columns_are_appended :
  (forall now latest country path table,
      rectangular latest ->
      Forall (fun n => existsb (String.eqb n) (columns latest) = false)
             derived_names ->
      Pandas.country_table now latest country = Ok (path, table) ->
      exists c b l,
        Pandas.column "Country" latest = Ok c /\
        Pandas.column "DOB" latest = Ok b /\
        Pandas.column "Last_Consulted_Date" latest = Ok l /\
        path = Pandas.output_path country /\
        columns table = columns latest ++ derived_names /\
        rows table =
          map (pandas_derived now b l)
              (filter (fun r => equals country (cell_at c r))
                      (rows latest))) /\
  (forall now latest out,
      rectangular latest ->
      Forall (fun n => existsb (Spark.same_name n) (columns latest) = false)
             derived_names ->
      Spark.add_derived_columns now latest = Ok out ->
      exists b l,
        Spark.column "DOB" latest = Ok b /\
        Spark.column "Last_Consulted_Date" latest = Ok l /\
        columns out = columns latest ++ derived_names /\
        rows out = map (spark_derived now b l) (rows latest)).
Proof.
  split.
  - exact pandas_country_table_derived.
  - exact spark_add_derived_columns_derived.
Qed.

Lemma derived_columns_on_sample :
  (exists c b l,
      Pandas.column "Country" pandas_latest = Ok c /\
      Pandas.column "DOB" pandas_latest = Ok b /\
      Pandas.column "Last_Consulted_Date" pandas_latest = Ok l /\
      "output/Table_USA.csv" = Pandas.output_path (Str "USA") /\
      columns pandas_usa_table = columns pandas_latest ++ derived_names /\
      rows pandas_usa_table =
        map (pandas_derived today b l)
            (filter (fun r => equals (Str "USA") (cell_at c r))
                    (rows pandas_latest))) /\
  (exists b l,
      Spark.column "DOB" spark_canonical = Ok b /\
      Spark.column "Last_Consulted_Date" spark_canonical = Ok l /\
      columns spark_latest = columns spark_canonical ++ derived_names /\
      rows spark_latest = map (spark_derived today b l) (rows spark_canonical)).
Proof.
  split.
  - apply (proj1 derived_columns_are_appended today pandas_latest (Str "USA")
             "output/Table_USA.csv" pandas_usa_table).
    + unfold rectangular. apply Forall_forall. repeat constructor.
    + repeat constructor.
    + vm_compute. reflexivity.
  - apply (proj2 derived_columns_are_appended today spark_canonical
             spark_latest).
    + unfold rectangular. apply Forall_forall. repeat constructor.
    + repeat constructor.
    + vm_compute. reflexivity.
Defined.

(** ** The tables PySpark writes *)

Lemma for_each_country_done (body : cell -> result (string * frame))
    (fails : string -> bool) (cs : list cell) :
  status (for_each_country body fails cs) = Ok tt ->
  Forall2 (fun c w => body c = Ok w) cs
          (written (for_each_country body fails cs)).
Proof.
  induction cs as [| c cs IH]; cbn [for_each_country written status];
    [constructor |].
  destruct (body c) as [[path table] | e] eqn:E;
    cbn [written status]; [| discriminate].
  destruct (fails path); cbn [written status]; [discriminate |].
  intros H. constructor; [exact E | apply IH; exact H].
Qed.

Lemma spark_save_each_done (fails : string -> bool) (latest : frame)
    (cs : list cell) :
  status (Spark.save_each fails latest cs) = Ok tt ->
  Forall2 (fun c w => Spark.country_table latest c = Ok w) cs
          (written (Spark.save_each fails latest cs)).
Proof.
  induction cs as [| c cs IH]; cbn [Spark.save_each written status];
    [constructor |].
  destruct (Spark.country_table latest c) as [[path table] | e] eqn:E;
    cbn [written status]; [| discriminate].
  destruct (fails path); cbn [written status]; [discriminate |].
  destruct (fails (Spark.create_table c)); cbn [written status];
    [discriminate |].
  intros H. constructor; [exact E | apply IH; exact H].
Qed.

Lemma equals_spec (country x : cell) :
  equals country x = true <-> country <> Null /\ x = country.
Proof.
  unfold equals. destruct country as [| s | d | z].
  - split; [discriminate | intros [H _]; contradiction].
  - rewrite cell_eqb_eq. split; [intros ->; split; [discriminate | reflexivity]
                                | intros [_ H]; exact H].
  - rewrite cell_eqb_eq. split; [intros ->; split; [discriminate | reflexivity]
                                | intros [_ H]; exact H].
  - rewrite cell_eqb_eq. split; [intros ->; split; [discriminate | reflexivity]
                                | intros [_ H]; exact H].
Qed.

Lemma spark_country_table_rows (latest : frame) (c : nat) (country : cell)
    (w : string * frame) :
  Spark.column "Country" latest = Ok c ->
  Spark.country_table latest country = Ok w ->
  fst w = Spark.table_path country /\
  columns (snd w) = columns latest /\
  rows_of_country c country latest (snd w).
Proof.
  intros Hc H. unfold Spark.country_table in H. rewrite Hc in H.
  cbn [bind] in H. apply ok_inj in H. subst w. cbn [fst snd columns rows].
  split; [reflexivity |]. split; [reflexivity |].
  unfold rows_of_country. cbn [rows].
  intros r. rewrite filter_In, equals_spec. tauto.
Qed.

(** X9: PySpark takes the countries from the canonical rows themselves,
    so a table it writes for a country holds the canonical rows of that
    country and no other row, under the columns of the frame, and is
    never empty unless the country is null; and when the loop ends
    without an exception, every canonical row with a country is in the
    table of its country. *)
Theorem spark_tables_hold_their_countries (fails : string -> bool)
    (latest : frame) (c : nat) :
  Spark.column "Country" latest = Ok c ->
  (forall path table,
      In (path, table) (written (Spark.save_country_data fails latest)) ->
      exists country,
        path = Spark.table_path country /\
        columns table = columns latest /\
        rows_of_country c country latest table /\
        (country <> Null -> rows table <> [])) /\
  (status (Spark.save_country_data fails latest) = Ok tt ->
   forall r, In r (rows latest) -> cell_at c r <> Null ->
     exists table,
       In (Spark.table_path (cell_at c r), table)
          (written (Spark.save_country_data fails latest)) /\
       In r (rows table)).
Proof.
  intros Hc. unfold Spark.save_country_data, Spark.countries.
  rewrite Hc. cbn [bind]. split.
  - intros path table Hin. apply spark_written_by_the_body in Hin.
    destruct Hin as (country & Hcountry & Hbody).
    destruct (spark_country_table_rows latest c country _ Hc Hbody)
      as (Hp & Hcols & Hrows).
    cbn [fst snd] in *. exists country.
    repeat (split; [assumption |]).
    intros Hnn. apply unique_In, in_map_iff in Hcountry.
    destruct Hcountry as (r & Hr & Hin).
    assert (Hr' : In r (rows table)) by (apply Hrows; auto).
    intros E. rewrite E in Hr'. contradiction.
  - intros Hdone r Hin Hnn. apply spark_save_each_done in Hdone.
    assert (Hk : In (cell_at c r)
                    (unique (map (cell_at c) (rows latest))))
      by (apply unique_In, in_map; exact Hin).
    destruct (written_table _ _ _ _ Hdone Hk) as ([path table] & Hw & Hbody).
    destruct (spark_country_table_rows latest c _ _ Hc Hbody)
      as (Hp & _ & Hrows).
    cbn [fst snd] in *. subst path. exists table.
    split; [exact Hw |]. apply Hrows. auto.
Qed.

Lemma spark_tables_on_sample :
  Spark.column "Country" spark_latest = Ok 7 /\
  (forall path table,
      In (path, table) (written (Spark.save_country_data storage_ok
                                   spark_latest)) ->
      exists country,
        path = Spark.table_path country /\
        columns table = columns spark_latest /\
        rows_of_country 7 country spark_latest table /\
        (country <> Null -> rows table <> [])) /\
  (status (Spark.save_country_data storage_ok spark_latest) = Ok tt ->
   forall r, In r (rows spark_latest) -> cell_at 7 r <> Null ->
     exists table,
       In (Spark.table_path (cell_at 7 r), table)
          (written (Spark.save_country_data storage_ok spark_latest)) /\
       In r (rows table)).
Proof.
  split; [vm_compute; reflexivity |].
  apply (spark_tables_hold_their_countries storage_ok spark_latest 7).
  vm_compute. reflexivity.
Defined.

(** ** The two validations on the same frame *)

Lemma positions_lowercase (name : string) (cols : list string) :
  forall from,
    positions Spark.same_name name cols from =
    positions String.eqb (Text.lowercase name) (map Text.lowercase cols) from.
Proof.
  induction cols as [| c cols IH]; intros from; cbn [positions map];
    [reflexivity |].
  unfold Spark.same_name at 1. rewrite !IH. reflexivity.
Qed.

Lemma existsb_eqb_absent (x : string) (l : list string) :
  ~ In x l -> existsb (String.eqb x) l = false.
Proof.
  intros H. destruct (existsb (String.eqb x) l) eqn:E; [| reflexivity].
  apply existsb_exists in E. destruct E as (y & Hy & Exy).
  apply String.eqb_eq in Exy. subst y. contradiction.
Qed.

(** In a list without duplicates an element is found once, where it
    is. *)
Lemma positions_NoDup (x : string) (l : list string) :
  NoDup l ->
  forall j from,
    nth_error l j = Some x -> positions String.eqb x l from = [from + j].
Proof.
  induction 1 as [| c l Hc _ IH]; intros j from Hj;
    [destruct j; discriminate |].
  cbn [positions]. destruct j as [| j]; cbn [nth_error] in Hj.
  - assert (c = x) by congruence. subst c.
    rewrite String.eqb_refl, Nat.add_0_r.
    rewrite (positions_none String.eqb x l (S from)
               (existsb_eqb_absent x l Hc)).
    reflexivity.
  - destruct (String.eqb_spec x c) as [-> | _].
    + exfalso. apply Hc. apply nth_error_In in Hj. exact Hj.
    + rewrite (IH j (S from) Hj). f_equal. lia.
Qed.

(** Where the names of a frame stay apart when case is ignored, PySpark
    resolves a name, however the script spells it, to the column pandas
    resolves the exact name to. *)
Lemma spark_resolves_like_pandas (name name' : string) (cols : list string)
    (j : nat) :
  NoDup (map Text.lowercase cols) ->
  Text.lowercase name' = Text.lowercase name ->
  resolve String.eqb name cols = Ok j ->
  resolve Spark.same_name name' cols = Ok j.
Proof.
  intros Hnd Hname H. apply resolve_nth in H.
  destruct H as (c & Hc & Ec). apply String.eqb_eq in Ec. subst c.
  unfold resolve. rewrite positions_lowercase, Hname.
  rewrite (positions_NoDup _ _ Hnd j 0); [reflexivity |].
  apply map_nth_error. exact Hc.
Qed.

Lemma spark_require_ok (name : string) (df : frame) (j : nat) :
  Spark.column name df = Ok j ->
  exists out,
    Spark.require name df = Ok out /\
    forall other, Spark.column other out = Spark.column other df.
Proof.
  intros H. unfold Spark.require. rewrite H. cbn [bind].
  eexists. split; [reflexivity |]. intros other. reflexivity.
Qed.

Ltac next_column E R :=
  match goal with
  | |- exists _, bind (Spark.with_column ?name ?f ?df) _ = _ =>
      match goal with
      | H : Spark.column name df = Ok ?j |- _ =>
          let d := fresh "d" in
          destruct (spark_with_column_ok name f df j H) as (d & E & _ & R);
          rewrite E; cbn [bind]
      end
  | |- exists _, Spark.with_column ?name ?f ?df = _ =>
      match goal with
      | H : Spark.column name df = Ok ?j |- _ =>
          let d := fresh "d" in
          destruct (spark_with_column_ok name f df j H) as (d & E & _ & R);
          exists d; exact E
      end
  end.

Lemma spark_null_long_fields_ok (df : frame) (c1 c2 c3 c4 c5 c6 : nat) :
  Spark.column "Customer_Name" df = Ok c1 ->
  Spark.column "Customer_ID" df = Ok c2 ->
  Spark.column "Vaccination_Id" df = Ok c3 ->
  Spark.column "Dr_Name" df = Ok c4 ->
  Spark.column "State" df = Ok c5 ->
  Spark.column "Country" df = Ok c6 ->
  exists out, Spark.null_long_fields df = Ok out.
Proof.
  intros H1 H2 H3 H4 H5 H6. unfold Spark.null_long_fields.
  next_column E1 R1. rewrite <- R1 in H2, H3, H4, H5, H6.
  next_column E2 R2. rewrite <- R2 in H3, H4, H5, H6.
  next_column E3 R3. rewrite <- R3 in H4, H5, H6.
  next_column E4 R4. rewrite <- R4 in H5, H6.
  next_column E5 R5. rewrite <- R5 in H6.
  next_column E6 R6.
Qed.

Lemma spark_drop_incomplete_ok (df : frame) (n i o : nat) :
  Spark.column "Customer_Name" df = Ok n ->
  Spark.column "Customer_ID" df = Ok i ->
  Spark.column "Open_Date" df = Ok o ->
  exists out, Spark.drop_incomplete df = Ok out.
Proof.
  intros Hn Hi Ho. unfold Spark.drop_incomplete.
  destruct (spark_require_ok _ df n Hn) as (d1 & E1 & R1).
  rewrite E1. cbn [bind]. rewrite <- R1 in Hi, Ho.
  destruct (spark_require_ok _ d1 i Hi) as (d2 & E2 & R2).
  rewrite E2. cbn [bind]. rewrite <- R2 in Ho.
  destruct (spark_require_ok _ d2 o Ho) as (d3 & E3 & _).
  exists d3. exact E3.
Qed.

Lemma spark_validate_data_ok (df : frame) (c1 c2 c3 c4 c5 c6 o : nat) :
  Spark.column "Customer_Name" df = Ok c1 ->
  Spark.column "Customer_ID" df = Ok c2 ->
  Spark.column "Vaccination_Id" df = Ok c3 ->
  Spark.column "Dr_Name" df = Ok c4 ->
  Spark.column "State" df = Ok c5 ->
  Spark.column "Country" df = Ok c6 ->
  Spark.column "Open_Date" df = Ok o ->
  exists out, Spark.validate_data df = Ok out.
Proof.
  intros H1 H2 H3 H4 H5 H6 Ho. unfold Spark.validate_data.
  destruct (spark_null_long_fields_ok df c1 c2 c3 c4 c5 c6 H1 H2 H3 H4 H5 H6)
    as (nulled & E).
  rewrite E. cbn [bind].
  apply spark_null_long_fields_inv in E.
  destruct E as (_ & _ & _ & _ & _ & _ & _ & _ & _ & _ & _ & _ & _ & R & _).
  apply (spark_drop_incomplete_ok nulled c1 c2 o); rewrite R; assumption.
Qed.

(** X10: on a frame whose column names stay apart when case is ignored,
    whatever pandas' [validate_data] accepts PySpark's accepts too, and
    the two keep the same rows with the same cells: the two functions
    differ in how they spell and resolve the identifier column, not in
    what they check. *)
Theorem validations_agree (df out : frame) :
  NoDup (map Text.lowercase (columns df)) ->
  Pandas.validate_data df = Ok out ->
  exists out',
    Spark.validate_data df = Ok out' /\ rows out' = rows out.
Proof.
  intros Hnd H. apply pandas_validated_from in H.
  destruct H as (c1 & c2 & c3 & c4 & c5 & c6 & o & H1 & H2 & H3 & H4 & H5
                 & H6 & Ho & Hrows).
  unfold Pandas.column in *.
  apply (spark_resolves_like_pandas "Customer_Name" "Customer_Name" _ _ Hnd eq_refl) in H1.
  apply (spark_resolves_like_pandas "Customer_Id" "Customer_ID" _ _ Hnd eq_refl) in H2.
  apply (spark_resolves_like_pandas "Vaccination_Id" "Vaccination_Id" _ _ Hnd eq_refl) in H3.
  apply (spark_resolves_like_pandas "Dr_Name" "Dr_Name" _ _ Hnd eq_refl) in H4.
  apply (spark_resolves_like_pandas "State" "State" _ _ Hnd eq_refl) in H5.
  apply (spark_resolves_like_pandas "Country" "Country" _ _ Hnd eq_refl) in H6.
  apply (spark_resolves_like_pandas "Open_Date" "Open_Date" _ _ Hnd eq_refl) in Ho.
  fold (Spark.column "Customer_Name" df) in H1.
  fold (Spark.column "Customer_ID" df) in H2.
  fold (Spark.column "Vaccination_Id" df) in H3.
  fold (Spark.column "Dr_Name" df) in H4.
  fold (Spark.column "State" df) in H5.
  fold (Spark.column "Country" df) in H6.
  fold (Spark.column "Open_Date" df) in Ho.
  destruct (spark_validate_data_ok df c1 c2 c3 c4 c5 c6 o H1 H2 H3 H4 H5 H6 Ho)
    as (out' & E).
  exists out'. split; [exact E |].
  apply spark_validated_from in E.
  destruct E as (d1 & d2 & d3 & d4 & d5 & d6 & o' & G1 & G2 & G3 & G4 & G5
                 & G6 & Go & Grows).
  assert (d1 = c1) by congruence. assert (d2 = c2) by congruence.
  assert (d3 = c3) by congruence. assert (d4 = c4) by congruence.
  assert (d5 = c5) by congruence. assert (d6 = c6) by congruence.
  assert (o' = o) by congruence. subst. congruence.
Qed.

Lemma validations_agree_on_sample :
  NoDup (map Text.lowercase (columns pandas_parsed)) /\
  Pandas.validate_data pandas_parsed = Ok pandas_validated /\
  exists out',
    Spark.validate_data pandas_parsed = Ok out' /\
    rows out' = rows pandas_validated.
Proof.
  assert (Hnd : NoDup (map Text.lowercase (columns pandas_parsed))).
  { vm_compute.
    repeat (constructor;
            [cbn [In]; intros H;
             repeat (destruct H as [H | H]; [discriminate |]); exact H |]).
    constructor. }
  assert (H : Pandas.validate_data pandas_parsed = Ok pandas_validated)
    by (vm_compute; reflexivity).
  split; [exact Hnd |]. split; [exact H |].
  exact (validations_agree pandas_parsed pandas_validated Hnd H).
Defined.

(** ** Validating twice *)

Lemma map_at_fixed (f : cell -> cell) (r : row) :
  forall j, f (cell_at j r) = cell_at j r -> map_at j f r = r.
Proof.
  unfold cell_at. induction r as [| c t IH]; intros j H; [reflexivity |].
  destruct j as [| j]; cbn [map_at nth] in *.
  - rewrite H. reflexivity.
  - rewrite (IH j H). reflexivity.
Qed.

Lemma within_fixed (n : nat) (c : cell) :
  bounded n c -> Pandas.within n c = c.
Proof.
  intros [-> | (s & -> & Hs)]; [reflexivity |].
  cbn [Pandas.within]. apply Nat.leb_le in Hs. rewrite Hs. reflexivity.
Qed.

(** A row that went through the length checks goes through them again
    unchanged. *)
Lemma null_fields_idempotent (c1 c2 c3 c4 c5 c6 : nat) (r : row) :
  null_fields c1 c2 c3 c4 c5 c6 (null_fields c1 c2 c3 c4 c5 c6 r) =
  null_fields c1 c2 c3 c4 c5 c6 r.
Proof.
  destruct (null_fields_bounded c1 c2 c3 c4 c5 c6 r)
    as (B1 & B2 & B3 & B4 & B5 & B6).
  cbv zeta in *.
  set (r' := null_fields c1 c2 c3 c4 c5 c6 r) in *.
  unfold null_fields at 1.
  rewrite (map_at_fixed _ r' c1) by (apply within_fixed; exact B1).
  rewrite (map_at_fixed _ r' c2) by (apply within_fixed; exact B2).
  rewrite (map_at_fixed _ r' c3) by (apply within_fixed; exact B3).
  rewrite (map_at_fixed _ r' c4) by (apply within_fixed; exact B4).
  rewrite (map_at_fixed _ r' c5) by (apply within_fixed; exact B5).
  apply map_at_fixed. apply within_fixed. exact B6.
Qed.

Lemma filter_idempotent (A : Type) (p : A -> bool) (l : list A) :
  filter p (filter p l) = filter p l.
Proof.
  rewrite filter_filter. apply filter_ext. intros a.
  destruct (p a); reflexivity.
Qed.

(** The rows of a validated frame go through the two phases of
    validation unchanged. *)
Lemma validated_rows_are_fixed (c1 c2 c3 c4 c5 c6 o : nat) (rs : list row) :
  let out :=
    filter (complete c1 c2 o) (map (null_fields c1 c2 c3 c4 c5 c6) rs) in
  filter (complete c1 c2 o) (map (null_fields c1 c2 c3 c4 c5 c6) out) = out.
Proof.
  cbv zeta.
  set (out := filter (complete c1 c2 o)
                     (map (null_fields c1 c2 c3 c4 c5 c6) rs)).
  assert (E : map (null_fields c1 c2 c3 c4 c5 c6) out = out).
  { rewrite <- (map_id out) at 2. apply map_ext_in. intros r Hin.
    unfold out in Hin. apply filter_In in Hin. destruct Hin as [Hin _].
    apply in_map_iff in Hin. destruct Hin as (r0 & <- & _).
    apply null_fields_idempotent. }
  rewrite E. unfold out. apply filter_idempotent.
Qed.

Lemma pandas_check_length_ok (name : string) (n : nat) (df : frame)
    (j : nat) :
  Pandas.column name df = Ok j ->
  exists out,
    Pandas.check_length name n df = Ok out /\ columns out = columns df.
Proof.
  intros H. unfold Pandas.check_length. rewrite H. cbn [bind].
  eexists. split; reflexivity.
Qed.

Lemma pandas_require_ok (name : string) (df : frame) (j : nat) :
  Pandas.column name df = Ok j ->
  exists out, Pandas.require name df = Ok out /\ columns out = columns df.
Proof.
  intros H. unfold Pandas.require. rewrite H. cbn [bind].
  eexists. split; reflexivity.
Qed.

Ltac pandas_next C :=
  match goal with
  | |- exists _, bind (Pandas.check_length ?name ?n ?df) _ = _ =>
      match goal with
      | H : resolve String.eqb name (columns df) = Ok ?j |- _ =>
          let d := fresh "d" in
          let E := fresh "E" in
          destruct (pandas_check_length_ok name n df j H) as (d & E & C);
          rewrite E; cbn [bind]
      end
  | |- exists _, bind (Pandas.require ?name ?df) _ = _ =>
      match goal with
      | H : resolve String.eqb name (columns df) = Ok ?j |- _ =>
          let d := fresh "d" in
          let E := fresh "E" in
          destruct (pandas_require_ok name df j H) as (d & E & C);
          rewrite E; cbn [bind]
      end
  end.

Lemma pandas_null_long_fields_ok (df : frame) (c1 c2 c3 c4 c5 c6 : nat) :
  Pandas.column "Customer_Name" df = Ok c1 ->
  Pandas.column "Customer_Id" df = Ok c2 ->
  Pandas.column "Vaccination_Id" df = Ok c3 ->
  Pandas.column "Dr_Name" df = Ok c4 ->
  Pandas.column "State" df = Ok c5 ->
  Pandas.column "Country" df = Ok c6 ->
  exists out, Pandas.null_long_fields df = Ok out.
Proof.
  unfold Pandas.column. intros H1 H2 H3 H4 H5 H6.
  unfold Pandas.null_long_fields.
  pandas_next C1. rewrite <- C1 in *.
  pandas_next C2. rewrite <- C2 in *.
  pandas_next C3. rewrite <- C3 in *.
  pandas_next C4. rewrite <- C4 in *.
  pandas_next C5. rewrite <- C5 in *.
  destruct (pandas_check_length_ok "Country" 5 d3 c6 H6) as (d4 & E4 & _).
  exists d4. exact E4.
Qed.

Lemma pandas_drop_incomplete_ok (df : frame) (n i o : nat) :
  Pandas.column "Customer_Name" df = Ok n ->
  Pandas.column "Customer_Id" df = Ok i ->
  Pandas.column "Open_Date" df = Ok o ->
  exists out, Pandas.drop_incomplete df = Ok out.
Proof.
  unfold Pandas.column. intros Hn Hi Ho. unfold Pandas.drop_incomplete.
  pandas_next C1. rewrite <- C1 in *.
  pandas_next C2. rewrite <- C2 in *.
  destruct (pandas_require_ok "Open_Date" d0 o Ho) as (d1 & E1 & _).
  exists d1. exact E1.
Qed.

Lemma frame_eq (a b : frame) :
  columns a = columns b -> rows a = rows b -> a = b.
Proof.
  destruct a as [ca ra], b as [cb rb]. cbn [columns rows].
  intros -> ->. reflexivity.
Qed.

Lemma pandas_validation_idempotent (df out : frame) :
  Pandas.validate_data df = Ok out -> Pandas.validate_data out = Ok out.
Proof.
  unfold Pandas.validate_data. intros H. bind_inv H.
  apply pandas_null_long_fields_inv in Hx.
  destruct Hx as (c1 & c2 & c3 & c4 & c5 & c6 & H1 & H2 & H3 & H4 & H5
                  & H6 & Hc & Hr).
  apply pandas_drop_incomplete in H.
  destruct H as (n & i & o & Hn & Hi & Ho & Hc' & Hr').
  unfold Pandas.column in *. rewrite Hc in Hn, Hi, Ho.
  assert (n = c1) by congruence. assert (i = c2) by congruence. subst n i.
  assert (Hcols : columns out = columns df) by congruence.
  rewrite <- Hcols in H1, H2, H3, H4, H5, H6, Ho.
  destruct (pandas_null_long_fields_ok out c1 c2 c3 c4 c5 c6
              H1 H2 H3 H4 H5 H6) as (nulled & E).
  rewrite E. cbn [bind].
  apply pandas_null_long_fields_inv in E.
  destruct E as (d1 & d2 & d3 & d4 & d5 & d6 & G1 & G2 & G3 & G4 & G5
                 & G6 & Gc & Gr).
  unfold Pandas.column in *.
  assert (d1 = c1) by congruence. assert (d2 = c2) by congruence.
  assert (d3 = c3) by congruence. assert (d4 = c4) by congruence.
  assert (d5 = c5) by congruence. assert (d6 = c6) by congruence.
  subst d1 d2 d3 d4 d5 d6.
  rewrite <- Gc in H1, H2, Ho.
  destruct (pandas_drop_incomplete_ok nulled c1 c2 o H1 H2 Ho) as (out' & E').
  rewrite E'. f_equal.
  apply pandas_drop_incomplete in E'.
  destruct E' as (n & i & o' & Kn & Ki & Ko & Kc & Kr).
  unfold Pandas.column in *.
  assert (n = c1) by congruence. assert (i = c2) by congruence.
  assert (o' = o) by congruence. subst n i o'.
  apply frame_eq; [congruence |].
  rewrite Kr, Gr, Hr', Hr. apply validated_rows_are_fixed.
Qed.

Lemma spark_with_column_columns (name : string) (f : cell -> cell)
    (df out : frame) :
  Spark.with_column name f df = Ok out ->
  columns out =
  map (fun c => if Spark.same_name name c then name else c) (columns df).
Proof.
  unfold Spark.with_column. intros H. bind_inv H. apply ok_inj in H.
  subst out. reflexivity.
Qed.

(** [withColumn] settles the name it is given, and leaves settled every
    name that is another column's. *)
Lemma settled_through (name : string) (f : cell -> cell) (df out : frame)
    (other : string) :
  Spark.with_column name f df = Ok out ->
  other = name \/
  (Spark.same_name other name = false /\ settled other (columns df)) ->
  settled other (columns out).
Proof.
  intros H Hother c Hin Hsame.
  rewrite (spark_with_column_columns _ _ _ _ H) in Hin.
  apply in_map_iff in Hin. destruct Hin as (c0 & <- & Hc0).
  destruct Hother as [-> | [Hdiff Hset]].
  - destruct (Spark.same_name name c0) eqn:E; [reflexivity | congruence].
  - destruct (Spark.same_name name c0) eqn:E; [congruence |].
    apply Hset; assumption.
Qed.

Lemma spark_with_column_settled (name : string) (f : cell -> cell)
    (df out : frame) :
  settled name (columns df) ->
  Spark.with_column name f df = Ok out -> columns out = columns df.
Proof.
  intros Hset H. rewrite (spark_with_column_columns _ _ _ _ H).
  rewrite <- (map_id (columns df)) at 2. apply map_ext_in.
  intros c Hin. destruct (Spark.same_name name c) eqn:E; [| reflexivity].
  symmetry. apply Hset; assumption.
Qed.

Ltac settle :=
  match goal with
  | H : Spark.with_column ?name _ _ = Ok ?out
    |- settled ?other (columns ?out) =>
      apply (settled_through name _ _ out other H);
      first [ left; reflexivity
            | right; split; [vm_compute; reflexivity | settle] ]
  end.

(** After the six length checks of PySpark the six names are settled. *)
Lemma spark_null_long_fields_settles (df nulled : frame) :
  Spark.null_long_fields df = Ok nulled ->
  Forall (fun n => settled n (columns nulled)) checked_names.
Proof.
  unfold Spark.null_long_fields. intros H.
  bind_inv H. bind_inv H. bind_inv H. bind_inv H. bind_inv H.
  repeat (constructor; [settle |]). constructor.
Qed.

(** Where they are settled, the six length checks keep the names. *)
Lemma spark_null_long_fields_settled (df nulled : frame) :
  Forall (fun n => settled n (columns df)) checked_names ->
  Spark.null_long_fields df = Ok nulled ->
  columns nulled = columns df.
Proof.
  intros Hset H. unfold Spark.null_long_fields in H.
  inversion Hset as [| ? ? S1 Hset1]; subst.
  inversion Hset1 as [| ? ? S2 Hset2]; subst.
  inversion Hset2 as [| ? ? S3 Hset3]; subst.
  inversion Hset3 as [| ? ? S4 Hset4]; subst.
  inversion Hset4 as [| ? ? S5 Hset5]; subst.
  inversion Hset5 as [| ? ? S6 _]; subst.
  clear Hset Hset1 Hset2 Hset3 Hset4 Hset5.
  bind_inv H. apply (spark_with_column_settled _ _ _ _ S1) in Hx.
  rewrite <- Hx in S2, S3, S4, S5, S6.
  bind_inv H. apply (spark_with_column_settled _ _ _ _ S2) in Hx0.
  rewrite <- Hx0 in S3, S4, S5, S6.
  bind_inv H. apply (spark_with_column_settled _ _ _ _ S3) in Hx1.
  rewrite <- Hx1 in S4, S5, S6.
  bind_inv H. apply (spark_with_column_settled _ _ _ _ S4) in Hx2.
  rewrite <- Hx2 in S5, S6.
  bind_inv H. apply (spark_with_column_settled _ _ _ _ S5) in Hx3.
  rewrite <- Hx3 in S6.
  apply (spark_with_column_settled _ _ _ _ S6) in H.
  congruence.
Qed.

Lemma spark_validation_idempotent (data out : frame) :
  Spark.validate_data data = Ok out -> Spark.validate_data out = Ok out.
Proof.
  unfold Spark.validate_data. intros H. bind_inv H.
  pose proof (spark_null_long_fields_settles _ _ Hx) as Hset.
  apply spark_null_long_fields_inv in Hx.
  destruct Hx as (c1 & c2 & c3 & c4 & c5 & c6 & H1 & H2 & H3 & H4 & H5
                  & H6 & _ & Hres & Hr).
  apply spark_drop_incomplete in H.
  destruct H as (n & i & o & Hn & Hi & Ho & Hc' & Hr').
  rewrite Hres in Hn, Hi, Ho.
  assert (n = c1) by congruence. assert (i = c2) by congruence. subst n i.
  assert (Hout : forall name, Spark.column name out = Spark.column name data).
  { intros name. rewrite <- Hres. unfold Spark.column. rewrite Hc'.
    reflexivity. }
  rewrite <- Hc' in Hset.
  rewrite <- Hout in H1, H2, H3, H4, H5, H6, Ho.
  destruct (spark_null_long_fields_ok out c1 c2 c3 c4 c5 c6
              H1 H2 H3 H4 H5 H6) as (nulled & E).
  rewrite E. cbn [bind].
  pose proof (spark_null_long_fields_settled _ _ Hset E) as Gc.
  apply spark_null_long_fields_inv in E.
  destruct E as (d1 & d2 & d3 & d4 & d5 & d6 & G1 & G2 & G3 & G4 & G5
                 & G6 & _ & Gres & Gr).
  assert (d1 = c1) by congruence. assert (d2 = c2) by congruence.
  assert (d3 = c3) by congruence. assert (d4 = c4) by congruence.
  assert (d5 = c5) by congruence. assert (d6 = c6) by congruence.
  subst d1 d2 d3 d4 d5 d6.
  rewrite <- Gres in H1, H2, Ho.
  destruct (spark_drop_incomplete_ok nulled c1 c2 o H1 H2 Ho) as (out' & E').
  rewrite E'. f_equal.
  apply spark_drop_incomplete in E'.
  destruct E' as (n & i & o' & Kn & Ki & Ko & Kc & Kr).
  assert (n = c1) by congruence. assert (i = c2) by congruence.
  assert (o' = o) by congruence. subst n i o'.
  apply frame_eq; [congruence |].
  rewrite Kr, Gr, Hr', Hr. apply validated_rows_are_fixed.
Qed.

(** X11: validation is idempotent in both scripts: a validated frame
    validates again, to itself, with no row dropped, no cell nulled and
    no column renamed. *)
Theorem validation_is_idempotent :
  (forall df out,
      Pandas.validate_data df = Ok out -> Pandas.validate_data out = Ok out) /\
  (forall data out,
      Spark.validate_data data = Ok out -> Spark.validate_data out = Ok out).
Proof.
  split; [exact pandas_validation_idempotent
         | exact spark_validation_idempotent].
Qed.

Lemma validation_twice_on_sample :
  (Pandas.validate_data pandas_parsed = Ok pandas_validated /\
   Pandas.validate_data pandas_validated = Ok pandas_validated) /\
  (Spark.validate_data spark_parsed = Ok spark_validated /\
   Spark.validate_data spark_validated = Ok spark_validated).
Proof.
  split; (split; [vm_compute; reflexivity |]).
  - apply (proj1 validation_is_idempotent pandas_parsed).
    vm_compute. reflexivity.
  - apply (proj2 validation_is_idempotent spark_parsed).
    vm_compute. reflexivity.
Defined.

(** ** The paths of the tables *)

(** The tables written are those of the first countries, whatever
    ended the loop. *)
Lemma spark_save_each_prefix (fails : string -> bool) (latest : frame)
    (cs : list cell) :
  exists done rest,
    cs = done ++ rest /\
    Forall2 (fun c w => Spark.country_table latest c = Ok w) done
            (written (Spark.save_each fails latest cs)).
Proof.
  induction cs as [| c cs IH]; cbn [Spark.save_each].
  - exists [], []. split; [reflexivity | constructor].
  - destruct (Spark.country_table latest c) as [[path table] | e] eqn:E.
    + destruct (fails path).
      * exists [], (c :: cs). split; [reflexivity | constructor].
      * destruct (fails (Spark.create_table c)).
        -- exists [c], cs. split; [reflexivity |].
           cbn [written]. constructor; [exact E | constructor].
        -- destruct IH as (done & rest & -> & Hw).
           exists (c :: done), rest. split; [reflexivity |].
           cbn [written]. constructor; assumption.
    + exists [], (c :: cs). split; [reflexivity | constructor].
Qed.

Lemma append_cancel (p a b : string) :
  (p ++ a)%string = (p ++ b)%string -> a = b.
Proof.
  induction p as [| ch p IH]; cbn [String.append]; intros H;
    [exact H |].
  apply IH. congruence.
Qed.

Lemma textual_label (a b : cell) :
  textual a = true -> textual b = true -> label a = label b ->
  a = b \/ (a = Null /\ b = Str "None") \/ (a = Str "None" /\ b = Null).
Proof.
  destruct a as [| s | d | z]; destruct b as [| t | d' | z'];
    cbn [textual label]; intros Ha Hb H; try discriminate.
  - left. reflexivity.
  - right. left. split; [reflexivity | congruence].
  - right. right. split; [congruence | reflexivity].
  - left. congruence.
Qed.

Lemma clash_spec (cs : list cell) :
  clash cs = true <-> In Null cs /\ In (Str "None") cs.
Proof.
  unfold clash. rewrite andb_true_iff, !existsb_exists. split.
  - intros [(x & Hx & Ex) (y & Hy & Ey)].
    destruct x; cbn [is_null] in Ex; try discriminate.
    apply cell_eqb_eq in Ey. subst y.
    split; assumption.
  - intros [H1 H2]. split.
    + exists Null. split; [exact H1 | reflexivity].
    + exists (Str "None"). split; [exact H2 | apply cell_eqb_refl].
Qed.

Lemma NoDup_map_injective (A B : Type) (f : A -> B) (l : list A) :
  NoDup (map f l) ->
  forall a b, In a l -> In b l -> f a = f b -> a = b.
Proof.
  induction l as [| x l IH]; cbn [map]; intros Hnd a b Ha Hb E;
    [contradiction |].
  inversion Hnd as [| ? ? Hx Hl]; subst.
  destruct Ha as [-> | Ha]; destruct Hb as [-> | Hb].
  - reflexivity.
  - exfalso. apply Hx. rewrite E. apply in_map. exact Hb.
  - exfalso. apply Hx. rewrite <- E. apply in_map. exact Ha.
  - apply IH; assumption.
Qed.

(** X12: PySpark names the table of a country after the text of the
    country, and the table of the rows without one [Table_None].  So two
    tables of a run never share a path, unless the canonical rows have
    both a null country and a country spelled [None]: then, when the
    loop completes, two of the tables were written to the same path. *)
Theorem spark_tables_share_a_path_only_for_None (fails : string -> bool)
    (latest : frame) (c : nat) :
  Spark.column "Country" latest = Ok c ->
  Forall (fun r => textual (cell_at c r) = true) (rows latest) ->
  (clash (map (cell_at c) (rows latest)) = false ->
   NoDup (map fst (written (Spark.save_country_data fails latest)))) /\
  (status (Spark.save_country_data fails latest) = Ok tt ->
   NoDup (map fst (written (Spark.save_country_data fails latest))) ->
   clash (map (cell_at c) (rows latest)) = false).
Proof.
  intros Hc Htext. unfold Spark.save_country_data, Spark.countries.
  rewrite Hc. cbn [bind].
  set (cs := unique (map (cell_at c) (rows latest))).
  assert (Hcs : forall k, In k cs -> textual k = true).
  { intros k Hk. apply (proj1 (unique_In _ _)), in_map_iff in Hk.
    destruct Hk as (r & <- & Hr). rewrite Forall_forall in Htext.
    apply Htext. exact Hr. }
  split.
  - intros Hclash.
    destruct (spark_save_each_prefix fails latest cs)
      as (done & rest & Hsplit & Hw).
    rewrite (written_paths _ Spark.table_path done _
               (spark_country_table_path latest) Hw).
    apply NoDup_map_NoDup_ForallPairs.
    + intros a b Ha Hb E.
      assert (Ha' : In a cs) by (rewrite Hsplit; apply in_or_app; auto).
      assert (Hb' : In b cs) by (rewrite Hsplit; apply in_or_app; auto).
      unfold Spark.table_path, table_name in E.
      do 2 apply append_cancel in E.
      destruct (textual_label a b (Hcs a Ha') (Hcs b Hb') E)
        as [H | [[-> ->] | [-> ->]]]; [exact H | |];
        exfalso; apply (proj1 (unique_In _ _)) in Ha', Hb';
        assert (Hboth : clash (map (cell_at c) (rows latest)) = true)
          by (apply clash_spec; split; assumption);
        congruence.
    + apply (NoDup_app_remove_r done rest). rewrite <- Hsplit.
      apply unique_NoDup.
  - intros Hdone Hnd. apply spark_save_each_done in Hdone.
    rewrite (written_paths _ Spark.table_path cs _
               (spark_country_table_path latest) Hdone) in Hnd.
    destruct (clash (map (cell_at c) (rows latest))) eqn:E; [| reflexivity].
    apply clash_spec in E. destruct E as [H1 H2].
    apply (proj2 (unique_In _ _)) in H1, H2. fold cs in H1, H2.
    pose proof (NoDup_map_injective _ _ Spark.table_path cs Hnd
                  Null (Str "None") H1 H2 eq_refl) as Habs.
    discriminate.
Qed.

Lemma spark_paths_on_sample :
  (Spark.column "Country" spark_latest = Ok 7 /\
   clash (map (cell_at 7) (rows spark_latest)) = false /\
   NoDup (map fst (written (Spark.save_country_data storage_ok
                              spark_latest)))) /\
  (Spark.column "Country" none_and_null = Ok 1 /\
   map fst (written (Spark.save_country_data storage_ok none_and_null)) =
     ["dbfs:/mnt/country_tables/Table_USA";
      "dbfs:/mnt/country_tables/Table_None";
      "dbfs:/mnt/country_tables/Table_None"] /\
   (NoDup (map fst (written (Spark.save_country_data storage_ok
                               none_and_null))) ->
    clash (map (cell_at 1) (rows none_and_null)) = false)).
Proof.
  split.
  - split; [vm_compute; reflexivity |].
    split; [vm_compute; reflexivity |].
    apply (proj1 (spark_tables_share_a_path_only_for_None storage_ok
                    spark_latest 7 eq_refl
                    ltac:(repeat constructor))).
    vm_compute. reflexivity.
  - split; [vm_compute; reflexivity |].
    split; [vm_compute; reflexivity |].
    apply (proj2 (spark_tables_share_a_path_only_for_None storage_ok
                    none_and_null 1 eq_refl
                    ltac:(repeat constructor))).
    vm_compute. reflexivity.
Defined.

(** ** The shape of the tables *)

Lemma same_name_refl (a : string) : Spark.same_name a a = true.
Proof. unfold Spark.same_name. apply String.eqb_refl. Qed.

Lemma same_name_eq (a b : string) :
  Spark.same_name a b = true <-> Text.lowercase a = Text.lowercase b.
Proof. unfold Spark.same_name. apply String.eqb_eq. Qed.

Lemma same_name_trans (a b c : string) :
  Spark.same_name a b = true -> Spark.same_name b c = true ->
  Spark.same_name a c = true.
Proof. rewrite !same_name_eq. congruence. Qed.

Lemma spelled_like_refl (l : list string) : spelled_like l l.
Proof.
  induction l; constructor; [apply same_name_refl | assumption].
Qed.

Lemma spelled_like_trans (a b c : list string) :
  spelled_like a b -> spelled_like b c -> spelled_like a c.
Proof.
  intros H. revert c. induction H as [| x y a b Hxy _ IH]; intros c Hbc;
    inversion Hbc; subst; constructor.
  - eapply same_name_trans; eassumption.
  - apply IH. assumption.
Qed.

Lemma spelled_like_length (a b : list string) :
  spelled_like a b -> length a = length b.
Proof. induction 1; cbn [length]; congruence. Qed.

(** A name answers to the same columns under either spelling. *)
Lemma spelled_like_existsb (name : string) (a b : list string) :
  spelled_like a b ->
  existsb (Spark.same_name name) a = existsb (Spark.same_name name) b.
Proof.
  induction 1 as [| x y a b Hxy _ IH]; cbn [existsb]; [reflexivity |].
  rewrite IH. f_equal. apply same_name_eq in Hxy.
  unfold Spark.same_name. rewrite Hxy. reflexivity.
Qed.

Lemma spark_with_column_spelled (name : string) (f : cell -> cell)
    (df out : frame) :
  Spark.with_column name f df = Ok out ->
  spelled_like (columns out) (columns df).
Proof.
  intros H. rewrite (spark_with_column_columns _ _ _ _ H).
  induction (columns df) as [| c cols IH]; cbn [map]; constructor;
    [| exact IH].
  destruct (Spark.same_name name c) eqn:E;
    [exact E | apply same_name_refl].
Qed.

Lemma spark_convert_dates_spelled (df out : frame) :
  Spark.convert_dates df = Ok out ->
  spelled_like (columns out) (columns df).
Proof.
  unfold Spark.convert_dates. intros H. bind_inv H. bind_inv H.
  apply spark_with_column_spelled in Hx, Hx0, H.
  eapply spelled_like_trans; [exact H |].
  eapply spelled_like_trans; eassumption.
Qed.

Lemma spark_validate_spelled (df out : frame) :
  Spark.validate_data df = Ok out ->
  spelled_like (columns out) (columns df).
Proof.
  unfold Spark.validate_data. intros H. bind_inv H.
  apply spark_drop_incomplete in H.
  destruct H as (_ & _ & _ & _ & _ & _ & -> & _).
  unfold Spark.null_long_fields in Hx.
  bind_inv Hx. bind_inv Hx. bind_inv Hx. bind_inv Hx. bind_inv Hx.
  apply spark_with_column_spelled in Hx0, Hx1, Hx2, Hx3, Hx4, Hx.
  repeat (eapply spelled_like_trans; [eassumption |]).
  apply spelled_like_refl.
Qed.

Lemma length_pandas_derived (now : date) (b l : nat) (r : row) :
  length (pandas_derived now b l r) = length r + 3.
Proof. unfold pandas_derived. rewrite length_app. reflexivity. Qed.

Lemma length_spark_derived (now : date) (b l : nat) (r : row) :
  length (spark_derived now b l r) = length r + 3.
Proof. unfold spark_derived. rewrite length_app. reflexivity. Qed.

Lemma pandas_written_tables_shape (now : date) (fails : string -> bool)
    (lines header : list string) (path : string) (table : frame) :
  Pandas.extract_header lines = Ok header ->
  Forall (fun n => existsb (String.eqb n) header = false) derived_names ->
  In (path, table) (written (Pandas.main now fails lines)) ->
  columns table = header ++ derived_names /\
  forall r, In r (rows table) -> length r = length header + 3.
Proof.
  intros Hh Hfresh Hin. unfold Pandas.main in Hin. rewrite Hh in Hin.
  cbn [bind] in Hin.
  destruct (Pandas.process_and_load_staging lines header)
    as [staging | e] eqn:E; [| contradiction].
  destruct (pandas_staging_rectangular _ _ _ E) as [Hcols Hrect].
  unfold Pandas.create_and_populate_country_tables in Hin.
  destruct (Pandas.global_latest_records staging) as [latest | e] eqn:L;
    cbn [bind] in Hin; [| contradiction].
  destruct (Pandas.countries staging) as [cs | e];
    cbn [bind] in Hin; [| contradiction].
  apply written_by_the_body in Hin. destruct Hin as (country & _ & Hbody).
  destruct (pandas_latest_subset _ _ L) as [Lcols Lrows].
  assert (Hlatest : rectangular latest).
  { intros r Hr. rewrite Lcols, Hcols. apply Hrect, Lrows. exact Hr. }
  rewrite <- Hcols, <- Lcols in Hfresh.
  destruct (pandas_country_table_derived now latest country path table
              Hlatest Hfresh Hbody)
    as (c & b & l & _ & _ & _ & _ & Tcols & Trows).
  split; [congruence |].
  intros r Hr. rewrite Trows in Hr. apply in_map_iff in Hr.
  destruct Hr as (r0 & <- & Hr0). apply filter_In in Hr0.
  destruct Hr0 as [Hr0 _].
  rewrite length_pandas_derived, (Hlatest r0 Hr0). congruence.
Qed.

Lemma filter_none_dropped (name : string) (cols : list string) :
  existsb (Spark.same_name name) cols = false ->
  filter (fun c => negb (Spark.same_name name c)) cols = cols.
Proof.
  induction cols as [| c cols IH]; [reflexivity |].
  cbn [existsb filter]. intros H. apply orb_false_iff in H.
  destruct H as [Hc H]. rewrite Hc. cbn [negb]. rewrite (IH H).
  reflexivity.
Qed.

Lemma existsb_filter_false (p q : string -> bool) (l : list string) :
  existsb p l = false -> existsb p (filter q l) = false.
Proof.
  induction l as [| x l IH]; [reflexivity |].
  cbn [existsb filter]. intros H. apply orb_false_iff in H.
  destruct H as [Hx H]. destruct (q x); cbn [existsb];
    [rewrite Hx |]; apply IH; exact H.
Qed.

(** Dropping a name keeps two headers spelled alike. *)
Lemma spelled_like_filter (name : string) (a b : list string) :
  spelled_like a b ->
  spelled_like (filter (fun c => negb (Spark.same_name name c)) a)
               (filter (fun c => negb (Spark.same_name name c)) b).
Proof.
  induction 1 as [| x y a b Hxy _ IH]; [constructor |].
  cbn [filter].
  assert (E : Spark.same_name name x = Spark.same_name name y).
  { apply same_name_eq in Hxy. unfold Spark.same_name. rewrite Hxy.
    reflexivity. }
  rewrite E. destruct (Spark.same_name name y); cbn [negb];
    [exact IH | constructor; assumption].
Qed.

Lemma spark_written_tables_shape (now : date) (fails : string -> bool)
    (lines header : list string) (path : string) (table : frame) :
  Spark.extract_header lines = Ok header ->
  Forall (fun n => existsb (Spark.same_name n) header = false)
         derived_names ->
  In (path, table) (written (Spark.main now fails lines)) ->
  (exists cols,
      columns table = cols ++ derived_names /\
      spelled_like cols
        (filter (fun c => negb (Spark.same_name "row_number" c)) header)) /\
  forall r, In r (rows table) ->
    length r =
    length (filter (fun c => negb (Spark.same_name "row_number" c)) header)
    + 3.
Proof.
  intros Hh Hfresh Hin. unfold Spark.main in Hin. rewrite Hh in Hin.
  cbn [bind] in Hin.
  destruct (data <- Spark.convert_dates (Spark.process_data lines header) ;;
            data <- Spark.validate_data data ;;
            latest_data <- Spark.get_latest_data data ;;
            Spark.add_derived_columns now latest_data)
    as [latest_data | e] eqn:E; [| contradiction].
  bind_inv E. bind_inv E. bind_inv E.
  rename x into parsed, x0 into data, x1 into latest.
  assert (Hclean : spark_clean (Spark.process_data lines header) = Ok data)
    by (unfold spark_clean; rewrite Hx; exact Hx0).
  destruct (spark_clean_rectangular _ _ _ Hclean) as [Hlen Hrect].
  assert (Hspell : spelled_like (columns data) header).
  { eapply spelled_like_trans; [apply (spark_validate_spelled _ _ Hx0) |].
    apply (spark_convert_dates_spelled _ _ Hx). }
  apply spark_get_latest_data_inv in Hx1.
  destruct Hx1 as (ci & cj & _ & _ & _ & Hlat).
  pose proof (spelled_like_filter "row_number" _ _ Hspell) as Hkept.
  assert (Lcols : columns latest =
                  filter (fun c => negb (Spark.same_name "row_number" c))
                         (columns data))
    by (rewrite Hlat; reflexivity).
  assert (Hlatest : rectangular latest).
  { intros r Hr. rewrite Hlat in Hr. cbn [Spark.drop rows columns] in Hr.
    apply in_map_iff in Hr. destruct Hr as (r0 & <- & Hr0).
    apply spark_first_rows_subset in Hr0.
    rewrite Lcols. apply spark_without_length.
    rewrite Hlen. apply Hrect. exact Hr0. }
  assert (Hfresh' : Forall (fun n => existsb (Spark.same_name n)
                                       (columns latest) = false)
                           derived_names).
  { rewrite Lcols. rewrite Forall_forall in *. intros n Hn.
    apply existsb_filter_false.
    rewrite (spelled_like_existsb n _ _ Hspell). apply Hfresh. exact Hn. }
  destruct (spark_add_derived_columns_derived now latest latest_data
              Hlatest Hfresh' E) as (b & l & _ & _ & Dcols & Drows).
  unfold Spark.save_country_data in Hin.
  destruct (Spark.countries latest_data) as [cs | e]; [| contradiction].
  apply spark_written_by_the_body in Hin.
  destruct Hin as (country & _ & Hbody).
  unfold Spark.country_table in Hbody. bind_inv Hbody.
  apply ok_inj in Hbody.
  assert (Ht : table =
               mkframe (columns latest_data)
                 (filter (fun r => equals country (cell_at x r))
                         (rows latest_data))) by congruence.
  subst table. cbn [columns rows]. split.
  - exists (columns latest). split; [exact Dcols |].
    rewrite Lcols. exact Hkept.
  - intros r Hr. apply filter_In in Hr. destruct Hr as [Hr _].
    rewrite Drows in Hr. apply in_map_iff in Hr.
    destruct Hr as (r0 & <- & Hr0).
    rewrite length_spark_derived, (Hlatest r0 Hr0), Lcols.
    rewrite (spelled_like_length _ _ Hkept). reflexivity.
Qed.

(** X13: every table a run writes has the columns of the header
    followed by [Age], [Days_Since_Last_Consulted] and
    [Consulted_Recently], and each of its rows has a cell for every
    column, provided the header has none of the three derived names.
    In pandas the columns carry the header's names.  In PySpark they
    carry them up to case, the script's own spelling replacing that of
    the file, and a column [row_number] of the header is missing from
    the tables: [get_latest_data] drops it. *)
Theorem written_tables_have_the_derived_columns :
  (forall now fails lines header path table,
      Pandas.extract_header lines = Ok header ->
      Forall (fun n => existsb (String.eqb n) header = false)
             derived_names ->
      In (path, table) (written (Pandas.main now fails lines)) ->
      columns table = header ++ derived_names /\
      forall r, In r (rows table) -> length r = length header + 3) /\
  (forall now fails lines header path table,
      Spark.extract_header lines = Ok header ->
      Forall (fun n => existsb (Spark.same_name n) header = false)
             derived_names ->
      In (path, table) (written (Spark.main now fails lines)) ->
      ((exists cols,
           columns table = cols ++ derived_names /\
           spelled_like cols
             (filter (fun c => negb (Spark.same_name "row_number" c))
                     header)) /\
       forall r, In r (rows table) ->
         length r =
         length (filter (fun c => negb (Spark.same_name "row_number" c))
                        header) + 3) /\
      (existsb (Spark.same_name "row_number") header = false ->
       (exists cols,
           columns table = cols ++ derived_names /\
           spelled_like cols header) /\
       forall r, In r (rows table) -> length r = length header + 3)).
Proof.
  split.
  - exact pandas_written_tables_shape.
  - intros now fails lines header path table Hh Hfresh Hin.
    pose proof (spark_written_tables_shape now fails lines header path table
                  Hh Hfresh Hin) as H.
    split; [exact H |].
    intros Hplain. rewrite (filter_none_dropped _ _ Hplain) in H. exact H.
Qed.

(** X13 on [one_customer], and on [numbered_file], whose [Row_Number]
    is in the table of pandas and not in that of PySpark. *)
Lemma written_tables_on_one_customer :
  (In ("output/Table_USA.csv", pandas_one_table)
      (written (Pandas.main today storage_ok one_customer)) /\
   columns pandas_one_table =
     skipn 2 (tokens sample_header) ++ derived_names /\
   forall r, In r (rows pandas_one_table) ->
             length r = length (skipn 2 (tokens sample_header)) + 3) /\
  (In ("dbfs:/mnt/country_tables/Table_USA", spark_one_table)
      (written (Spark.main today storage_ok one_customer)) /\
   ((exists cols,
        columns spark_one_table = cols ++ derived_names /\
        spelled_like cols
          (filter (fun c => negb (Spark.same_name "row_number" c))
                  (skipn 2 (tokens sample_header)))) /\
    forall r, In r (rows spark_one_table) ->
      length r =
      length (filter (fun c => negb (Spark.same_name "row_number" c))
                     (skipn 2 (tokens sample_header))) + 3) /\
   (existsb (Spark.same_name "row_number") (skipn 2 (tokens sample_header))
      = false ->
    (exists cols,
        columns spark_one_table = cols ++ derived_names /\
        spelled_like cols (skipn 2 (tokens sample_header))) /\
    forall r, In r (rows spark_one_table) ->
              length r = length (skipn 2 (tokens sample_header)) + 3)) /\
  (columns pandas_numbered_table =
     ["Row_Number"; "Customer_Name"; "Customer_Id"; "Open_Date";
      "Last_Consulted_Date"; "Vaccination_Id"; "Dr_Name"; "State"; "Country";
      "DOB"; "Is_Active"; "Age"; "Days_Since_Last_Consulted";
      "Consulted_Recently"] /\
   columns spark_numbered_table =
     ["Customer_Name"; "Customer_ID"; "Open_Date"; "Last_Consulted_Date";
      "Vaccination_Id"; "Dr_Name"; "State"; "Country"; "DOB"; "Is_Active";
      "Age"; "Days_Since_Last_Consulted"; "Consulted_Recently"] /\
   In ("dbfs:/mnt/country_tables/Table_USA", spark_numbered_table)
      (written (Spark.main today storage_ok numbered_file)) /\
   ((exists cols,
        columns spark_numbered_table = cols ++ derived_names /\
        spelled_like cols
          (filter (fun c => negb (Spark.same_name "row_number" c))
                  (skipn 2 (tokens numbered_header)))) /\
    forall r, In r (rows spark_numbered_table) ->
      length r =
      length (filter (fun c => negb (Spark.same_name "row_number" c))
                     (skipn 2 (tokens numbered_header))) + 3) /\
   (existsb (Spark.same_name "row_number")
            (skipn 2 (tokens numbered_header)) = false ->
    (exists cols,
        columns spark_numbered_table = cols ++ derived_names /\
        spelled_like cols (skipn 2 (tokens numbered_header))) /\
    forall r, In r (rows spark_numbered_table) ->
              length r = length (skipn 2 (tokens numbered_header)) + 3)).
Proof.
  split; [| split].
  - assert (Hin : In ("output/Table_USA.csv", pandas_one_table)
                     (written (Pandas.main today storage_ok one_customer)))
      by (vm_compute; left; reflexivity).
    split; [exact Hin |].
    apply (proj1 written_tables_have_the_derived_columns today storage_ok
             one_customer (skipn 2 (tokens sample_header))
             "output/Table_USA.csv" pandas_one_table).
    + vm_compute. reflexivity.
    + repeat constructor.
    + exact Hin.
  - assert (Hin : In ("dbfs:/mnt/country_tables/Table_USA", spark_one_table)
                     (written (Spark.main today storage_ok one_customer)))
      by (vm_compute; left; reflexivity).
    split; [exact Hin |].
    apply (proj2 written_tables_have_the_derived_columns today storage_ok
             one_customer (skipn 2 (tokens sample_header))
             "dbfs:/mnt/country_tables/Table_USA" spark_one_table).
    + vm_compute. reflexivity.
    + repeat constructor.
    + exact Hin.
  - assert (Hin : In ("dbfs:/mnt/country_tables/Table_USA",
                      spark_numbered_table)
                     (written (Spark.main today storage_ok numbered_file)))
      by (vm_compute; left; reflexivity).
    split; [vm_compute; reflexivity |].
    split; [vm_compute; reflexivity |].
    split; [exact Hin |].
    apply (proj2 written_tables_have_the_derived_columns today storage_ok
             numbered_file (skipn 2 (tokens numbered_header))
             "dbfs:/mnt/country_tables/Table_USA" spark_numbered_table).
    + vm_compute. reflexivity.
    + repeat constructor.
    + exact Hin.
Defined.

(** ** The canonical rows of the two scripts *)

(** Where both scripts resolve a name, each in its way, they resolve it
    to the same column. *)
Lemma resolved_alike (name name' : string) (cols : list string)
    (i i' : nat) :
  Text.lowercase name' = Text.lowercase name ->
  resolve String.eqb name cols = Ok i ->
  resolve Spark.same_name name' cols = Ok i' ->
  i = i'.
Proof.
  intros Hname H H'. apply resolve_nth in H.
  destruct H as (c & Hc & Ec). apply String.eqb_eq in Ec. subst c.
  assert (Hs : Spark.same_name name' name = true)
    by (apply String.eqb_eq; exact Hname).
  pose proof (positions_complete Spark.same_name name' cols 0 i name Hc Hs)
    as Hin.
  unfold resolve in H'.
  destruct (positions Spark.same_name name' cols 0) as [| p [| q ps]];
    try discriminate.
  apply ok_inj in H'. subst p. cbn [In Nat.add] in Hin.
  destruct Hin as [E | []]. congruence.
Qed.

Lemma untied_latest (i j : nat) (k : cell) (rs : list row) (a b : row) :
  untied i j rs ->
  latest_of j (group i k rs) a -> latest_of j (group i k rs) b -> a = b.
Proof.
  intros Hun [Ha Hamax] [Hb Hbmax].
  pose proof (Hamax b Hb) as Hba. pose proof (Hbmax a Ha) as Hab.
  apply group_key in Ha, Hb. destruct Ha as [Ha Ka], Hb as [Hb Kb].
  unfold untied in Hun. rewrite Forall_forall in Hun.
  pose proof (Hun a Ha) as Hun'. rewrite Forall_forall in Hun'.
  apply (Hun' b Hb). unfold tied.
  rewrite Hab, Hba, Ka, Kb, cell_eqb_refl. reflexivity.
Qed.

Lemma pandas_canonical_of (i j : nat) (k : cell) (rs : list row) :
  k <> Null -> In k (map (cell_at i) rs) ->
  exists r,
    group i k (Pandas.head1 i [] (sort_desc j rs)) = [r] /\
    latest_of j (group i k rs) r.
Proof.
  intros Hk Hin. rewrite (head1_group i k (sort_desc j rs) Hk []).
  cbn [existsb]. apply first_of_sorted_group. exact Hin.
Qed.

Lemma spark_canonical_of (i j : nat) (k : cell) (rs : list row) :
  In k (map (cell_at i) rs) ->
  exists r,
    group i k (flat_map (fun k => Spark.first_row j (Spark.partition i k rs))
                        (unique (map (cell_at i) rs))) = [r] /\
    latest_of j (group i k rs) r.
Proof.
  intros Hin.
  rewrite (group_flat_map i k
             (fun k => Spark.first_row j (Spark.partition i k rs))).
  - apply first_of_group_sorted. exact Hin.
  - intros k' r Hr. apply (spark_first_row_key i j k' rs r Hr).
  - apply unique_NoDup.
  - apply unique_In. exact Hin.
Qed.

Lemma in_its_group (i : nat) (rs : list row) (r : row) :
  In r rs -> In r (group i (cell_at i r) rs).
Proof. intros H. apply group_key. split; [exact H | reflexivity]. Qed.

Lemma canonical_rows_alike (df lp : frame) (i j i' j' : nat) :
  Pandas.column "Customer_Id" df = Ok i ->
  Pandas.column "Last_Consulted_Date" df = Ok j ->
  Spark.column "Customer_ID" df = Ok i' ->
  Spark.column "Last_Consulted_Date" df = Ok j' ->
  Pandas.global_latest_records df = Ok lp ->
  Forall (fun r => is_null (cell_at i r) = false) (rows df) ->
  untied i j (rows df) ->
  forall r,
    In r (rows lp) <->
    In r (flat_map
            (fun k => Spark.first_row j' (Spark.partition i' k (rows df)))
            (unique (map (cell_at i') (rows df)))).
Proof.
  intros Hi Hj Hi' Hj' Hp Hid Hun.
  destruct (pandas_latest_subset _ _ Hp) as [_ Hsub_p].
  unfold Pandas.global_latest_records in Hp. rewrite Hj, Hi in Hp.
  cbn [bind] in Hp. apply ok_inj in Hp. subst lp.
  unfold Pandas.column, Spark.column in *.
  assert (i = i')
    by (apply (resolved_alike "Customer_Id" "Customer_ID" _ _ _
                 eq_refl Hi Hi')).
  assert (j = j')
    by (apply (resolved_alike "Last_Consulted_Date" "Last_Consulted_Date"
                 _ _ _ eq_refl Hj Hj')).
  subst i' j'.
  rewrite Forall_forall in Hid.
  set (canon_p := Pandas.head1 i [] (sort_desc j (rows df))).
  set (canon_s :=
         flat_map (fun k => Spark.first_row j (Spark.partition i k (rows df)))
                  (unique (map (cell_at i) (rows df)))).
  cbn [rows] in Hsub_p. fold canon_p in Hsub_p.
  assert (Hsub_s : forall r, In r canon_s -> In r (rows df))
    by (intros r; apply spark_first_rows_subset).
  assert (Hsame : forall r, In r (rows df) ->
            exists a,
              group i (cell_at i r) canon_p = [a] /\
              group i (cell_at i r) canon_s = [a]).
  { intros r Hr.
    assert (Hk : cell_at i r <> Null).
    { intros E. specialize (Hid r Hr). rewrite E in Hid. discriminate. }
    assert (Hin : In (cell_at i r) (map (cell_at i) (rows df)))
      by (apply in_map; exact Hr).
    destruct (pandas_canonical_of i j _ (rows df) Hk Hin) as (a & Ga & La).
    destruct (spark_canonical_of i j _ (rows df) Hin) as (b & Gb & Lb).
    assert (a = b) by (apply (untied_latest i j _ _ a b Hun La Lb)).
    subst b. exists a. split; assumption. }
  intros r. cbn [rows]. fold canon_p. split; intros Hr.
  - destruct (Hsame r (Hsub_p r Hr)) as (a & Ga & Gb).
    pose proof (in_its_group i canon_p r Hr) as Hg. rewrite Ga in Hg.
    destruct Hg as [<- | []].
    assert (Ha : In a (group i (cell_at i a) canon_s))
      by (rewrite Gb; left; reflexivity).
    apply group_key in Ha. apply Ha.
  - destruct (Hsame r (Hsub_s r Hr)) as (a & Ga & Gb).
    pose proof (in_its_group i canon_s r Hr) as Hg. rewrite Gb in Hg.
    destruct Hg as [<- | []].
    assert (Ha : In a (group i (cell_at i a) canon_p))
      by (rewrite Ga; left; reflexivity).
    apply group_key in Ha. apply Ha.
Qed.

(** X14: given the same validated rows, the two scripts keep the same
    canonical rows, whenever no customer has two different rows with
    the same [Last_Consulted_Date] or two without one: pandas' sort
    and [groupby().head(1)] and PySpark's window differ only in which
    of two tied rows they keep, in the order of the result, and in
    that PySpark's rows come without the cells of a column
    [row_number], which its script overwrites and drops.  Where the
    data have no such column the rows are the same. *)
Theorem scripts_keep_the_same_rows (df lp ls : frame) (i j : nat) :
  Pandas.column "Customer_Id" df = Ok i ->
  Pandas.column "Last_Consulted_Date" df = Ok j ->
  Pandas.global_latest_records df = Ok lp ->
  Spark.get_latest_data df = Ok ls ->
  Forall (fun r => is_null (cell_at i r) = false) (rows df) ->
  untied i j (rows df) ->
  (forall r',
      In r' (rows ls) <->
      exists r, In r (rows lp) /\
                r' = Spark.without "row_number" (columns df) r) /\
  (existsb (Spark.same_name "row_number") (columns df) = false ->
   forall r, In r (rows lp) <-> In r (rows ls)).
Proof.
  intros Hi Hj Hp Hs Hid Hun.
  apply spark_get_latest_data_inv in Hs.
  destruct Hs as (i' & j' & Hi' & Hj' & _ & ->).
  pose proof (canonical_rows_alike df lp i j i' j' Hi Hj Hi' Hj' Hp Hid Hun)
    as Hsame.
  split.
  - intros r'. cbn [Spark.drop rows columns]. rewrite in_map_iff. split.
    + intros (r & <- & Hr). exists r. split; [apply Hsame; exact Hr |].
      reflexivity.
    + intros (r & Hr & ->). exists r. split; [reflexivity |].
      apply Hsame. exact Hr.
  - intros Hplain. rewrite spark_drop_none by exact Hplain. exact Hsame.
Qed.

(** X14 on the validated rows of [sample_file], and on those of
    [numbered_file], whose first cell is the [Row_Number] of the
    file. *)
Lemma same_rows_on_sample :
  (Pandas.column "Customer_Id" pandas_validated = Ok 1 /\
   Pandas.column "Last_Consulted_Date" pandas_validated = Ok 3 /\
   Pandas.global_latest_records pandas_validated = Ok pandas_latest /\
   (forall r',
       In r' (rows (frame_of (Spark.get_latest_data pandas_validated))) <->
       exists r, In r (rows pandas_latest) /\
                 r' = Spark.without "row_number" (columns pandas_validated) r)
   /\
   (existsb (Spark.same_name "row_number") (columns pandas_validated)
      = false ->
    forall r,
      In r (rows pandas_latest) <->
      In r (rows (frame_of (Spark.get_latest_data pandas_validated))))) /\
  (Pandas.column "Customer_Id" numbered_staged = Ok 2 /\
   Pandas.column "Last_Consulted_Date" numbered_staged = Ok 4 /\
   (forall r',
       In r' (rows (frame_of (Spark.get_latest_data numbered_staged))) <->
       exists r,
         In r (rows (frame_of (Pandas.global_latest_records
                                 numbered_staged))) /\
         r' = Spark.without "row_number" (columns numbered_staged) r) /\
   (existsb (Spark.same_name "row_number") (columns numbered_staged)
      = false ->
    forall r,
      In r (rows (frame_of (Pandas.global_latest_records
                              numbered_staged))) <->
      In r (rows (frame_of (Spark.get_latest_data numbered_staged))))).
Proof.
  split.
  - split; [vm_compute; reflexivity |].
    split; [vm_compute; reflexivity |].
    split; [vm_compute; reflexivity |].
    apply (scripts_keep_the_same_rows pandas_validated pandas_latest
             (frame_of (Spark.get_latest_data pandas_validated)) 1 3).
    + vm_compute. reflexivity.
    + vm_compute. reflexivity.
    + vm_compute. reflexivity.
    + vm_compute. reflexivity.
    + repeat constructor.
    + unfold untied.
      repeat constructor;
        intros H; first [reflexivity | vm_compute in H; discriminate H].
  - split; [vm_compute; reflexivity |].
    split; [vm_compute; reflexivity |].
    apply (scripts_keep_the_same_rows numbered_staged
             (frame_of (Pandas.global_latest_records numbered_staged))
             (frame_of (Spark.get_latest_data numbered_staged)) 2 4).
    + vm_compute. reflexivity.
    + vm_compute. reflexivity.
    + vm_compute. reflexivity.
    + vm_compute. reflexivity.
    + repeat constructor.
    + unfold untied.
      repeat constructor;
        intros H; first [reflexivity | vm_compute in H; discriminate H].
Defined.

(** ** The canonical rows pandas writes *)

(** X15: pandas takes the countries from the validated rows, of which
    the canonical rows are some.  So when the loop over the countries
    ends without an exception, every canonical row with a country is
    written, with its three derived cells, to the table of its
    country. *)
Theorem pandas_canonical_rows_are_written (now : date)
    (fails : string -> bool) (staging latest : frame) (c b l : nat) :
  rectangular staging ->
  Forall (fun n => existsb (String.eqb n) (columns staging) = false)
         derived_names ->
  Pandas.global_latest_records staging = Ok latest ->
  Pandas.column "Country" staging = Ok c ->
  Pandas.column "DOB" staging = Ok b ->
  Pandas.column "Last_Consulted_Date" staging = Ok l ->
  status (Pandas.create_and_populate_country_tables now fails staging)
    = Ok tt ->
  forall r, In r (rows latest) -> cell_at c r <> Null ->
    exists table,
      In (Pandas.output_path (cell_at c r), table)
         (written (Pandas.create_and_populate_country_tables now fails
                     staging)) /\
      In (pandas_derived now b l r) (rows table).
Proof.
  intros Hrect Hfresh Hlat Hc Hb Hl Hdone r Hr Hnn.
  destruct (pandas_latest_subset _ _ Hlat) as [Lcols Lrows].
  unfold Pandas.create_and_populate_country_tables, Pandas.countries in *.
  rewrite Hlat, Hc in *. cbn [bind] in *.
  apply for_each_country_done in Hdone.
  assert (Hk : In (cell_at c r)
                  (unique (map (cell_at c) (rows staging))))
    by (apply unique_In, in_map, Lrows; exact Hr).
  destruct (written_table _ _ _ _ Hdone Hk) as ([path table] & Hw & Hbody).
  assert (Hlatest : rectangular latest).
  { intros r' Hr'. rewrite Lcols. apply Hrect, Lrows. exact Hr'. }
  rewrite <- Lcols in Hfresh.
  destruct (pandas_country_table_derived now latest _ path table
              Hlatest Hfresh Hbody)
    as (c' & b' & l' & Hc' & Hb' & Hl' & Hp & _ & Trows).
  unfold Pandas.column in *. rewrite Lcols in Hc', Hb', Hl'.
  assert (c' = c) by congruence. assert (b' = b) by congruence.
  assert (l' = l) by congruence. subst c' b' l' path.
  exists table. split; [exact Hw |].
  rewrite Trows. apply in_map. apply filter_In. split; [exact Hr |].
  apply equals_spec. split; [exact Hnn | reflexivity].
Qed.

Lemma pandas_canonical_rows_on_sample :
  Pandas.global_latest_records pandas_validated = Ok pandas_latest /\
  status (Pandas.create_and_populate_country_tables today storage_ok
            pandas_validated) = Ok tt /\
  forall r, In r (rows pandas_latest) -> cell_at 7 r <> Null ->
    exists table,
      In (Pandas.output_path (cell_at 7 r), table)
         (written (Pandas.create_and_populate_country_tables today
                     storage_ok pandas_validated)) /\
      In (pandas_derived today 8 3 r) (rows table).
Proof.
  split; [vm_compute; reflexivity |].
  split; [vm_compute; reflexivity |].
  apply (pandas_canonical_rows_are_written today storage_ok
           pandas_validated pandas_latest 7 8 3).
  - unfold rectangular. apply Forall_forall. repeat constructor.
  - repeat constructor.
  - vm_compute. reflexivity.
  - vm_compute. reflexivity.
  - vm_compute. reflexivity.
  - vm_compute. reflexivity.
  - vm_compute. reflexivity.
Defined.
